(** * qbittorrent-gluetun-port-sync: the health state and the sync orchestrator

    A shallow embedding of [src/health.py] ([HealthState]) and of
    [src/sync.py] ([PortSync.wait_for_services], [PortSync.sync_port] and
    the body of the loop of [PortSync.run]).  The two REST clients
    ([src/gluetun.py], [src/qbittorrent.py]) enter through the result
    records they hand to the orchestrator: a call on a client is any
    function from the state of the outside world to an outcome (an
    answer, or an exception that the client lets out) and a new state,
    and the statements hold for all such functions.

    A method of [PortSync] is a function from a state (the world, the
    health state, the calls made so far, the log) to an outcome (a value
    or a Python exception) and a new state.

    Vocabulary: the specification calls Gluetun "the gateway" and
    qBittorrent "the client". *)

From Stdlib Require Import ZArith List String Ascii Bool Lia DecimalString.
Import ListNotations.

Local Open Scope string_scope.
Local Open Scope Z_scope.

(* ===================================================================== *)
(** ** Python values used by the code *)

(** [needle in haystack] on Python strings. *)
Fixpoint contains (haystack needle : string) : bool :=
  String.prefix needle haystack ||
  match haystack with
  | EmptyString => false
  | String _ rest => contains rest needle
  end.

(** [str(i)] for an [int]. *)
Definition str_int (i : Z) : string := NilZero.string_of_int (Z.to_int i).

(** [str(x)] inside an f-string for an [int | None]. *)
Definition str_opt_int (x : option Z) : string :=
  match x with
  | Some i => str_int i
  | None => "None"
  end.

(** [str(x)] inside an f-string for a [str | None]. *)
Definition str_opt_str (x : option string) : string :=
  match x with
  | Some s => s
  | None => "None"
  end.

(** [a == b] on [int | None] values. *)
Definition opt_int_eqb (a b : option Z) : bool :=
  match a, b with
  | Some x, Some y => x =? y
  | None, None => true
  | _, _ => false
  end.

(** [range(lo, hi)]. *)
Definition py_range (lo hi : Z) : list Z :=
  map (fun i => lo + Z.of_nat i) (seq 0 (Z.to_nat (hi - lo))).

(* ===================================================================== *)
(** ** [src/health.py]: [HealthState]

    The lock makes every method one atomic step on the four fields, so a
    method is a function on the record. *)

Record HealthState := mkHealthState {
  _healthy : bool;
  _reason : string;
  _gluetun_ok : bool;
  _qbittorrent_ok : bool
}.

(** [HealthState.__init__] *)
Definition HealthState_init : HealthState :=
  {| _healthy := false;
     _reason := "Starting up";
     _gluetun_ok := false;
     _qbittorrent_ok := false |}.

(** [HealthState.set_healthy] *)
Definition set_healthy (healthy : bool) (reason : string) (h : HealthState)
  : HealthState :=
  {| _healthy := healthy;
     _reason := reason;
     _gluetun_ok := _gluetun_ok h;
     _qbittorrent_ok := _qbittorrent_ok h |}.

(** [HealthState.set_service_status] *)
Definition set_service_status (gluetun_ok qbittorrent_ok : bool)
  (h : HealthState) : HealthState :=
  if gluetun_ok && qbittorrent_ok then
    {| _healthy := true;
       _reason := "";
       _gluetun_ok := gluetun_ok;
       _qbittorrent_ok := qbittorrent_ok |}
  else
    let reasons : list string := [] in
    let reasons :=
      if negb gluetun_ok then (reasons ++ ["Gluetun unreachable"])%list
      else reasons in
    let reasons :=
      if negb qbittorrent_ok then (reasons ++ ["qBittorrent unreachable"])%list
      else reasons in
    {| _healthy := false;
       _reason := String.concat ", " reasons;
       _gluetun_ok := gluetun_ok;
       _qbittorrent_ok := qbittorrent_ok |}.

(** [HealthState.get_status] *)
Definition get_status (h : HealthState) : bool * string :=
  (_healthy h, _reason h).

(** The two write operations, as data, to speak of call sequences. *)
Inductive HealthCall :=
| SetHealthy (healthy : bool) (reason : string)
| SetServiceStatus (gluetun_ok qbittorrent_ok : bool).

Definition apply_call (h : HealthState) (c : HealthCall) : HealthState :=
  match c with
  | SetHealthy healthy reason => set_healthy healthy reason h
  | SetServiceStatus g q => set_service_status g q h
  end.

Definition apply_calls (cs : list HealthCall) (h : HealthState) : HealthState :=
  fold_left apply_call cs h.

(** A [set_healthy] call that does not itself pair [healthy=True] with a
    non-empty reason; [set_service_status] calls are unrestricted. *)
Definition reason_consistent (c : HealthCall) : Prop :=
  match c with
  | SetHealthy healthy reason => healthy = true -> reason = ""
  | SetServiceStatus _ _ => True
  end.

(* ===================================================================== *)
(** ** [src/gluetun.py], [src/qbittorrent.py]: the result records

    The orchestrator sees the two REST clients only through these
    dataclasses.  An authentication failure is a record with
    [is_auth_error = True], a transient failure one with
    [success = False] and [is_auth_error = False], and "no port" a
    successful one whose [port] is [None]. *)

Module Gluetun.
Record GluetunResult := mkResult {
  success : bool;
  port : option Z;
  error : option string;
  is_auth_error : bool
}.
End Gluetun.

Module QBittorrent.
Record QBittorrentResult := mkResult {
  success : bool;
  port : option Z;
  error : option string;
  is_auth_error : bool
}.
End QBittorrent.

Import Gluetun(GluetunResult).
Import QBittorrent(QBittorrentResult).

Inductive Level := DEBUG | INFO | WARNING | ERROR.

(** The exceptions at hand, each a subclass of [Exception].  The ones
    with a text are raised with that text; the others come from the
    interpreter with a text that depends on the value at fault. *)
Inductive Exception :=
| UnboundLocalError (name : string)
| ValueError (message : string)
| OverflowError
| OSError (message : string)
| AttributeError
| TypeError.

Inductive Outcome (A : Type) :=
| Return (a : A)
| Raise (e : Exception).
Arguments Return {A}.
Arguments Raise {A}.

(** What [sync.py] calls outside itself: the two clients and the clock.
    [World] is whatever the outcomes depend on (the network, both
    services, the clients' sessions, the time); every call may change
    it.  A call on a client returns a result record or lets an exception
    out.  [pysleep] is the system call under [time.sleep], for a length
    that [time.sleep] has accepted: the time passes, or the call fails
    and [time.sleep] raises. *)
Record Clients (World : Type) := mkClients {
  get_forwarded_port : World -> Outcome GluetunResult * World;
  get_listen_port : World -> Outcome QBittorrentResult * World;
  set_listen_port : Z -> World -> Outcome QBittorrentResult * World;
  pysleep : Z -> World -> option Exception * World
}.
Arguments get_forwarded_port {World}.
Arguments get_listen_port {World}.
Arguments set_listen_port {World}.
Arguments pysleep {World}.

(** [src/config.py]: the timing fields of [Config], each an [int] read
    from the environment without a range check. *)
Record Config := mkConfig {
  startup_check_delay : Z;
  startup_check_interval : Z;
  startup_max_attempts : Z;
  poll_interval : Z;
  verify_delay : Z;
  verify_max_attempts : Z;
  request_timeout : Z
}.

(** What one run does to the outside, in order: the calls that
    returned, with what they returned, the calls that raised, with what
    they raised, and the sleeps that passed. *)
Inductive Call :=
| GetForwardedPort (result : GluetunResult)
| GetListenPort (result : QBittorrentResult)
| SetListenPort (port : Z) (result : QBittorrentResult)
| Sleep (seconds : Z)
| GetForwardedPortRaised (e : Exception)
| GetListenPortRaised (e : Exception)
| SetListenPortRaised (port : Z) (e : Exception).

(** How a loop body leaves: on to the next statement, or out of the
    enclosing function through [return]. *)
Inductive Flow (A : Type) :=
| Next (a : A)
| Returned (b : bool).
Arguments Next {A}.
Arguments Returned {A}.

(* ===================================================================== *)
(** ** [src/sync.py]: [PortSync] *)

Section PortSync.

Context {World : Type}.
Variable clients : Clients World.

(** Everything a method of [PortSync] can read or change. *)
Record State := mkState {
  world : World;
  health_state : HealthState;
  calls : list Call;
  log : list (Level * string)
}.

(** A Python statement sequence: runs on a state, and either yields a
    value or raises. *)
Definition M (A : Type) : Type := State -> Outcome A * State.

Definition ret {A} (a : A) : M A := fun st => (Return a, st).

Definition raise {A} (e : Exception) : M A := fun st => (Raise e, st).

Definition bind {A B} (m : M A) (k : A -> M B) : M B :=
  fun st =>
    match m st with
    | (Return a, st') => k a st'
    | (Raise e, st') => (Raise e, st')
    end.

(** [try: body / except Exception as e: handler(e)] *)
Definition try_except {A} (body : M A) (handler : Exception -> M A) : M A :=
  fun st =>
    match body st with
    | (Return a, st') => (Return a, st')
    | (Raise e, st') => handler e st'
    end.

Notation "x <- m ;; k" := (bind m (fun x => k))
  (at level 100, m at next level, right associativity).
Notation "m ;; k" := (bind m (fun _ => k))
  (at level 100, right associativity).

Definition logger (level : Level) (msg : string) : M unit :=
  fun st =>
    (Return tt,
     {| world := world st;
        health_state := health_state st;
        calls := calls st;
        log := (log st ++ [(level, msg)])%list |}).

Definition update_health (f : HealthState -> HealthState) : M unit :=
  fun st =>
    (Return tt,
     {| world := world st;
        health_state := f (health_state st);
        calls := calls st;
        log := log st |}).

(** What [time.sleep(seconds)] raises before it sleeps, for an [int]:
    the length is first converted to nanoseconds in 64 bits, which
    overflows beyond 9223372036 seconds on either side, and then must
    not be negative. *)
Definition sleep_rejects (seconds : Z) : option Exception :=
  if (seconds <? -9223372036) || (9223372036 <? seconds)
  then Some OverflowError
  else if seconds <? 0
  then Some (ValueError "sleep length must be non-negative")
  else None.

(** [time.sleep(seconds)] *)
Definition time_sleep (seconds : Z) : M unit :=
  fun st =>
    match sleep_rejects seconds with
    | Some e => (Raise e, st)
    | None =>
      let (failure, w) := pysleep clients seconds (world st) in
      match failure with
      | None =>
        (Return tt,
         {| world := w;
            health_state := health_state st;
            calls := (calls st ++ [Sleep seconds])%list;
            log := log st |})
      | Some e =>
        (Raise e,
         {| world := w;
            health_state := health_state st;
            calls := calls st;
            log := log st |})
      end
    end.

(** [self.gluetun.get_forwarded_port()] *)
Definition gluetun_get_forwarded_port : M GluetunResult :=
  fun st =>
    let (r, w) := get_forwarded_port clients (world st) in
    match r with
    | Return result =>
      (Return result,
       {| world := w;
          health_state := health_state st;
          calls := (calls st ++ [GetForwardedPort result])%list;
          log := log st |})
    | Raise e =>
      (Raise e,
       {| world := w;
          health_state := health_state st;
          calls := (calls st ++ [GetForwardedPortRaised e])%list;
          log := log st |})
    end.

(** [self.qbittorrent.get_listen_port()] *)
Definition qbittorrent_get_listen_port : M QBittorrentResult :=
  fun st =>
    let (r, w) := get_listen_port clients (world st) in
    match r with
    | Return result =>
      (Return result,
       {| world := w;
          health_state := health_state st;
          calls := (calls st ++ [GetListenPort result])%list;
          log := log st |})
    | Raise e =>
      (Raise e,
       {| world := w;
          health_state := health_state st;
          calls := (calls st ++ [GetListenPortRaised e])%list;
          log := log st |})
    end.

(** [self.qbittorrent.set_listen_port(port)] *)
Definition qbittorrent_set_listen_port (port : Z) : M QBittorrentResult :=
  fun st =>
    let (r, w) := set_listen_port clients port (world st) in
    match r with
    | Return result =>
      (Return result,
       {| world := w;
          health_state := health_state st;
          calls := (calls st ++ [SetListenPort port result])%list;
          log := log st |})
    | Raise e =>
      (Raise e,
       {| world := w;
          health_state := health_state st;
          calls := (calls st ++ [SetListenPortRaised port e])%list;
          log := log st |})
    end.

(** [GluetunClient.check_ready], [QBittorrentClient.check_ready] *)
Definition gluetun_check_ready : M GluetunResult :=
  gluetun_get_forwarded_port.
Definition qbittorrent_check_ready : M QBittorrentResult :=
  qbittorrent_get_listen_port.

(** *** [wait_for_services] *)

(** The body of [for attempt in range(1, startup_max_attempts + 1)],
    over the attempts still to run; [Next] when they ran out. *)
Fixpoint wait_for_services_loop (config : Config) (attempts : list Z)
  (gluetun_ready qbittorrent_ready : bool) : M (Flow unit) :=
  match attempts with
  | [] => ret (Next tt)
  | attempt :: rest =>
    g <- (if negb gluetun_ready then
            (logger INFO ("Checking Gluetun... (attempt " ++ str_int attempt
                          ++ "/" ++ str_int (startup_max_attempts config)
                          ++ ")") ;;
             result <- gluetun_check_ready ;;
             if Gluetun.is_auth_error result then
               (logger ERROR ("Gluetun authentication failed: "
                              ++ str_opt_str (Gluetun.error result)) ;;
                ret (Returned false))
             else if Gluetun.success result then
               (logger INFO "Gluetun is ready" ;;
                ret (Next true))
             else
               (logger DEBUG ("Gluetun not ready: "
                              ++ str_opt_str (Gluetun.error result)) ;;
                ret (Next gluetun_ready)))
          else ret (Next gluetun_ready)) ;;
    match g with
    | Returned b => ret (Returned b)
    | Next gluetun_ready =>
      q <- (if negb qbittorrent_ready then
              (logger INFO ("Checking qBittorrent... (attempt "
                            ++ str_int attempt ++ "/"
                            ++ str_int (startup_max_attempts config)
                            ++ ")") ;;
               result <- qbittorrent_check_ready ;;
               if QBittorrent.is_auth_error result then
                 (logger ERROR ("qBittorrent authentication failed: "
                                ++ str_opt_str (QBittorrent.error result)) ;;
                  ret (Returned false))
               else if QBittorrent.success result then
                 (logger INFO "qBittorrent is ready" ;;
                  ret (Next true))
               else
                 (logger DEBUG ("qBittorrent not ready: "
                                ++ str_opt_str (QBittorrent.error result)) ;;
                  ret (Next qbittorrent_ready)))
            else ret (Next qbittorrent_ready)) ;;
      match q with
      | Returned b => ret (Returned b)
      | Next qbittorrent_ready =>
        if gluetun_ready && qbittorrent_ready then
          (logger INFO "Both services ready" ;;
           update_health (set_service_status true true) ;;
           ret (Returned true))
        else
          ((if attempt <? startup_max_attempts config
            then time_sleep (startup_check_interval config)
            else ret tt) ;;
           wait_for_services_loop config rest gluetun_ready qbittorrent_ready)
      end
    end
  end.

Definition wait_for_services (config : Config) : M bool :=
  logger INFO "Waiting for services to be ready..." ;;
  r <- wait_for_services_loop config
         (py_range 1 (startup_max_attempts config + 1)) false false ;;
  match r with
  | Returned b => ret b
  | Next _ =>
    logger ERROR ("Services not ready after "
                  ++ str_int (startup_max_attempts config) ++ " attempts") ;;
    ret false
  end.

(** *** [sync_port] *)

(** The body of [for attempt in range(1, verify_max_attempts + 1)].
    [verify_result] is the local variable of that name: [None] while no
    assignment has reached it.  The loop yields how it left ([Returned]
    from inside, or [Next] when the attempts ran out) and the variable. *)
Fixpoint verify_loop (config : Config) (gluetun_port : Z)
  (attempts : list Z) (verify_result : option QBittorrentResult)
  : M (Flow unit * option QBittorrentResult) :=
  match attempts with
  | [] => ret (Next tt, verify_result)
  | attempt :: rest =>
    time_sleep (verify_delay config) ;;
    verify_result <- qbittorrent_get_listen_port ;;
    if negb (QBittorrent.success verify_result) then
      (logger WARNING ("Failed to verify port update (attempt "
                       ++ str_int attempt ++ "/"
                       ++ str_int (verify_max_attempts config) ++ "): "
                       ++ str_opt_str (QBittorrent.error verify_result)) ;;
       verify_loop config gluetun_port rest (Some verify_result))
    else if opt_int_eqb (QBittorrent.port verify_result) (Some gluetun_port)
    then
      (logger INFO ("Port updated successfully to " ++ str_int gluetun_port) ;;
       ret (Returned true, Some verify_result))
    else
      (logger DEBUG ("Port not yet updated (attempt " ++ str_int attempt
                     ++ "/" ++ str_int (verify_max_attempts config)
                     ++ "): expected " ++ str_int gluetun_port ++ ", got "
                     ++ str_opt_int (QBittorrent.port verify_result)) ;;
       verify_loop config gluetun_port rest (Some verify_result))
  end.

Definition sync_port (config : Config) : M bool :=
  gluetun_result <- gluetun_get_forwarded_port ;;
  if Gluetun.is_auth_error gluetun_result then
    (logger ERROR ("Gluetun auth error: "
                   ++ str_opt_str (Gluetun.error gluetun_result)) ;;
     update_health (set_healthy false
                      ("Gluetun auth error: "
                       ++ str_opt_str (Gluetun.error gluetun_result))) ;;
     ret false)
  else if negb (Gluetun.success gluetun_result) then
    (logger WARNING ("Failed to get Gluetun port: "
                     ++ str_opt_str (Gluetun.error gluetun_result)) ;;
     update_health (set_service_status false true) ;;
     ret false)
  else
    match Gluetun.port gluetun_result with
    | None =>
      logger WARNING "No port forwarded (VPN may be disconnected)" ;;
      update_health (set_service_status true true) ;;
      ret true
    | Some gluetun_port =>
      qbt_result <- qbittorrent_get_listen_port ;;
      if QBittorrent.is_auth_error qbt_result then
        (logger ERROR ("qBittorrent auth error: "
                       ++ str_opt_str (QBittorrent.error qbt_result)) ;;
         update_health (set_healthy false
                          ("qBittorrent auth error: "
                           ++ str_opt_str (QBittorrent.error qbt_result))) ;;
         ret false)
      else if negb (QBittorrent.success qbt_result) then
        (logger WARNING ("Failed to get qBittorrent port: "
                         ++ str_opt_str (QBittorrent.error qbt_result)) ;;
         update_health (set_service_status true false) ;;
         ret false)
      else
        let current_port := QBittorrent.port qbt_result in
        update_health (set_service_status true true) ;;
        if opt_int_eqb current_port (Some gluetun_port) then
          (logger INFO ("Port unchanged (" ++ str_opt_int current_port ++ ")") ;;
           ret true)
        else
          (logger INFO ("Port changed: " ++ str_opt_int current_port ++ " -> "
                        ++ str_int gluetun_port ++ ", updating qBittorrent") ;;
           update_result <- qbittorrent_set_listen_port gluetun_port ;;
           (if negb (QBittorrent.success update_result) then
              logger ERROR ("Failed to update port: "
                            ++ str_opt_str (QBittorrent.error update_result))
            else ret tt) ;;
           v <- verify_loop config gluetun_port
                  (py_range 1 (verify_max_attempts config + 1)) None ;;
           match v with
           | (Returned b, _) => ret b
           | (Next _, verify_result) =>
             (* the f-string of the last warning reads verify_result.port *)
             match verify_result with
             | None => raise (UnboundLocalError "verify_result")
             | Some verify_result =>
               logger WARNING ("Port verification failed after "
                               ++ str_int (verify_max_attempts config)
                               ++ " attempts: expected " ++ str_int gluetun_port
                               ++ ", got "
                               ++ str_opt_int (QBittorrent.port verify_result)) ;;
               ret false
             end
           end)
    end.

(** *** [run]

    One pass through the body of [while True].  [str_exc] is [str(e)]. *)
Definition run_iteration (str_exc : Exception -> string) (config : Config)
  : M unit :=
  try_except
    (sync_port config ;; ret tt)
    (fun e =>
       logger ERROR ("Unexpected error in sync loop: " ++ str_exc e) ;;
       update_health (set_healthy false (str_exc e))) ;;
  logger DEBUG ("Sleeping for " ++ str_int (poll_interval config) ++ "s") ;;
  time_sleep (poll_interval config).

End PortSync.

Arguments State : clear implicits.
Arguments M : clear implicits.

(* ===================================================================== *)
(** ** Concrete runs

    Clients that answer from a script: each call takes the next scripted
    answer of its kind, and times out once its script is used up; every
    sleep passes. *)

Record Script := mkScript {
  forwarded_port_answers : list GluetunResult;
  listen_port_answers : list QBittorrentResult;
  set_port_answers : list QBittorrentResult
}.

Definition gluetun_timeout : GluetunResult :=
  Gluetun.mkResult false None (Some "Request timed out") false.

Definition qbittorrent_timeout : QBittorrentResult :=
  QBittorrent.mkResult false None (Some "Request timed out") false.

Definition scripted : Clients Script :=
  {| get_forwarded_port := fun w =>
       match forwarded_port_answers w with
       | [] => (Return gluetun_timeout, w)
       | r :: rest =>
         (Return r, mkScript rest (listen_port_answers w) (set_port_answers w))
       end;
     get_listen_port := fun w =>
       match listen_port_answers w with
       | [] => (Return qbittorrent_timeout, w)
       | r :: rest =>
         (Return r,
          mkScript (forwarded_port_answers w) rest (set_port_answers w))
       end;
     set_listen_port := fun _ w =>
       match set_port_answers w with
       | [] => (Return qbittorrent_timeout, w)
       | r :: rest =>
         (Return r,
          mkScript (forwarded_port_answers w) (listen_port_answers w) rest)
       end;
     pysleep := fun _ w => (None, w) |}.

(** Answers as the two clients build them. *)
Definition gluetun_ok (port : Z) : GluetunResult :=
  Gluetun.mkResult true (Some port) None false.

Definition gluetun_no_port : GluetunResult :=
  Gluetun.mkResult true None
    (Some "No port forwarded (VPN may be disconnected)") false.

Definition gluetun_auth_failed : GluetunResult :=
  Gluetun.mkResult false None (Some "Authentication failed") true.

Definition qbittorrent_ok (port : Z) : QBittorrentResult :=
  QBittorrent.mkResult true (Some port) None false.

Definition qbittorrent_auth_failed : QBittorrentResult :=
  QBittorrent.mkResult false None (Some "Authentication failed") true.

(** The configuration with every default of [Config.__init__]. *)
Definition default_config : Config :=
  {| startup_check_delay := 5;
     startup_check_interval := 5;
     startup_max_attempts := 60;
     poll_interval := 30;
     verify_delay := 2;
     verify_max_attempts := 3;
     request_timeout := 10 |}.

(** [VERIFY_MAX_ATTEMPTS=0], everything else by default. *)
Definition no_verify_config : Config :=
  {| startup_check_delay := 5;
     startup_check_interval := 5;
     startup_max_attempts := 60;
     poll_interval := 30;
     verify_delay := 2;
     verify_max_attempts := 0;
     request_timeout := 10 |}.

(** [VERIFY_DELAY=-1], everything else by default. *)
Definition negative_delay_config : Config :=
  {| startup_check_delay := 5;
     startup_check_interval := 5;
     startup_max_attempts := 60;
     poll_interval := 30;
     verify_delay := -1;
     verify_max_attempts := 3;
     request_timeout := 10 |}.

(** [VERIFY_DELAY=10000000000], everything else by default. *)
Definition huge_delay_config : Config :=
  {| startup_check_delay := 5;
     startup_check_interval := 5;
     startup_max_attempts := 60;
     poll_interval := 30;
     verify_delay := 10000000000;
     verify_max_attempts := 3;
     request_timeout := 10 |}.

(** The process state when [main] reaches its first cycle:
    [wait_for_services] has just marked both services reachable. *)
Definition started (w : Script) : State Script :=
  {| world := w;
     health_state := set_service_status true true HealthState_init;
     calls := [];
     log := [] |}.

(** The process state when [main] calls [wait_for_services]. *)
Definition fresh (w : Script) : State Script :=
  {| world := w;
     health_state := HealthState_init;
     calls := [];
     log := [] |}.

(* ===================================================================== *)
(** ** Vocabulary of the statements *)

(** The read answered with this port. *)
Definition reads_port (target : Z) (r : QBittorrentResult) : bool :=
  QBittorrent.success r && opt_int_eqb (QBittorrent.port r) (Some target).

Definition is_write (c : Call) : bool :=
  match c with
  | SetListenPort _ _ | SetListenPortRaised _ _ => true
  | _ => false
  end.

Definition is_client_call (c : Call) : bool :=
  match c with
  | GetListenPort _ | SetListenPort _ _
  | GetListenPortRaised _ | SetListenPortRaised _ _ => true
  | _ => false
  end.

Definition is_gluetun_probe (c : Call) : bool :=
  match c with
  | GetForwardedPort _ | GetForwardedPortRaised _ => true
  | _ => false
  end.

Definition is_qbittorrent_probe (c : Call) : bool :=
  match c with
  | GetListenPort _ | GetListenPortRaised _ => true
  | _ => false
  end.

(** A probe that was answered with an authentication failure. *)
Definition is_auth_failure (c : Call) : bool :=
  match c with
  | GetForwardedPort r => Gluetun.is_auth_error r
  | GetListenPort r => QBittorrent.is_auth_error r
  | _ => false
  end.

(** A probe that was answered, and not with a failure of any kind. *)
Definition gluetun_answered (c : Call) : bool :=
  match c with
  | GetForwardedPort r => negb (Gluetun.is_auth_error r) && Gluetun.success r
  | _ => false
  end.

Definition qbittorrent_answered (c : Call) : bool :=
  match c with
  | GetListenPort r =>
    negb (QBittorrent.is_auth_error r) && QBittorrent.success r
  | _ => false
  end.

Definition count (p : Call -> bool) (cs : list Call) : nat :=
  List.length (filter p cs).

(** The exception that this call let out, if it did. *)
Definition call_raised (c : Call) : option Exception :=
  match c with
  | GetForwardedPortRaised e | GetListenPortRaised e
  | SetListenPortRaised _ e => Some e
  | _ => None
  end.

(** A read of qBittorrent that returned this port. *)
Definition read_shows (target : Z) (c : Call) : bool :=
  match c with
  | GetListenPort r => reads_port target r
  | _ => false
  end.

(** [time.sleep(seconds)] returns, in whatever state the world is: it
    accepts the length, and the system call does not fail. *)
Definition sleep_passes {World : Type} (clients : Clients World)
  (seconds : Z) : Prop :=
  sleep_rejects seconds = None /\
  forall w, fst (pysleep clients seconds w) = None.

(** [time.sleep(seconds)] can raise [e]: it rejects the length with
    [e], or the system call fails with [e] in some state of the world. *)
Definition sleep_raises {World : Type} (clients : Clients World)
  (seconds : Z) (e : Exception) : Prop :=
  sleep_rejects seconds = Some e \/
  exists w, fst (pysleep clients seconds w) = Some e.

(** Gluetun forwards port 54321, qBittorrent listens on 12345, accepts
    the write, and shows 54321 at the next read. *)
Definition port_changed_script : Script :=
  {| forwarded_port_answers := [gluetun_ok 54321];
     listen_port_answers := [qbittorrent_ok 12345; qbittorrent_ok 54321];
     set_port_answers := [qbittorrent_ok 54321] |}.

(** As [port_changed_script], but the write is refused and the port
    never changes. *)
Definition refused_write_script : Script :=
  {| forwarded_port_answers := [gluetun_ok 54321];
     listen_port_answers := [qbittorrent_ok 12345];
     set_port_answers :=
       [QBittorrent.mkResult false None (Some "Failed to set port: 500") false] |}.

(** Two cycles: in the first one Gluetun forwards 54321 and the read of
    qBittorrent times out; in the second one Gluetun times out. *)
Definition both_time_out_script : Script :=
  {| forwarded_port_answers := [gluetun_ok 54321; gluetun_timeout];
     listen_port_answers := [qbittorrent_timeout];
     set_port_answers := [] |}.

(** The state that the first cycle of [both_time_out_script] leaves. *)
Definition after_client_timeout : State Script :=
  snd (sync_port scripted default_config (started both_time_out_script)).

(** Gluetun rejects the credentials. *)
Definition gluetun_rejects_script : Script :=
  {| forwarded_port_answers := [gluetun_auth_failed];
     listen_port_answers := [qbittorrent_ok 12345];
     set_port_answers := [] |}.

(** Gluetun forwards 54321, qBittorrent rejects the credentials. *)
Definition qbittorrent_rejects_script : Script :=
  {| forwarded_port_answers := [gluetun_ok 54321];
     listen_port_answers := [qbittorrent_auth_failed; qbittorrent_ok 12345];
     set_port_answers := [qbittorrent_ok 54321] |}.

(** Gluetun answers, with no port forwarded. *)
Definition vpn_down_script : Script :=
  {| forwarded_port_answers := [gluetun_no_port];
     listen_port_answers := [qbittorrent_ok 12345];
     set_port_answers := [] |}.

(** Gluetun forwards 54321 and qBittorrent already listens on it. *)
Definition steady_script : Script :=
  {| forwarded_port_answers := [gluetun_ok 54321];
     listen_port_answers := [qbittorrent_ok 54321];
     set_port_answers := [] |}.

(** An authentication failure, if there is one among these calls, is the
    last of them. *)
Fixpoint auth_failure_last (cs : list Call) : bool :=
  match cs with
  | [] => true
  | c :: rest =>
    if is_auth_failure c
    then match rest with [] => true | _ :: _ => false end
    else auth_failure_last rest
  end.

(** A probe whose answer was not an authentication failure. *)
Definition gluetun_no_auth_failure (c : Call) : bool :=
  is_gluetun_probe c && negb (is_auth_failure c).

Definition qbittorrent_no_auth_failure (c : Call) : bool :=
  is_qbittorrent_probe c && negb (is_auth_failure c).

(** Startup: Gluetun times out once and then answers with no port;
    qBittorrent answers at once. *)
Definition slow_gluetun_script : Script :=
  {| forwarded_port_answers := [gluetun_timeout; gluetun_no_port];
     listen_port_answers := [qbittorrent_ok 12345];
     set_port_answers := [] |}.

(** Startup: Gluetun times out once and then rejects the credentials;
    qBittorrent times out once. *)
Definition late_rejection_script : Script :=
  {| forwarded_port_answers := [gluetun_timeout; gluetun_auth_failed];
     listen_port_answers := [qbittorrent_timeout; qbittorrent_ok 12345];
     set_port_answers := [] |}.

(** Gluetun forwards 54321 and qBittorrent listens on 12345; after the
    write the session of qBittorrent is rejected at the first
    verification read, and the second one shows 54321. *)
Definition rejected_verification_script : Script :=
  {| forwarded_port_answers := [gluetun_ok 54321];
     listen_port_answers :=
       [qbittorrent_ok 12345; qbittorrent_auth_failed; qbittorrent_ok 54321];
     set_port_answers := [qbittorrent_ok 54321] |}.

(** Gluetun forwards 54321; qBittorrent accepts the write but goes on
    listening on 12345. *)
Definition stuck_port_script : Script :=
  {| forwarded_port_answers := [gluetun_ok 54321];
     listen_port_answers :=
       [qbittorrent_ok 12345; qbittorrent_ok 12345; qbittorrent_ok 12345;
        qbittorrent_ok 12345];
     set_port_answers := [qbittorrent_ok 54321] |}.

(* ===================================================================== *)
(** ** [src/sync.py]: the loop of [run] *)

Section PortSyncRun.

Context {World : Type}.
Variable clients : Clients World.

(** [run], cut after [n] passes through the body of [while True]. *)
Fixpoint run_iterations (str_exc : Exception -> string) (n : nat)
  (config : Config) : M World unit :=
  match n with
  | O => ret tt
  | S n' =>
    bind (run_iteration clients str_exc config)
         (fun _ => run_iterations str_exc n' config)
  end.

End PortSyncRun.

(** *** More vocabulary *)

Definition is_sleep (c : Call) : bool :=
  match c with Sleep _ => true | _ => false end.

(** The calls of a verification phase: sleeps and reads. *)
Definition is_verification_call (c : Call) : bool :=
  match c with
  | Sleep _ | GetListenPort _ | GetListenPortRaised _ => true
  | _ => false
  end.

(** What the health state promises to the probe: healthy only with the
    empty reason and both services marked reachable. *)
Definition health_consistent (h : HealthState) : Prop :=
  _healthy h = true ->
  _reason h = "" /\ _gluetun_ok h = true /\ _qbittorrent_ok h = true.

(** No call that [answered] accepts is followed by a call that [probe]
    accepts. *)
Fixpoint answered_is_last_probe (probe answered : Call -> bool)
  (cs : list Call) : bool :=
  match cs with
  | [] => true
  | c :: rest =>
    (if answered c then negb (existsb probe rest) else true)
    && answered_is_last_probe probe answered rest
  end.

(** What the calls of one cycle can be. *)
Inductive cycle_calls : list Call -> Prop :=
| gluetun_raised e :
    cycle_calls [GetForwardedPortRaised e]
| gluetun_only g :
    Gluetun.is_auth_error g = true \/
    Gluetun.success g = false \/
    Gluetun.port g = None ->
    cycle_calls [GetForwardedPort g]
| read_raised g target e :
    Gluetun.is_auth_error g = false ->
    Gluetun.success g = true ->
    Gluetun.port g = Some target ->
    cycle_calls [GetForwardedPort g; GetListenPortRaised e]
| read_only g target q :
    Gluetun.is_auth_error g = false ->
    Gluetun.success g = true ->
    Gluetun.port g = Some target ->
    QBittorrent.is_auth_error q = true \/
    QBittorrent.success q = false \/
    QBittorrent.port q = Some target ->
    cycle_calls [GetForwardedPort g; GetListenPort q]
| write_raised g target q e :
    Gluetun.is_auth_error g = false ->
    Gluetun.success g = true ->
    Gluetun.port g = Some target ->
    QBittorrent.is_auth_error q = false ->
    QBittorrent.success q = true ->
    QBittorrent.port q <> Some target ->
    cycle_calls [GetForwardedPort g; GetListenPort q;
                 SetListenPortRaised target e]
| written g target q u verification :
    Gluetun.is_auth_error g = false ->
    Gluetun.success g = true ->
    Gluetun.port g = Some target ->
    QBittorrent.is_auth_error q = false ->
    QBittorrent.success q = true ->
    QBittorrent.port q <> Some target ->
    forallb is_verification_call verification = true ->
    cycle_calls ([GetForwardedPort g; GetListenPort q; SetListenPort target u]
                 ++ verification).

(** Two cycles in a row on [both_time_out_script]: three calls in all. *)
Definition two_cycles : State Script :=
  snd (run_iterations scripted (fun _ => "error") 2 default_config
         (started both_time_out_script)).

(** [POLL_INTERVAL=-1], everything else by default. *)
Definition negative_poll_config : Config :=
  {| startup_check_delay := 5;
     startup_check_interval := 5;
     startup_max_attempts := 60;
     poll_interval := -1;
     verify_delay := 2;
     verify_max_attempts := 3;
     request_timeout := 10 |}.

(** The loop of the gate was left through [return True]. *)
Definition returned_true (out : Outcome (Flow unit)) : bool :=
  match out with
  | Return (Returned true) => true
  | _ => false
  end.

(** [STARTUP_MAX_ATTEMPTS=0], everything else by default. *)
Definition no_startup_config : Config :=
  {| startup_check_delay := 5;
     startup_check_interval := 5;
     startup_max_attempts := 0;
     poll_interval := 30;
     verify_delay := 2;
     verify_max_attempts := 3;
     request_timeout := 10 |}.

(** [STARTUP_MAX_ATTEMPTS=2], everything else by default. *)
Definition two_attempts_config : Config :=
  {| startup_check_delay := 5;
     startup_check_interval := 5;
     startup_max_attempts := 2;
     poll_interval := 30;
     verify_delay := 2;
     verify_max_attempts := 3;
     request_timeout := 10 |}.

(** Startup: qBittorrent answers at once, Gluetun never does. *)
Definition gluetun_down_script : Script :=
  {| forwarded_port_answers := [];
     listen_port_answers := [qbittorrent_ok 12345];
     set_port_answers := [] |}.

(* ===================================================================== *)
(** ** [src/health.py]: [HealthHandler.do_GET]

    What the handler does on its connection, in order.  [WriteJson d]
    stands for [self.wfile.write(json.dumps(d).encode())]. *)

Inductive HandlerAction :=
| SendResponse (code : Z)
| SendHeader (keyword value : string)
| EndHeaders
| WriteJson (response : list (string * string)).

(** [do_GET], for the request path [path], on the shared [state]. *)
Definition do_GET (path : string) (state : HealthState)
  : list HandlerAction :=
  if String.eqb path "/health" then
    let (healthy, reason) := get_status state in
    let (status, response) :=
      if healthy
      then (SendResponse 200, [("status", "healthy")])
      else (SendResponse 503, [("status", "unhealthy"); ("reason", reason)]) in
    [status;
     SendHeader "Content-Type" "application/json";
     EndHeaders;
     WriteJson response]
  else
    [SendResponse 404; EndHeaders].

(** The status code the handler sends. *)
Definition status_code_sent (actions : list HandlerAction) : option Z :=
  match actions with
  | SendResponse code :: _ => Some code
  | _ => None
  end.

(** The body the handler writes, if it writes one. *)
Definition body_written (actions : list HandlerAction)
  : option (list (string * string)) :=
  match filter (fun a => match a with WriteJson _ => true | _ => false end)
               actions with
  | [WriteJson d] => Some d
  | _ => None
  end.

(** The status that a cycle with these calls leaves, [before] being the
    status it found: a function of the outcome of the call on Gluetun
    and of that of the first call on qBittorrent. *)
Definition status_after (before : bool * string) (new : list Call)
  : option (bool * string) :=
  match new with
  | GetForwardedPortRaised _ :: _ => Some before
  | GetForwardedPort g :: rest =>
    if Gluetun.is_auth_error g then
      Some (false, "Gluetun auth error: " ++ str_opt_str (Gluetun.error g))
    else if negb (Gluetun.success g) then
      Some (false, "Gluetun unreachable")
    else
      match Gluetun.port g, rest with
      | None, _ => Some (true, "")
      | Some _, GetListenPortRaised _ :: _ => Some before
      | Some _, GetListenPort q :: _ =>
        if QBittorrent.is_auth_error q then
          Some (false,
                "qBittorrent auth error: " ++ str_opt_str (QBittorrent.error q))
        else if negb (QBittorrent.success q) then
          Some (false, "qBittorrent unreachable")
        else Some (true, "")
      | Some _, _ => None
      end
  | _ => None
  end.
(* ===================================================================== *)
(** ** [src/config.py]: [Config] in full

    [Config] with all its attributes, as [Config.__init__] leaves them:
    the URLs and the log level are strings, the credentials are strings
    or [None], and [timing] holds the seven timing attributes as the
    orchestrator reads them. *)

Record AppConfig := mkAppConfig {
  gluetun_url : string;
  qbittorrent_url : string;
  gluetun_api_key : option string;
  gluetun_username : option string;
  gluetun_password : option string;
  qbittorrent_username : option string;
  qbittorrent_password : option string;
  qbittorrent_verify_ssl : bool;
  timing : Config;
  log_level : string;
  health_enabled : bool;
  health_port : Z
}.

(** [bool(x)] for a [str]. *)
Definition str_truthy (s : string) : bool :=
  match s with
  | EmptyString => false
  | String _ _ => true
  end.

(** [bool(x)] for a [str | None]. *)
Definition opt_truthy (x : option string) : bool :=
  match x with
  | Some s => str_truthy s
  | None => false
  end.

(** [x in xs] for strings. *)
Definition str_in (x : string) (xs : list string) : bool :=
  existsb (String.eqb x) xs.

Section Validation.

(** [urllib.parse.urlparse]: the scheme and the network location of a
    URL, or [None] where it raises. *)
Variable urlparse : string -> option (string * string).

(** [Config._is_valid_url] *)
Definition _is_valid_url (url : string) : bool :=
  match urlparse url with
  | Some (scheme, netloc) =>
    str_in scheme ["http"; "https"] && str_truthy netloc
  | None => false
  end.

(** [Config.validate] *)
Definition validate (self : AppConfig) : list string :=
  let errors : list string := [] in
  let errors :=
    if negb (str_truthy (gluetun_url self)) then
      (errors ++ ["GLUETUN_URL is required"])%list
    else if negb (_is_valid_url (gluetun_url self)) then
      (errors ++ [("GLUETUN_URL is not a valid URL: "
                   ++ gluetun_url self)%string])%list
    else errors in
  let errors :=
    if negb (str_truthy (qbittorrent_url self)) then
      (errors ++ ["QBITTORRENT_URL is required"])%list
    else if negb (_is_valid_url (qbittorrent_url self)) then
      (errors ++ [("QBITTORRENT_URL is not a valid URL: "
                   ++ qbittorrent_url self)%string])%list
    else errors in
  let errors :=
    if negb (str_in (log_level self)
               ["DEBUG"; "INFO"; "WARN"; "WARNING"; "ERROR"]) then
      (errors ++ [("LOG_LEVEL must be DEBUG, INFO, WARN, or ERROR: "
                   ++ log_level self)%string])%list
    else errors in
  errors.

End Validation.

(** [Config.log_config]: the records it hands to the logger, in order. *)
Definition log_config (self : AppConfig) : list (Level * string) :=
  List.concat
    [[(INFO, "Gluetun URL: " ++ gluetun_url self);
      (INFO, "qBittorrent URL: " ++ qbittorrent_url self)];
     [if opt_truthy (gluetun_api_key self) then
        (INFO, "Gluetun auth: API key")
      else if opt_truthy (gluetun_username self) then
        (INFO, "Gluetun auth: Basic auth (user: "
               ++ str_opt_str (gluetun_username self) ++ ")")
      else (INFO, "Gluetun auth: None")];
     [if opt_truthy (qbittorrent_username self) then
        (INFO, "qBittorrent auth: Enabled (user: "
               ++ str_opt_str (qbittorrent_username self) ++ ")")
      else (INFO, "qBittorrent auth: Disabled")];
     [(INFO, "Poll interval: " ++ str_int (poll_interval (timing self)) ++ "s");
      (INFO, "Startup check delay: "
             ++ str_int (startup_check_delay (timing self)) ++ "s");
      (INFO, "Startup check interval: "
             ++ str_int (startup_check_interval (timing self)) ++ "s");
      (INFO, "Startup max attempts: "
             ++ str_int (startup_max_attempts (timing self)));
      (INFO, "Request timeout: "
             ++ str_int (request_timeout (timing self)) ++ "s");
      (INFO, "Health endpoint: "
             ++ (if health_enabled self then "enabled" else "disabled"))];
     if health_enabled self then
       [(INFO, "Health port: " ++ str_int (health_port self))]
     else []].

(** [self] with other secrets: another API key, other passwords. *)
Definition with_secrets (self : AppConfig)
  (api_key gluetun_pw qbittorrent_pw : option string) : AppConfig :=
  {| gluetun_url := gluetun_url self;
     qbittorrent_url := qbittorrent_url self;
     gluetun_api_key := api_key;
     gluetun_username := gluetun_username self;
     gluetun_password := gluetun_pw;
     qbittorrent_username := qbittorrent_username self;
     qbittorrent_password := qbittorrent_pw;
     qbittorrent_verify_ssl := qbittorrent_verify_ssl self;
     timing := timing self;
     log_level := log_level self;
     health_enabled := health_enabled self;
     health_port := health_port self |}.

(** [self] with other values for everything that is neither a URL nor
    the log level. *)
Definition with_settings (self other : AppConfig) : AppConfig :=
  {| gluetun_url := gluetun_url self;
     qbittorrent_url := qbittorrent_url self;
     gluetun_api_key := gluetun_api_key other;
     gluetun_username := gluetun_username other;
     gluetun_password := gluetun_password other;
     qbittorrent_username := qbittorrent_username other;
     qbittorrent_password := qbittorrent_password other;
     qbittorrent_verify_ssl := qbittorrent_verify_ssl other;
     timing := timing other;
     log_level := log_level self;
     health_enabled := health_enabled other;
     health_port := health_port other |}.

(* ===================================================================== *)
(** ** [src/gluetun.py], [src/qbittorrent.py]: the two REST clients

    A client talks to its service through [requests.Session]: a request
    goes out and either a response comes back or the call raises, one of
    the exceptions of [requests] or another one.  What a response body
    parses to is a Python value. *)

From Stdlib Require Import SpecFloat.

(** The values [response.json()] can return.  A [float] is an IEEE 754
    number; a [dict] is given by its items. *)
Local Unset Elimination Schemes.
Inductive PyValue :=
| PyNone
| PyBool (b : bool)
| PyInt (i : Z)
| PyFloat (f : spec_float)
| PyStr (s : string)
| PyList (items : list PyValue)
| PyDict (items : list (string * PyValue)).
Local Set Elimination Schemes.

Record Response := mkResponse {
  status_code : Z;
  text : string;
  (** [response.json()]: the parsed body, or the message of the
      [ValueError] it raises *)
  json : string + PyValue
}.

(** How [session.request] ends: with a response; with an exception of
    [requests.exceptions], which the clients catch in this order; or
    with an exception of another class, which they do not catch (a
    [ValueError] for a timeout that is not positive is one). *)
Inductive HttpOutcome :=
| Responded (response : Response)
| RequestTimeout
| RequestConnectionError (message : string)
| RequestFailed (message : string)
| RequestRaised (e : Exception).

(** A request as the clients make it: the session's own headers and
    credentials, and the arguments of the call. *)
Record Request := mkRequest {
  method : string;
  url : string;
  headers : list (string * string);
  auth : option (string * string);
  data : list (string * option string);
  timeout : Z;
  verify : option bool
}.

(** The functions of Python and its library that the clients apply to
    text. *)
Record PyLib := mkPyLib {
  (** [int(s)] for a [str]: the number, or the message of the
      [ValueError] *)
  int_of_str : string -> string + Z;
  str_strip : string -> string;
  str_lower : string -> string;
  str_upper : string -> string;
  (** [str(v)] *)
  str_of : PyValue -> string;
  json_dumps : PyValue -> string
}.

(** [int(v)]: a number, a [ValueError] (which the clients catch), or an
    exception that escapes them. *)
Inductive IntResult :=
| Converted (i : Z)
| NotAnInt (message : string)
| Escapes (e : Exception).

Definition py_int (lib : PyLib) (v : PyValue) : IntResult :=
  match v with
  | PyInt i => Converted i
  | PyBool b => Converted (if b then 1 else 0)
  | PyFloat (S754_zero _) => Converted 0
  | PyFloat (S754_finite s m e) =>
    (* truncation towards zero *)
    let magnitude := Z.shiftl (Z.pos m) e in
    Converted (if s then - magnitude else magnitude)
  | PyFloat (S754_infinity _) => Escapes OverflowError
  | PyFloat S754_nan => NotAnInt "cannot convert float NaN to integer"
  | PyStr s =>
    match int_of_str lib s with
    | inl message => NotAnInt message
    | inr i => Converted i
    end
  | PyNone | PyList _ | PyDict _ => Escapes TypeError
  end.

(** [v == 0] *)
Definition py_eq_zero (v : PyValue) : bool :=
  match v with
  | PyInt i => i =? 0
  | PyBool b => negb b
  | PyFloat (S754_zero _) => true
  | _ => false
  end.

(** [v is None] *)
Definition py_is_none (v : PyValue) : bool :=
  match v with PyNone => true | _ => false end.

Fixpoint dict_get (items : list (string * PyValue)) (key : string)
  : PyValue :=
  match items with
  | [] => PyNone
  | (k, v) :: rest => if String.eqb k key then v else dict_get rest key
  end.

(** [data.get(key)]: only a [dict] has the method. *)
Definition py_get (data : PyValue) (key : string) : PyValue + Exception :=
  match data with
  | PyDict items => inl (dict_get items key)
  | _ => inr AttributeError
  end.

Section Clients.

Context {Server : Type}.

(** [requests.Session.request] against the outside world. *)
Variable http : Request -> Server -> HttpOutcome * Server.
Variable lib : PyLib.
Variable config : AppConfig.

(** What a client call can read or change: the outside world, the
    requests sent so far, the log, and the flag of [QBittorrentClient]. *)
Record Session := mkSession {
  server : Server;
  sent : list Request;
  client_log : list (Level * string);
  _authenticated : bool
}.

(** A method of a client: runs on a session, and either returns a value
    or lets an exception out. *)
Definition C (A : Type) : Type := Session -> (A + Exception) * Session.

Definition unit_ {A} (a : A) : C A := fun s => (inl a, s).

Definition escape {A} (e : Exception) : C A := fun s => (inr e, s).

Definition then_ {A B} (m : C A) (k : A -> C B) : C B :=
  fun s =>
    match m s with
    | (inl a, s') => k a s'
    | (inr e, s') => (inr e, s')
    end.

Notation "x <- m ;; k" := (then_ m (fun x => k))
  (at level 100, m at next level, right associativity).
Notation "m ;; k" := (then_ m (fun _ => k))
  (at level 100, right associativity).

Definition debug (msg : string) : C unit :=
  fun s =>
    (inl tt,
     {| server := server s;
        sent := sent s;
        client_log := (client_log s ++ [(DEBUG, msg)])%list;
        _authenticated := _authenticated s |}).

Definition send (request : Request) : C HttpOutcome :=
  fun s =>
    let (outcome, w) := http request (server s) in
    (inl outcome,
     {| server := w;
        sent := (sent s ++ [request])%list;
        client_log := client_log s;
        _authenticated := _authenticated s |}).

Definition set_authenticated (b : bool) : C unit :=
  fun s =>
    (inl tt,
     {| server := server s;
        sent := sent s;
        client_log := client_log s;
        _authenticated := b |}).

Definition get_authenticated : C bool :=
  fun s => (inl (_authenticated s), s).

(** *** [GluetunClient] *)

(** [GluetunClient._setup_auth]: the headers and the credentials it
    leaves on the session. *)
Definition _setup_auth : list (string * string) * option (string * string) :=
  if opt_truthy (gluetun_api_key config) then
    ([("X-API-Key", str_opt_str (gluetun_api_key config))], None)
  else if opt_truthy (gluetun_username config)
          && opt_truthy (gluetun_password config) then
    ([], Some (str_opt_str (gluetun_username config),
               str_opt_str (gluetun_password config)))
  else ([], None).

Definition gluetun_failure (message : string) : GluetunResult :=
  Gluetun.mkResult false None (Some message) false.

(** [GluetunClient.get_forwarded_port] *)
Definition GluetunClient_get_forwarded_port : C GluetunResult :=
  let url := gluetun_url config ++ "/v1/portforward" in
  debug ("GET " ++ url) ;;
  outcome <- send {| method := "GET";
                     url := url;
                     headers := fst _setup_auth;
                     auth := snd _setup_auth;
                     data := [];
                     timeout := request_timeout (timing config);
                     verify := None |} ;;
  match outcome with
  | Responded response =>
    debug ("Response: " ++ str_int (status_code response) ++ " "
           ++ text response) ;;
    if status_code response =? 401 then
      unit_ (Gluetun.mkResult false None (Some "Authentication failed") true)
    else if status_code response =? 403 then
      unit_ (Gluetun.mkResult false None (Some "Access forbidden") true)
    else if status_code response =? 404 then
      unit_ (Gluetun.mkResult true None
               (Some "No port forwarded (VPN may be disconnected)") false)
    else if status_code response >=? 500 then
      unit_ (gluetun_failure
               ("Server error: " ++ str_int (status_code response)))
    else if negb (status_code response =? 200) then
      unit_ (gluetun_failure
               ("Unexpected status: " ++ str_int (status_code response)))
    else
      match json response with
      | inl e => unit_ (gluetun_failure ("Invalid response format: " ++ e))
      | inr data =>
        match py_get data "port" with
        | inr exception => escape exception
        | inl port =>
          if py_is_none port || py_eq_zero port then
            unit_ (Gluetun.mkResult true None
                     (Some "No port forwarded (port forwarding not active)")
                     false)
          else
            match py_int lib port with
            | Converted i => unit_ (Gluetun.mkResult true (Some i) None false)
            | NotAnInt e =>
              unit_ (gluetun_failure ("Invalid response format: " ++ e))
            | Escapes exception => escape exception
            end
        end
      end
  | RequestTimeout => unit_ (gluetun_failure "Request timed out")
  | RequestConnectionError e =>
    unit_ (gluetun_failure ("Connection error: " ++ e))
  | RequestFailed e => unit_ (gluetun_failure ("Request failed: " ++ e))
  | RequestRaised e => escape e
  end.

(** [GluetunClient.check_ready] *)
Definition GluetunClient_check_ready : C GluetunResult :=
  GluetunClient_get_forwarded_port.

(** *** [QBittorrentClient] *)

Definition qbittorrent_failure (message : string) : QBittorrentResult :=
  QBittorrent.mkResult false None (Some message) false.

Definition qbittorrent_auth_failure (message : string) : QBittorrentResult :=
  QBittorrent.mkResult false None (Some message) true.

(** [QBittorrentResult(success=True)] *)
Definition qbittorrent_done : QBittorrentResult :=
  QBittorrent.mkResult true None None false.

(** [QBittorrentClient._login] *)
Definition _login : C QBittorrentResult :=
  if negb (opt_truthy (qbittorrent_username config)) then
    (set_authenticated true ;;
     unit_ qbittorrent_done)
  else
    authenticated <- get_authenticated ;;
    if authenticated then unit_ qbittorrent_done
    else
      let url := qbittorrent_url config ++ "/api/v2/auth/login" in
      debug ("POST " ++ url ++ " (login)") ;;
      outcome <- send {| method := "POST";
                         url := url;
                         headers := [];
                         auth := None;
                         data := [("username", qbittorrent_username config);
                                  ("password", qbittorrent_password config)];
                         timeout := request_timeout (timing config);
                         verify := Some (qbittorrent_verify_ssl config) |} ;;
      match outcome with
      | Responded response =>
        debug ("Response: " ++ str_int (status_code response) ++ " "
               ++ text response) ;;
        if status_code response =? 403 then
          unit_ (qbittorrent_auth_failure "Authentication failed")
        else if negb (status_code response =? 200) then
          unit_ (qbittorrent_failure
                   ("Login failed: " ++ str_int (status_code response)))
        else if negb (String.eqb
                        (str_lower lib (str_strip lib (text response)))
                        "ok.") then
          unit_ (qbittorrent_auth_failure
                   "Authentication failed (invalid credentials)")
        else
          (set_authenticated true ;;
           debug "qBittorrent login successful" ;;
           unit_ qbittorrent_done)
      | RequestTimeout => unit_ (qbittorrent_failure "Login request timed out")
      | RequestConnectionError e =>
        unit_ (qbittorrent_failure ("Connection error: " ++ e))
      | RequestFailed e =>
        unit_ (qbittorrent_failure ("Login request failed: " ++ e))
      | RequestRaised e => escape e
      end.

(** The body of [QBittorrentClient._request].  It returns
    [(response, None)], here [inl response], or [(None, error_result)],
    here [inr error_result].  [again] is the call of [_request] on
    itself, there when [retry_auth] is true: that call passes
    [retry_auth=False], so it has none of its own. *)
Definition _request_body
  (again : option (C (Response + QBittorrentResult)))
  (method endpoint : string) (data : list (string * option string))
  : C (Response + QBittorrentResult) :=
  login_result <- _login ;;
  if negb (QBittorrent.success login_result) then unit_ (inr login_result)
  else
    let url := qbittorrent_url config ++ endpoint in
    debug (str_upper lib method ++ " " ++ url) ;;
    outcome <- send {| method := method;
                       url := url;
                       headers := [];
                       auth := None;
                       data := data;
                       timeout := request_timeout (timing config);
                       verify := Some (qbittorrent_verify_ssl config) |} ;;
    match outcome with
    | Responded response =>
      debug ("Response: " ++ str_int (status_code response)) ;;
      match again with
      | Some retry =>
        if status_code response =? 403 then
          (debug "Got 403, retrying with fresh login" ;;
           set_authenticated false ;;
           retry)
        else unit_ (inl response)
      | None => unit_ (inl response)
      end
    | RequestTimeout => unit_ (inr (qbittorrent_failure "Request timed out"))
    | RequestConnectionError e =>
      unit_ (inr (qbittorrent_failure ("Connection error: " ++ e)))
    | RequestFailed e =>
      unit_ (inr (qbittorrent_failure ("Request failed: " ++ e)))
    | RequestRaised e => escape e
    end.

(** [QBittorrentClient._request] *)
Definition _request (method endpoint : string) (retry_auth : bool)
  (data : list (string * option string))
  : C (Response + QBittorrentResult) :=
  _request_body
    (if retry_auth then Some (_request_body None method endpoint data)
     else None)
    method endpoint data.

(** [QBittorrentClient.get_listen_port] *)
Definition QBittorrentClient_get_listen_port : C QBittorrentResult :=
  r <- _request "GET" "/api/v2/app/preferences" true [] ;;
  match r with
  | inr error => unit_ error
  | inl response =>
    if negb (status_code response =? 200) then
      unit_ (qbittorrent_failure
               ("Failed to get preferences: "
                ++ str_int (status_code response)))
    else
      match json response with
      | inl e => unit_ (qbittorrent_failure ("Invalid response format: " ++ e))
      | inr data =>
        match py_get data "listen_port" with
        | inr exception => escape exception
        | inl port =>
          if py_is_none port then
            unit_ (qbittorrent_failure "listen_port not in response")
          else
            (debug ("Current listen port: " ++ str_of lib port) ;;
             match py_int lib port with
             | Converted i =>
               unit_ (QBittorrent.mkResult true (Some i) None false)
             | NotAnInt e =>
               unit_ (qbittorrent_failure ("Invalid response format: " ++ e))
             | Escapes exception => escape exception
             end)
        end
      end
  end.

(** [QBittorrentClient.set_listen_port] *)
Definition QBittorrentClient_set_listen_port (port : Z)
  : C QBittorrentResult :=
  debug ("Setting listen_port=" ++ str_int port) ;;
  r <- _request "POST" "/api/v2/app/setPreferences" true
         [("json", Some (json_dumps lib (PyDict [("listen_port", PyInt port)])))] ;;
  match r with
  | inr error => unit_ error
  | inl response =>
    if negb (status_code response =? 200) then
      unit_ (qbittorrent_failure
               ("Failed to set port: " ++ str_int (status_code response)))
    else unit_ (QBittorrent.mkResult true (Some port) None false)
  end.

(** [QBittorrentClient.check_ready] *)
Definition QBittorrentClient_check_ready : C QBittorrentResult :=
  QBittorrentClient_get_listen_port.

End Clients.

Arguments Session : clear implicits.
Arguments C : clear implicits.

(** *** Vocabulary and concrete runs for the clients *)

(** The request of [GluetunClient.get_forwarded_port]. *)
Definition forwarded_port_request (config : AppConfig) : Request :=
  {| method := "GET";
     url := gluetun_url config ++ "/v1/portforward";
     headers := fst (_setup_auth config);
     auth := snd (_setup_auth config);
     data := [];
     timeout := request_timeout (timing config);
     verify := None |}.

(** The request of [QBittorrentClient._login]. *)
Definition login_request (config : AppConfig) : Request :=
  {| method := "POST";
     url := qbittorrent_url config ++ "/api/v2/auth/login";
     headers := [];
     auth := None;
     data := [("username", qbittorrent_username config);
              ("password", qbittorrent_password config)];
     timeout := request_timeout (timing config);
     verify := Some (qbittorrent_verify_ssl config) |}.

(** The request of [QBittorrentClient._request]. *)
Definition api_request (config : AppConfig) (method endpoint : string)
  (data : list (string * option string)) : Request :=
  {| method := method;
     url := qbittorrent_url config ++ endpoint;
     headers := [];
     auth := None;
     data := data;
     timeout := request_timeout (timing config);
     verify := Some (qbittorrent_verify_ssl config) |}.

(** The exception that [data.get(key)] followed by [int(...)] lets out
    for this parsed body, if it does: a body that is no [dict] has no
    [get], a list or a dict is no number, and an infinite float has no
    integer value. *)
Definition value_escapes (key : string) (data : PyValue) : option Exception :=
  match data with
  | PyDict items =>
    match dict_get items key with
    | PyList _ | PyDict _ => Some TypeError
    | PyFloat (S754_infinity _) => Some OverflowError
    | _ => None
    end
  | _ => Some AttributeError
  end.

(** A response with this status code. *)
Definition answered_with (code : Z) (outcome : HttpOutcome) : Prop :=
  exists response, outcome = Responded response /\ status_code response = code.

(** A server that answers from a script, and times out once the script
    is used up. *)
Definition scripted_server (request : Request) (script : list HttpOutcome)
  : HttpOutcome * list HttpOutcome :=
  match script with
  | [] => (RequestTimeout, [])
  | outcome :: rest => (outcome, rest)
  end.

Definition ascii_lower (c : ascii) : ascii :=
  let n := nat_of_ascii c in
  if (65 <=? n)%nat && (n <=? 90)%nat then ascii_of_nat (n + 32) else c.

Fixpoint map_string (f : ascii -> ascii) (s : string) : string :=
  match s with
  | EmptyString => EmptyString
  | String c rest => String (f c) (map_string f rest)
  end.

(** Stand-ins for the functions of [PyLib] on the plain text of the
    example runs: numerals are read in decimal, letters are lowered in
    ASCII, nothing is stripped or rendered. *)
Definition plain_lib : PyLib :=
  {| int_of_str := fun s =>
       match NilZero.int_of_string s with
       | Some d => inr (Z.of_int d)
       | None => inl ("invalid literal for int() with base 10: " ++ s)
       end;
     str_strip := fun s => s;
     str_lower := map_string ascii_lower;
     str_upper := fun s => s;
     str_of := fun _ => "";
     json_dumps := fun _ => "" |}.

(** A client session that has sent nothing yet. *)
Definition new_session (script : list HttpOutcome) : Session (list HttpOutcome) :=
  {| server := script;
     sent := [];
     client_log := [];
     _authenticated := false |}.

(** A configuration with every default of [Config.__init__], for
    services on localhost. *)
Definition local_config (api_key user password : option string) : AppConfig :=
  {| gluetun_url := "http://localhost:8000";
     qbittorrent_url := "http://localhost:8080";
     gluetun_api_key := api_key;
     gluetun_username := user;
     gluetun_password := password;
     qbittorrent_username := user;
     qbittorrent_password := password;
     qbittorrent_verify_ssl := true;
     timing := default_config;
     log_level := "INFO";
     health_enabled := true;
     health_port := 8081 |}.

(** A response with a JSON body. *)
Definition json_response (code : Z) (body : PyValue) : HttpOutcome :=
  Responded {| status_code := code; text := ""; json := inr body |}.

(** A response with a body that is text, not JSON. *)
Definition text_response (code : Z) (body : string) : HttpOutcome :=
  Responded {| status_code := code; text := body;
               json := inl "Expecting value: line 1 column 1 (char 0)" |}.

(** Nothing, or [x] once. *)
Definition at_most_once {A : Type} (x : A) (l : list A) : Prop :=
  l = [] \/ l = [x].

(** The request of [get_listen_port], and that of [set_listen_port]. *)
Definition preferences_request (config : AppConfig) : Request :=
  api_request config "GET" "/api/v2/app/preferences" [].

Definition set_preferences_request (lib : PyLib) (config : AppConfig)
  (port : Z) : Request :=
  api_request config "POST" "/api/v2/app/setPreferences"
    [("json", Some (json_dumps lib (PyDict [("listen_port", PyInt port)])))].

(** What a result that reports a failure looks like. *)
Definition is_failure (r : QBittorrentResult) : Prop :=
  QBittorrent.success r = false /\
  QBittorrent.port r = None /\
  QBittorrent.error r <> None.

(** A client session that is marked authenticated. *)
Definition authenticated_session (script : list HttpOutcome)
  : Session (list HttpOutcome) :=
  {| server := script;
     sent := [];
     client_log := [];
     _authenticated := true |}.

(** The configuration of the example runs with credentials. *)
Definition admin_config : AppConfig :=
  local_config None (Some "admin") (Some "pw-1").

(** The session has expired: the request is refused, the login is
    accepted, and the repeated request is answered. *)
Definition expired_session_script : list HttpOutcome :=
  [text_response 403 "Forbidden";
   text_response 200 "Ok.";
   json_response 200 (PyDict [("listen_port", PyInt 12345)])].

(** The password has changed: the request is refused, and so is the
    login. *)
Definition changed_password_script : list HttpOutcome :=
  [text_response 403 "Forbidden"; text_response 200 "Fails."].

(** [session.request] refuses a timeout of 0, before anything is sent:
    [REQUEST_TIMEOUT=0]. *)
Definition rejected_timeout : HttpOutcome :=
  RequestRaised
    (ValueError
       ("Attempted to set connect timeout to 0, but the timeout cannot be "
        ++ "set to a value less than or equal to 0.")).

(* ===================================================================== *)
(** ** [src/sync.py]: the orchestrator on the two clients

    [main] hands a [GluetunClient] and a [QBittorrentClient] to
    [PortSync]: the world of the orchestrator is then the session of the
    clients, and an exception that a client lets out is one that the
    call on the client raises. *)

Definition outcome_of {A : Type} (r : A + Exception) : Outcome A :=
  match r with
  | inl a => Return a
  | inr e => Raise e
  end.

Definition rest_clients {Server : Type}
  (http : Request -> Server -> HttpOutcome * Server) (lib : PyLib)
  (config : AppConfig)
  (clock : Z -> Session Server -> option Exception * Session Server)
  : Clients (Session Server) :=
  {| get_forwarded_port := fun s =>
       let (r, s') := GluetunClient_get_forwarded_port http lib config s in
       (outcome_of r, s');
     get_listen_port := fun s =>
       let (r, s') := QBittorrentClient_get_listen_port http lib config s in
       (outcome_of r, s');
     set_listen_port := fun port s =>
       let (r, s') := QBittorrentClient_set_listen_port http lib config port s in
       (outcome_of r, s');
     pysleep := clock |}.

(** A clock on which every sleep passes. *)
Definition steady_clock {World : Type} (seconds : Z) (w : World)
  : option Exception * World :=
  (None, w).

(** The clock of CPython 3.11 on Linux, [monotonic] nanoseconds after
    the start of the monotonic clock: the deadline of the sleep, in
    nanoseconds, must fit in 64 bits. *)
Definition linux_clock {World : Type} (monotonic : Z) (seconds : Z) (w : World)
  : option Exception * World :=
  (if 9223372036854775807 <? monotonic + seconds * 1000000000
   then Some (OSError "[Errno 22] Invalid argument")
   else None,
   w).

(** The process state of [main] over the two clients, before the first
    request. *)
Definition started_on (script : list HttpOutcome)
  : State (Session (list HttpOutcome)) :=
  {| world := new_session script;
     health_state := set_service_status true true HealthState_init;
     calls := [];
     log := [] |}.

(** Gluetun answers 200 with a body that is a JSON list. *)
Definition list_body_script : list HttpOutcome :=
  [json_response 200 (PyList [PyInt 54321])].

(** [session.request] raises [e] for this request, in some state of the
    outside world: an exception that is not one of [requests]. *)
Definition request_raises {Server : Type}
  (http : Request -> Server -> HttpOutcome * Server)
  (request : Request) (e : Exception) : Prop :=
  exists w, fst (http request w) = RequestRaised e.

(** [REQUEST_TIMEOUT=0], everything else by default, for services on
    localhost without credentials. *)
Definition zero_timeout_config : AppConfig :=
  {| gluetun_url := "http://localhost:8000";
     qbittorrent_url := "http://localhost:8080";
     gluetun_api_key := None;
     gluetun_username := None;
     gluetun_password := None;
     qbittorrent_username := None;
     qbittorrent_password := None;
     qbittorrent_verify_ssl := true;
     timing :=
       {| startup_check_delay := 5;
          startup_check_interval := 5;
          startup_max_attempts := 60;
          poll_interval := 30;
          verify_delay := 2;
          verify_max_attempts := 3;
          request_timeout := 0 |};
     log_level := "INFO";
     health_enabled := true;
     health_port := 8081 |}.

(** The process state when [main] calls [wait_for_services], over the
    two clients. *)
Definition fresh_on (script : list HttpOutcome)
  : State (Session (list HttpOutcome)) :=
  {| world := new_session script;
     health_state := HealthState_init;
     calls := [];
     log := [] |}.
(** The arguments of the last [set_service_status] among these writes,
    or [flags] when there is none. *)
Definition last_service_status (cs : list HealthCall) (flags : bool * bool)
  : bool * bool :=
  fold_left
    (fun flags c =>
       match c with
       | SetServiceStatus g q => (g, q)
       | SetHealthy _ _ => flags
       end)
    cs flags.

(* ===================================================================== *)
(** ** Strings *)

Lemma prefix_split (p s : string) :
  String.prefix p s = true <-> exists post, s = p ++ post.
Proof.
  revert s; induction p as [|a p IH]; intros s.
  - split; [intros _; now exists s | intros _; now destruct s].
  - destruct s as [|b s]; simpl.
    + split; [discriminate | intros [post H]; discriminate].
    + destruct (Ascii.ascii_dec a b) as [->|Hab].
      * rewrite IH. split; intros [post H]; exists post.
        -- now subst.
        -- now injection H.
      * split; [discriminate | intros [post H]; injection H; congruence].
Qed.

(** [contains] is the substring test. *)
Lemma contains_split (s needle : string) :
  contains s needle = true <-> exists pre post, s = pre ++ needle ++ post.
Proof.
  induction s as [|a s IH]; cbn [contains].
  - rewrite orb_false_r, prefix_split. split.
    + intros [post H]. now exists "", post.
    + intros [pre [post H]].
      destruct pre; simpl in H; [now exists post | discriminate].
  - rewrite orb_true_iff, prefix_split, IH. split.
    + intros [[post H] | [pre [post H]]].
      * now exists "", post.
      * exists (String a pre), post. simpl. now rewrite H.
    + intros [pre [post H]]. destruct pre as [|b pre]; simpl in H.
      * left. now exists post.
      * right. exists pre, post. now injection H.
Qed.

(* ===================================================================== *)
(** ** The health state *)

Lemma set_service_status_flags g q h :
  _gluetun_ok (set_service_status g q h) = g /\
  _qbittorrent_ok (set_service_status g q h) = q.
Proof. unfold set_service_status. now destruct g, q. Qed.

Lemma set_service_status_healthy g q h :
  _healthy (set_service_status g q h) = g && q.
Proof. unfold set_service_status. now destruct g, q. Qed.

Lemma set_healthy_flags b r h :
  _gluetun_ok (set_healthy b r h) = _gluetun_ok h /\
  _qbittorrent_ok (set_healthy b r h) = _qbittorrent_ok h.
Proof. now split. Qed.

(** What [set_service_status] leaves does not depend on what was there. *)
Lemma set_service_status_overwrites g q h h' :
  set_service_status g q h = set_service_status g q h'.
Proof. reflexivity. Qed.

(** C5, as stated, fails: after [set_service_status(False, True)] the
    reason is "Gluetun unreachable", which has no "gateway" in it, and
    after [set_service_status(True, False)] it is
    "qBittorrent unreachable", which has no "client" in it. *)
Lemma set_service_status_reason_has_no_role_name :
  _reason (set_service_status false true HealthState_init)
    = "Gluetun unreachable" /\
  contains (_reason (set_service_status false true HealthState_init))
    "gateway" = false /\
  _reason (set_service_status true false HealthState_init)
    = "qBittorrent unreachable" /\
  contains (_reason (set_service_status true false HealthState_init))
    "client" = false.
Proof. repeat split; reflexivity. Qed.

(** C5, amended: from any state, [set_service_status(True, True)] yields
    healthy with the empty reason; [set_service_status(False, True)]
    yields unhealthy with a reason containing "Gluetun" but not
    "qBittorrent"; [set_service_status(True, False)] yields unhealthy with
    a reason containing "qBittorrent" but not "Gluetun". *)
Theorem set_service_status_reasons (h : HealthState) :
  get_status (set_service_status true true h) = (true, "") /\
  (_healthy (set_service_status false true h) = false /\
   contains (_reason (set_service_status false true h)) "Gluetun" = true /\
   contains (_reason (set_service_status false true h)) "qBittorrent" = false) /\
  (_healthy (set_service_status true false h) = false /\
   contains (_reason (set_service_status true false h)) "qBittorrent" = true /\
   contains (_reason (set_service_status true false h)) "Gluetun" = false).
Proof. repeat split; reflexivity. Qed.

(** One write keeps "healthy implies empty reason" when the call is
    [reason_consistent]. *)
Lemma apply_call_keeps_reason h c :
  reason_consistent c ->
  (_healthy h = true -> _reason h = "") ->
  _healthy (apply_call h c) = true -> _reason (apply_call h c) = "".
Proof.
  destruct c as [b r | g q]; simpl; intros Hc Hh.
  - exact Hc.
  - unfold set_service_status. destruct g, q; simpl; congruence.
Qed.

Lemma apply_calls_keep_reason cs : forall h,
  Forall reason_consistent cs ->
  (_healthy h = true -> _reason h = "") ->
  _healthy (apply_calls cs h) = true -> _reason (apply_calls cs h) = "".
Proof.
  unfold apply_calls.
  induction cs as [|c cs IH]; intros h Hcs Hh; simpl.
  - exact Hh.
  - inversion Hcs as [|? ? Hc Hrest]; subst.
    apply IH; [exact Hrest|]. now apply apply_call_keeps_reason.
Qed.

(** C6, as stated, fails: [set_healthy(True, "ok")] on the initial state
    leaves a healthy state with a non-empty reason. *)
Lemma set_healthy_true_keeps_reason :
  _healthy (apply_calls [SetHealthy true "ok"] HealthState_init) = true /\
  _reason (apply_calls [SetHealthy true "ok"] HealthState_init) = "ok" /\
  _reason (apply_calls [SetHealthy true "ok"] HealthState_init) <> "".
Proof. repeat split; discriminate. Qed.

(** C6, amended: in every state reached from the initial state by
    [set_service_status] calls with any arguments and [set_healthy] calls
    that do not pass [healthy=True] together with a non-empty reason,
    healthy implies that the reason is the empty string. *)
Theorem healthy_implies_empty_reason (cs : list HealthCall) :
  Forall reason_consistent cs ->
  _healthy (apply_calls cs HealthState_init) = true ->
  _reason (apply_calls cs HealthState_init) = "".
Proof.
  intros Hcs. apply apply_calls_keep_reason; [exact Hcs|].
  simpl. discriminate.
Qed.

Lemma healthy_implies_empty_reason_witness :
  _reason (apply_calls
             [SetServiceStatus false true;
              SetHealthy false "Gluetun auth error: Authentication failed";
              SetServiceStatus true true]
             HealthState_init) = "".
Proof.
  apply healthy_implies_empty_reason.
  - repeat constructor; simpl; discriminate.
  - reflexivity.
Defined.


(* ===================================================================== *)
(** ** The reconcile cycle *)

Section Cycle.

Context {World : Type}.
Variable clients : Clients World.
Variable config : Config.

Local Arguments str_int : simpl never.
Local Arguments String.append : simpl never.

(** [time.sleep]: it raises and leaves no trace, or it returns after a
    sleep. *)
Lemma time_sleep_runs (seconds : Z) (st : State World) :
  (exists e,
     fst (time_sleep clients seconds st) = Raise e /\
     calls (snd (time_sleep clients seconds st)) = calls st /\
     health_state (snd (time_sleep clients seconds st)) = health_state st /\
     sleep_raises clients seconds e) \/
  (fst (time_sleep clients seconds st) = Return tt /\
   calls (snd (time_sleep clients seconds st))
   = (calls st ++ [Sleep seconds])%list /\
   health_state (snd (time_sleep clients seconds st)) = health_state st).
Proof.
  unfold time_sleep, sleep_raises.
  destruct (sleep_rejects seconds) as [e|] eqn:Hrej.
  - left. exists e. cbn. auto.
  - destruct (pysleep clients seconds (world st)) as [[e|] w] eqn:Hsleep.
    + left. exists e. cbn. repeat split; auto.
      right. exists (world st). now rewrite Hsleep.
    + right. cbn. auto.
Qed.

Lemma sleep_passes_not_raises (seconds : Z) (e : Exception) :
  sleep_passes clients seconds -> ~ sleep_raises clients seconds e.
Proof.
  intros [Hrej Hsys] [H | [w H]].
  - congruence.
  - rewrite Hsys in H. discriminate H.
Qed.

(** The verification loop, from any state: it sleeps and reads once per
    attempt, touches nothing but the client, and leaves through
    [return True] at the first read that shows the target port, by
    running out of attempts with [verify_result] bound to the last
    read, or with the exception of a read or of a sleep. *)
Lemma verify_loop_runs (target : Z) :
  forall attempts vr st out st',
  verify_loop clients config target attempts vr st = (out, st') ->
  exists new,
    calls st' = (calls st ++ new)%list /\
    health_state st' = health_state st /\
    forallb is_verification_call new = true /\
    (count is_qbittorrent_probe new <= List.length attempts)%nat /\
    (sleep_passes clients (verify_delay config) -> attempts <> [] ->
     (1 <= count is_qbittorrent_probe new)%nat) /\
    match out with
    | Return (Returned b, v) =>
      b = true /\ v <> None /\ existsb (read_shows target) new = true
    | Return (Next _, v) =>
      existsb (read_shows target) new = false /\
      count is_qbittorrent_probe new = List.length attempts /\
      (attempts = [] -> v = vr) /\
      (attempts <> [] -> v <> None)
    | Raise e =>
      attempts <> [] /\
      existsb (read_shows target) new = false /\
      ((exists before, new = (before ++ [GetListenPortRaised e])%list) \/
       sleep_raises clients (verify_delay config) e)
    end.
Proof.
  induction attempts as [|attempt rest IH]; intros vr st out st' Hrun.
  - cbn in Hrun. injection Hrun as <- <-.
    exists []. rewrite app_nil_r. cbn.
    repeat split; auto; intros; congruence.
  - cbn [verify_loop] in Hrun. unfold bind at 1 in Hrun.
    destruct (time_sleep_runs (verify_delay config) st)
      as [(e & Hout & Hcalls & Hhealth & Hraises) | (Hout & Hcalls & Hhealth)];
      destruct (time_sleep clients (verify_delay config) st) as [o s1];
      cbn [fst snd] in Hout, Hcalls, Hhealth; subst o.
    { injection Hrun as <- <-.
      exists []. rewrite app_nil_r. cbn.
      repeat split; auto; try lia; try discriminate.
      intros Hpass. now apply sleep_passes_not_raises with (e := e) in Hpass. }
    unfold bind at 1 in Hrun. unfold qbittorrent_get_listen_port at 1 in Hrun.
    destruct (get_listen_port clients (world s1)) as [[r|e] w] eqn:Hread.
    2:{ injection Hrun as <- <-. cbn [calls health_state].
        exists [Sleep (verify_delay config); GetListenPortRaised e].
        rewrite Hcalls, Hhealth, <- app_assoc. unfold count. cbn.
        repeat split; auto; try lia; try discriminate.
        left. now exists [Sleep (verify_delay config)]. }
    assert (Hnext : forall lg o s,
              verify_loop clients config target rest (Some r)
                {| world := w; health_state := health_state s1;
                   calls := (calls s1 ++ [GetListenPort r])%list;
                   log := lg |} = (o, s) ->
              reads_port target r = false ->
              exists new,
                calls s = (calls st ++ new)%list /\
                health_state s = health_state st /\
                forallb is_verification_call new = true /\
                (count is_qbittorrent_probe new
                 <= List.length (attempt :: rest))%nat /\
                (sleep_passes clients (verify_delay config) ->
                 attempt :: rest <> [] ->
                 (1 <= count is_qbittorrent_probe new)%nat) /\
                match o with
                | Return (Returned b, v) =>
                  b = true /\ v <> None /\
                  existsb (read_shows target) new = true
                | Return (Next _, v) =>
                  existsb (read_shows target) new = false /\
                  count is_qbittorrent_probe new
                  = List.length (attempt :: rest) /\
                  (attempt :: rest = [] -> v = vr) /\
                  (attempt :: rest <> [] -> v <> None)
                | Raise e =>
                  attempt :: rest <> [] /\
                  existsb (read_shows target) new = false /\
                  ((exists before,
                      new = (before ++ [GetListenPortRaised e])%list) \/
                   sleep_raises clients (verify_delay config) e)
                end).
    { intros lg o s Hs Hmiss. apply IH in Hs.
      destruct Hs as (new & Hc & Hh & Hv & Hn & _ & Hend).
      cbn [calls health_state] in Hc, Hh.
      exists ([Sleep (verify_delay config); GetListenPort r] ++ new)%list.
      rewrite Hc, Hh, Hcalls, Hhealth, <- !app_assoc.
      unfold count in *. cbn. rewrite Hmiss, Hv. cbn.
      split; [reflexivity|]. split; [reflexivity|]. split; [reflexivity|].
      split; [lia|]. split; [intros; lia|].
      destruct o as [[[[]|b] v]|e].
      - destruct Hend as (He & Hl & Hnil & Hcons).
        split; [exact He|]. split; [lia|]. split; [discriminate|].
        intros _. destruct rest; [rewrite Hnil by reflexivity|apply Hcons];
          discriminate.
      - exact Hend.
      - destruct Hend as (_ & He & [[before ->] | Hsleep]).
        + split; [discriminate|]. split; [exact He|]. left.
          exists (Sleep (verify_delay config) :: GetListenPort r :: before).
          reflexivity.
        + split; [discriminate|]. split; [exact He|]. now right. }
    unfold reads_port in Hnext.
    destruct (QBittorrent.success r) eqn:Hok; cbn [negb andb] in Hrun, Hnext;
      [destruct (opt_int_eqb (QBittorrent.port r) (Some target)) eqn:Hport|].
    + (* the read shows the target port *)
      unfold bind, logger, ret in Hrun. cbn in Hrun.
      injection Hrun as <- <-.
      exists [Sleep (verify_delay config); GetListenPort r].
      cbn [calls health_state]. rewrite Hcalls, Hhealth, <- app_assoc.
      unfold count. cbn. unfold reads_port. rewrite Hok, Hport. cbn.
      repeat split; auto; try lia. discriminate.
    + (* the read shows another port *)
      unfold bind at 1 in Hrun. unfold logger at 1 in Hrun.
      cbn [world health_state calls log] in Hrun. eauto.
    + (* the read failed *)
      unfold bind at 1 in Hrun. unfold logger at 1 in Hrun.
      cbn [world health_state calls log] in Hrun. eauto.
Qed.

Local Arguments py_range : simpl never.

Lemma py_range_length lo hi :
  List.length (py_range lo hi) = Z.to_nat (hi - lo).
Proof. unfold py_range. now rewrite length_map, length_seq. Qed.

Lemma opt_int_eqb_eq a b : opt_int_eqb a b = true <-> a = b.
Proof.
  destruct a as [x|], b as [y|]; cbn; try easy.
  rewrite Z.eqb_eq. split; congruence.
Qed.

(** A verification phase has no write and no query of Gluetun. *)
Lemma verification_has_no_write v :
  forallb is_verification_call v = true ->
  count is_write v = 0%nat /\ count is_gluetun_probe v = 0%nat.
Proof.
  unfold count. induction v as [|c v IH]; [auto|].
  cbn [forallb]. intros [Hc Hv]%andb_prop.
  destruct c; try discriminate; cbn; auto.
Qed.

(** A read that shows the port is a read. *)
Lemma read_shows_is_probe target v :
  existsb (read_shows target) v = true ->
  (1 <= count is_qbittorrent_probe v)%nat.
Proof.
  unfold count. induction v as [|c v IH]; [discriminate|].
  cbn [existsb]. intros [Hc | Hv]%orb_prop.
  - destruct c; try discriminate. cbn. lia.
  - specialize (IH Hv). cbn. destruct (is_qbittorrent_probe c); cbn; lia.
Qed.

(** Running the cycle up to the answer of Gluetun. *)
Ltac ask_gluetun Hg :=
  match goal with
  | |- context [sync_port ?c ?cfg ?st] =>
    let Hrun := fresh "Hrun" in
    destruct (sync_port c cfg st) as [out st'] eqn:Hrun;
    unfold sync_port in Hrun;
    unfold bind at 1 in Hrun;
    unfold gluetun_get_forwarded_port at 1 in Hrun;
    rewrite Hg in Hrun; cbv beta iota in Hrun
  end.

(** Running it on to the answer of qBittorrent. *)
Ltac ask_qbittorrent Hq :=
  match goal with
  | Hrun : _ = (_, _) |- _ =>
    unfold bind at 1 in Hrun;
    unfold qbittorrent_get_listen_port at 1 in Hrun;
    cbn [world] in Hrun; rewrite Hq in Hrun; cbv beta iota in Hrun
  end.

(** The cycle has ended. *)
Ltac finish :=
  match goal with
  | Hrun : _ = (_, _) |- _ =>
    cbn in Hrun; injection Hrun as <- <-; cbn;
    rewrite <- ?app_assoc; repeat split; auto
  end.

(** Running a cycle that finds the client on another port than the
    forwarded one up to the write. *)
Ltac ask_write Hg Hg1 Hg2 Hg3 Hq Hq1 Hq2 Hq3 :=
  ask_gluetun Hg;
  match goal with
  | Hrun : _ = (_, _) |- _ =>
    rewrite Hg1, Hg2, Hg3 in Hrun; cbn [negb] in Hrun;
    ask_qbittorrent Hq;
    rewrite Hq1, Hq2 in Hrun; cbn [negb] in Hrun;
    unfold bind at 1 in Hrun; unfold update_health at 1 in Hrun;
    rewrite Hq3 in Hrun;
    unfold bind at 1 in Hrun; unfold logger at 1 in Hrun;
    unfold bind at 1 in Hrun; unfold qbittorrent_set_listen_port at 1 in Hrun;
    cbn [world health_state calls log] in Hrun
  end.

(** A cycle that finds the client on another port than the forwarded
    one, and whose write raises: the cycle raises the same, with the
    health state as the successful read set it. *)
Lemma write_raised_cycle st g w1 q w2 target e w3 :
  get_forwarded_port clients (world st) = (Return g, w1) ->
  Gluetun.is_auth_error g = false ->
  Gluetun.success g = true ->
  Gluetun.port g = Some target ->
  get_listen_port clients w1 = (Return q, w2) ->
  QBittorrent.is_auth_error q = false ->
  QBittorrent.success q = true ->
  opt_int_eqb (QBittorrent.port q) (Some target) = false ->
  set_listen_port clients target w2 = (Raise e, w3) ->
  fst (sync_port clients config st) = Raise e /\
  calls (snd (sync_port clients config st))
  = (calls st
     ++ [GetForwardedPort g; GetListenPort q; SetListenPortRaised target e])%list /\
  health_state (snd (sync_port clients config st))
  = set_service_status true true (health_state st).
Proof.
  intros Hg Hg1 Hg2 Hg3 Hq Hq1 Hq2 Hq3 Hu.
  ask_write Hg Hg1 Hg2 Hg3 Hq Hq1 Hq2 Hq3.
  rewrite Hu in Hrun. finish.
Qed.

(** A cycle that finds the client on another port than the forwarded
    one, and whose write returns, in full: what it calls, what it
    leaves in the health state and how it ends. *)
Lemma port_changed_cycle st g w1 q w2 target u w3 :
  get_forwarded_port clients (world st) = (Return g, w1) ->
  Gluetun.is_auth_error g = false ->
  Gluetun.success g = true ->
  Gluetun.port g = Some target ->
  get_listen_port clients w1 = (Return q, w2) ->
  QBittorrent.is_auth_error q = false ->
  QBittorrent.success q = true ->
  opt_int_eqb (QBittorrent.port q) (Some target) = false ->
  set_listen_port clients target w2 = (Return u, w3) ->
  exists verification,
    calls (snd (sync_port clients config st))
    = (calls st
       ++ [GetForwardedPort g; GetListenPort q; SetListenPort target u]
       ++ verification)%list /\
    health_state (snd (sync_port clients config st))
    = set_service_status true true (health_state st) /\
    forallb is_verification_call verification = true /\
    (count is_qbittorrent_probe verification
     <= Z.to_nat (verify_max_attempts config))%nat /\
    (sleep_passes clients (verify_delay config) ->
     1 <= verify_max_attempts config ->
     (1 <= count is_qbittorrent_probe verification)%nat) /\
    match fst (sync_port clients config st) with
    | Return true => existsb (read_shows target) verification = true
    | Return false =>
      existsb (read_shows target) verification = false /\
      count is_qbittorrent_probe verification
      = Z.to_nat (verify_max_attempts config) /\
      1 <= verify_max_attempts config
    | Raise e =>
      existsb (read_shows target) verification = false /\
      ((e = UnboundLocalError "verify_result" /\
        verify_max_attempts config <= 0) \/
       (1 <= verify_max_attempts config /\
        ((exists before,
            verification = (before ++ [GetListenPortRaised e])%list) \/
         sleep_raises clients (verify_delay config) e)))
    end.
Proof.
  intros Hg Hg1 Hg2 Hg3 Hq Hq1 Hq2 Hq3 Hu.
  ask_write Hg Hg1 Hg2 Hg3 Hq Hq1 Hq2 Hq3.
  rewrite Hu in Hrun. cbv beta iota in Hrun.
  unfold bind at 1 in Hrun.
  assert (Hlog : forall s : State World, exists s',
            (if negb (QBittorrent.success u)
             then logger ERROR ("Failed to update port: "
                                ++ str_opt_str (QBittorrent.error u))
             else ret tt) s = (Return tt, s') /\
            calls s' = calls s /\ health_state s' = health_state s).
  { intros s. destruct (QBittorrent.success u); eexists;
      (split; [reflexivity | split; reflexivity]). }
  match type of Hrun with
  | context [(if negb _ then _ else _) ?s] =>
    destruct (Hlog s) as (s' & Hs' & Hcalls' & Hhealth'); rewrite Hs' in Hrun;
    cbn [calls health_state] in Hcalls', Hhealth'
  end.
  clear Hlog Hs'.
  unfold bind at 1 in Hrun.
  destruct (verify_loop clients config target
              (py_range 1 (verify_max_attempts config + 1)) None s')
    as [vout s''] eqn:Hv.
  apply verify_loop_runs in Hv.
  destruct Hv as (new & Hcalls & Hhealth & Hver & Hlen & Hone & Hend).
  rewrite py_range_length in Hlen, Hend.
  replace (verify_max_attempts config + 1 - 1)
    with (verify_max_attempts config) in Hlen, Hend by lia.
  rewrite Hcalls' in Hcalls. rewrite Hhealth' in Hhealth.
  assert (Hnil : py_range 1 (verify_max_attempts config + 1) <> []
                 <-> 1 <= verify_max_attempts config).
  { split.
    - intros Hne. destruct (Z_le_gt_dec 1 (verify_max_attempts config));
        [assumption|]. exfalso. apply Hne.
      apply length_zero_iff_nil. rewrite py_range_length. lia.
    - intros Hn Heq. apply (f_equal (@List.length Z)) in Heq.
      rewrite py_range_length in Heq. cbn in Heq. lia. }
  exists new.
  assert (Hst : calls st' = calls s'' /\ health_state st' = health_state s'').
  { destruct vout as [[[[]|b] [r|]]|e];
      cbn in Hrun; injection Hrun as <- <-; split; reflexivity. }
  destruct Hst as [Hc Hh]. cbn [fst snd].
  rewrite Hc, Hh, Hcalls, Hhealth, <- !app_assoc.
  split; [reflexivity|]. split; [reflexivity|]. split; [exact Hver|].
  split; [exact Hlen|]. split; [intros Hpass Hn; apply Hone; tauto|].
  destruct vout as [[[[]|b] v]|e].
  - destruct Hend as (Hex & Hfull & Hempty & Hbound).
    destruct v as [r|]; cbn in Hrun; injection Hrun as <- _.
    + split; [exact Hex|]. split; [exact Hfull|].
      apply Hnil. intros Hrange. specialize (Hempty Hrange).
      discriminate Hempty.
    + split; [exact Hex|]. left. split; [reflexivity|].
      destruct (Z_le_gt_dec 1 (verify_max_attempts config)); [|lia].
      exfalso. apply Hbound; [tauto|reflexivity].
  - destruct Hend as (-> & _ & Hex).
    cbn in Hrun. injection Hrun as <- _. exact Hex.
  - destruct Hend as (Hne & Hex & Hwhy).
    cbn in Hrun. injection Hrun as <- _.
    split; [exact Hex|]. right. split; [tauto|exact Hwhy].
Qed.

(** C8: when Gluetun answers successfully with no port, the cycle marks
    both services reachable, returns [True], and calls nothing else:
    no read, no write, no verification read. *)
Theorem no_forwarded_port_is_success st g w :
  get_forwarded_port clients (world st) = (Return g, w) ->
  Gluetun.is_auth_error g = false ->
  Gluetun.success g = true ->
  Gluetun.port g = None ->
  fst (sync_port clients config st) = Return true /\
  calls (snd (sync_port clients config st))
  = (calls st ++ [GetForwardedPort g])%list /\
  count is_client_call [GetForwardedPort g] = 0%nat /\
  health_state (snd (sync_port clients config st))
  = set_service_status true true (health_state st) /\
  _gluetun_ok (health_state (snd (sync_port clients config st))) = true /\
  _qbittorrent_ok (health_state (snd (sync_port clients config st))) = true.
Proof.
  intros Hg Hauth Hok Hport.
  ask_gluetun Hg. rewrite Hauth, Hok, Hport in Hrun. finish.
Qed.

(** C9: when Gluetun reports the port that the read of qBittorrent
    returns, the cycle returns [True] after these two calls, and makes
    no write. *)
Theorem unchanged_port_is_not_written st g w1 q w2 target :
  get_forwarded_port clients (world st) = (Return g, w1) ->
  Gluetun.is_auth_error g = false ->
  Gluetun.success g = true ->
  Gluetun.port g = Some target ->
  get_listen_port clients w1 = (Return q, w2) ->
  QBittorrent.is_auth_error q = false ->
  QBittorrent.success q = true ->
  QBittorrent.port q = Some target ->
  fst (sync_port clients config st) = Return true /\
  calls (snd (sync_port clients config st))
  = (calls st ++ [GetForwardedPort g; GetListenPort q])%list /\
  count is_write [GetForwardedPort g; GetListenPort q] = 0%nat.
Proof.
  intros Hg Hg1 Hg2 Hg3 Hq Hq1 Hq2 Hq3.
  ask_gluetun Hg. rewrite Hg1, Hg2, Hg3 in Hrun. cbn [negb] in Hrun.
  ask_qbittorrent Hq. rewrite Hq1, Hq2, Hq3 in Hrun. cbn [negb] in Hrun.
  cbn [opt_int_eqb] in Hrun. rewrite Z.eqb_refl in Hrun. finish.
Qed.

(** C1, amended: when the port query to Gluetun fails transiently, the
    cycle marks Gluetun unreachable and qBittorrent reachable, whatever
    the flag of qBittorrent was before, which leaves the status
    (unhealthy, "Gluetun unreachable"); it does not call qBittorrent,
    and returns [False]. *)
Theorem gluetun_transient_failure st g w :
  get_forwarded_port clients (world st) = (Return g, w) ->
  Gluetun.is_auth_error g = false ->
  Gluetun.success g = false ->
  fst (sync_port clients config st) = Return false /\
  calls (snd (sync_port clients config st))
  = (calls st ++ [GetForwardedPort g])%list /\
  count is_client_call [GetForwardedPort g] = 0%nat /\
  _gluetun_ok (health_state (snd (sync_port clients config st))) = false /\
  _qbittorrent_ok (health_state (snd (sync_port clients config st))) = true /\
  get_status (health_state (snd (sync_port clients config st)))
  = (false, "Gluetun unreachable").
Proof.
  intros Hg Hauth Hok.
  ask_gluetun Hg. rewrite Hauth, Hok in Hrun. finish.
Qed.

(** C4, amended: an authentication failure of the port query to
    Gluetun, or of the read of qBittorrent that follows a forwarded
    port (the read before any write), makes the cycle set unhealthy
    with a reason that names the failing service, and return [False];
    the failing call is the last call of the cycle, and neither
    reachability flag changes. *)
Theorem auth_failure_is_fatal st g w1 :
  get_forwarded_port clients (world st) = (Return g, w1) ->
  (Gluetun.is_auth_error g = true ->
   fst (sync_port clients config st) = Return false /\
   calls (snd (sync_port clients config st))
   = (calls st ++ [GetForwardedPort g])%list /\
   _healthy (health_state (snd (sync_port clients config st))) = false /\
   contains (_reason (health_state (snd (sync_port clients config st))))
     "Gluetun" = true /\
   _gluetun_ok (health_state (snd (sync_port clients config st)))
   = _gluetun_ok (health_state st) /\
   _qbittorrent_ok (health_state (snd (sync_port clients config st)))
   = _qbittorrent_ok (health_state st))
  /\
  (forall q w2 target,
   Gluetun.is_auth_error g = false ->
   Gluetun.success g = true ->
   Gluetun.port g = Some target ->
   get_listen_port clients w1 = (Return q, w2) ->
   QBittorrent.is_auth_error q = true ->
   fst (sync_port clients config st) = Return false /\
   calls (snd (sync_port clients config st))
   = (calls st ++ [GetForwardedPort g; GetListenPort q])%list /\
   _healthy (health_state (snd (sync_port clients config st))) = false /\
   contains (_reason (health_state (snd (sync_port clients config st))))
     "qBittorrent" = true /\
   _gluetun_ok (health_state (snd (sync_port clients config st)))
   = _gluetun_ok (health_state st) /\
   _qbittorrent_ok (health_state (snd (sync_port clients config st)))
   = _qbittorrent_ok (health_state st)).
Proof.
  intros Hg. split.
  - intros Hauth. ask_gluetun Hg. rewrite Hauth in Hrun. finish.
  - intros q w2 target Hg1 Hg2 Hg3 Hq Hauth.
    ask_gluetun Hg. rewrite Hg1, Hg2, Hg3 in Hrun. cbn [negb] in Hrun.
    ask_qbittorrent Hq. rewrite Hauth in Hrun. finish.
Qed.

(** C2, amended: with at least one verification attempt configured and
    a verification delay for which [time.sleep] returns, a cycle in
    which Gluetun reports a port, the read of qBittorrent returns
    another one and the write returns makes exactly one write; whatever
    the write answers, at least one and at most [verify_max_attempts]
    verification reads follow it, and nothing but sleeps and these
    reads; and the cycle returns [True] exactly when one of these reads
    returns the forwarded port. *)
Theorem changed_port_is_written_once_then_verified
  st g w1 q w2 target u w3 :
  1 <= verify_max_attempts config ->
  sleep_passes clients (verify_delay config) ->
  get_forwarded_port clients (world st) = (Return g, w1) ->
  Gluetun.is_auth_error g = false ->
  Gluetun.success g = true ->
  Gluetun.port g = Some target ->
  get_listen_port clients w1 = (Return q, w2) ->
  QBittorrent.is_auth_error q = false ->
  QBittorrent.success q = true ->
  QBittorrent.port q <> Some target ->
  set_listen_port clients target w2 = (Return u, w3) ->
  exists verification,
    calls (snd (sync_port clients config st))
    = (calls st
       ++ [GetForwardedPort g; GetListenPort q; SetListenPort target u]
       ++ verification)%list /\
    forallb is_verification_call verification = true /\
    count is_write
      ([GetForwardedPort g; GetListenPort q; SetListenPort target u]
       ++ verification) = 1%nat /\
    (1 <= count is_qbittorrent_probe verification
     <= Z.to_nat (verify_max_attempts config))%nat /\
    (fst (sync_port clients config st) = Return true
     <-> existsb (read_shows target) verification = true).
Proof.
  intros Hattempts Hdelay Hg Hg1 Hg2 Hg3 Hq Hq1 Hq2 Hq3 Hu.
  assert (Hne : opt_int_eqb (QBittorrent.port q) (Some target) = false).
  { destruct (opt_int_eqb _ _) eqn:E; [|reflexivity].
    now apply opt_int_eqb_eq in E. }
  destruct (port_changed_cycle st g w1 q w2 target u w3
              Hg Hg1 Hg2 Hg3 Hq Hq1 Hq2 Hne Hu)
    as (verification & Hcalls & _ & Hver & Hlen & Hone & Hend).
  exists verification. split; [exact Hcalls|]. split; [exact Hver|]. split.
  { unfold count. cbn [app filter is_write List.length].
    fold (count is_write verification).
    now rewrite (proj1 (verification_has_no_write verification Hver)). }
  split; [split; [apply Hone; assumption|exact Hlen]|].
  destruct (fst (sync_port clients config st)) as [[|]|e].
  - tauto.
  - destruct Hend as (Hex & _). rewrite Hex. split; discriminate.
  - destruct Hend as (Hex & _). rewrite Hex. split; discriminate.
Qed.

(** With at least one verification attempt configured and a
    verification delay for which [time.sleep] returns, the cycle returns
    a boolean unless a call on a client raises; it then raises the
    same, and that call is its last. *)
Lemma sync_port_returns st :
  1 <= verify_max_attempts config ->
  sleep_passes clients (verify_delay config) ->
  (exists b, fst (sync_port clients config st) = Return b) \/
  (exists e before c,
     fst (sync_port clients config st) = Raise e /\
     calls (snd (sync_port clients config st))
     = (calls st ++ before ++ [c])%list /\
     call_raised c = Some e).
Proof.
  intros Hattempts Hdelay.
  destruct (get_forwarded_port clients (world st)) as [[g|e] w1] eqn:Hg.
  2:{ right. exists e, [], (GetForwardedPortRaised e).
      ask_gluetun Hg. finish. }
  destruct (Gluetun.is_auth_error g) eqn:Hg1;
    [|destruct (Gluetun.success g) eqn:Hg2;
      [destruct (Gluetun.port g) as [target|] eqn:Hg3|]].
  - left. exists false. ask_gluetun Hg. rewrite Hg1 in Hrun. finish.
  - destruct (get_listen_port clients w1) as [[q|e] w2] eqn:Hq.
    2:{ right. exists e, [GetForwardedPort g], (GetListenPortRaised e).
        ask_gluetun Hg. rewrite Hg1, Hg2, Hg3 in Hrun. cbn [negb] in Hrun.
        ask_qbittorrent Hq. finish. }
    destruct (QBittorrent.is_auth_error q) eqn:Hq1;
      [|destruct (QBittorrent.success q) eqn:Hq2;
        [destruct (opt_int_eqb (QBittorrent.port q) (Some target)) eqn:Hq3|]].
    + left. exists false. ask_gluetun Hg.
      rewrite Hg1, Hg2, Hg3 in Hrun. cbn [negb] in Hrun.
      ask_qbittorrent Hq. rewrite Hq1 in Hrun. finish.
    + left. exists true. ask_gluetun Hg.
      rewrite Hg1, Hg2, Hg3 in Hrun. cbn [negb] in Hrun.
      ask_qbittorrent Hq. rewrite Hq1, Hq2 in Hrun. cbn [negb] in Hrun.
      unfold bind at 1 in Hrun. unfold update_health at 1 in Hrun.
      rewrite Hq3 in Hrun. finish.
    + destruct (set_listen_port clients target w2) as [[u|e] w3] eqn:Hu.
      * destruct (port_changed_cycle st g w1 q w2 target u w3
                    Hg Hg1 Hg2 Hg3 Hq Hq1 Hq2 Hq3 Hu)
          as (verification & Hcalls & _ & _ & _ & _ & Hend).
        destruct (fst (sync_port clients config st)) as [b|e]; [eauto|].
        right. destruct Hend as (_ & [[_ Hn] | [_ [[before Hb] | Hs]]]).
        -- lia.
        -- exists e,
             ([GetForwardedPort g; GetListenPort q; SetListenPort target u]
              ++ before)%list,
             (GetListenPortRaised e).
           split; [reflexivity|]. split; [|reflexivity].
           now rewrite Hcalls, Hb, <- !app_assoc.
        -- now apply sleep_passes_not_raises with (e := e) in Hdelay.
      * destruct (write_raised_cycle st g w1 q w2 target e w3
                    Hg Hg1 Hg2 Hg3 Hq Hq1 Hq2 Hq3 Hu) as (Hout & Hcalls & _).
        right.
        exists e, [GetForwardedPort g; GetListenPort q],
          (SetListenPortRaised target e).
        auto.
    + left. exists false. ask_gluetun Hg.
      rewrite Hg1, Hg2, Hg3 in Hrun. cbn [negb] in Hrun.
      ask_qbittorrent Hq. rewrite Hq1, Hq2 in Hrun. finish.
  - left. exists true. ask_gluetun Hg. rewrite Hg1, Hg2, Hg3 in Hrun. finish.
  - left. exists false. ask_gluetun Hg. rewrite Hg1, Hg2 in Hrun. finish.
Qed.

(** A cycle that finds the client on another port than the forwarded
    one leaves the health state as the successful first read set it,
    however the write and the verification end: healthy, both services
    reachable. *)
Lemma failed_verification_stays_healthy st g w1 q w2 target :
  get_forwarded_port clients (world st) = (Return g, w1) ->
  Gluetun.is_auth_error g = false ->
  Gluetun.success g = true ->
  Gluetun.port g = Some target ->
  get_listen_port clients w1 = (Return q, w2) ->
  QBittorrent.is_auth_error q = false ->
  QBittorrent.success q = true ->
  opt_int_eqb (QBittorrent.port q) (Some target) = false ->
  health_state (snd (sync_port clients config st))
  = {| _healthy := true; _reason := "";
       _gluetun_ok := true; _qbittorrent_ok := true |}.
Proof.
  intros Hg Hg1 Hg2 Hg3 Hq Hq1 Hq2 Hq3.
  destruct (set_listen_port clients target w2) as [[u|e] w3] eqn:Hu.
  - destruct (port_changed_cycle st g w1 q w2 target u w3
                Hg Hg1 Hg2 Hg3 Hq Hq1 Hq2 Hq3 Hu)
      as (verification & _ & Hhealth & _).
    exact Hhealth.
  - destruct (write_raised_cycle st g w1 q w2 target e w3
                Hg Hg1 Hg2 Hg3 Hq Hq1 Hq2 Hq3 Hu) as (_ & _ & Hhealth).
    exact Hhealth.
Qed.

(** Without a verification attempt configured, every cycle that finds
    the client on another port than the forwarded one, and whose write
    returns, raises [UnboundLocalError]. *)
Lemma sync_port_raises_when_no_attempt st g w1 q w2 target u w3 :
  verify_max_attempts config <= 0 ->
  get_forwarded_port clients (world st) = (Return g, w1) ->
  Gluetun.is_auth_error g = false ->
  Gluetun.success g = true ->
  Gluetun.port g = Some target ->
  get_listen_port clients w1 = (Return q, w2) ->
  QBittorrent.is_auth_error q = false ->
  QBittorrent.success q = true ->
  opt_int_eqb (QBittorrent.port q) (Some target) = false ->
  set_listen_port clients target w2 = (Return u, w3) ->
  fst (sync_port clients config st) = Raise (UnboundLocalError "verify_result").
Proof.
  intros Hattempts Hg Hg1 Hg2 Hg3 Hq Hq1 Hq2 Hq3 Hu.
  destruct (port_changed_cycle st g w1 q w2 target u w3
              Hg Hg1 Hg2 Hg3 Hq Hq1 Hq2 Hq3 Hu)
    as (verification & _ & _ & _ & Hlen & _ & Hend).
  destruct (fst (sync_port clients config st)) as [[|]|e].
  - apply read_shows_is_probe in Hend. lia.
  - lia.
  - destruct Hend as (_ & [[-> _] | [Hn _]]); [reflexivity|lia].
Qed.

End Cycle.

(** *** Runs of the cycle on scripted answers *)

Example port_changed_run :
  sync_port scripted default_config (started port_changed_script)
  = (Return true,
     {| world := mkScript [] [] [];
        health_state := mkHealthState true "" true true;
        calls := [GetForwardedPort (gluetun_ok 54321);
                  GetListenPort (qbittorrent_ok 12345);
                  SetListenPort 54321 (qbittorrent_ok 54321);
                  Sleep 2;
                  GetListenPort (qbittorrent_ok 54321)];
        log := [(INFO, "Port changed: 12345 -> 54321, updating qBittorrent");
                (INFO, "Port updated successfully to 54321")] |}).
Proof. reflexivity. Qed.

Example stuck_port_run :
  fst (sync_port scripted default_config (started stuck_port_script))
  = Return false /\
  calls (snd (sync_port scripted default_config (started stuck_port_script)))
  = [GetForwardedPort (gluetun_ok 54321);
     GetListenPort (qbittorrent_ok 12345);
     SetListenPort 54321 (qbittorrent_ok 54321);
     Sleep 2; GetListenPort (qbittorrent_ok 12345);
     Sleep 2; GetListenPort (qbittorrent_ok 12345);
     Sleep 2; GetListenPort (qbittorrent_ok 12345)] /\
  get_status
    (health_state (snd (sync_port scripted default_config
                          (started stuck_port_script))))
  = (true, "").
Proof. repeat split; reflexivity. Qed.

Example after_client_timeout_status :
  health_state after_client_timeout
  = mkHealthState false "qBittorrent unreachable" true false.
Proof. reflexivity. Qed.

(** C1, as stated, fails: after a cycle in which the read of qBittorrent
    timed out, the flag of qBittorrent is [False]; a following cycle in
    which Gluetun times out sets it to [True], without calling
    qBittorrent. *)
Lemma gluetun_timeout_resets_client_flag :
  fst (get_forwarded_port scripted (world after_client_timeout))
  = Return gluetun_timeout /\
  Gluetun.is_auth_error gluetun_timeout = false /\
  Gluetun.success gluetun_timeout = false /\
  _qbittorrent_ok (health_state after_client_timeout) = false /\
  _qbittorrent_ok
    (health_state (snd (sync_port scripted default_config after_client_timeout)))
  = true /\
  _qbittorrent_ok
    (health_state (snd (sync_port scripted default_config after_client_timeout)))
  <> _qbittorrent_ok (health_state after_client_timeout).
Proof. repeat split; discriminate. Qed.

Lemma gluetun_transient_failure_witness :
  fst (sync_port scripted default_config after_client_timeout) = Return false /\
  calls (snd (sync_port scripted default_config after_client_timeout))
  = (calls after_client_timeout ++ [GetForwardedPort gluetun_timeout])%list /\
  count is_client_call [GetForwardedPort gluetun_timeout] = 0%nat /\
  _gluetun_ok
    (health_state (snd (sync_port scripted default_config after_client_timeout)))
  = false /\
  _qbittorrent_ok
    (health_state (snd (sync_port scripted default_config after_client_timeout)))
  = true /\
  get_status
    (health_state (snd (sync_port scripted default_config after_client_timeout)))
  = (false, "Gluetun unreachable").
Proof.
  apply (gluetun_transient_failure scripted default_config after_client_timeout
           gluetun_timeout (mkScript [] [] [])); reflexivity.
Defined.

Lemma no_forwarded_port_is_success_witness :
  fst (sync_port scripted default_config (started vpn_down_script))
  = Return true /\
  calls (snd (sync_port scripted default_config (started vpn_down_script)))
  = [GetForwardedPort gluetun_no_port] /\
  count is_client_call [GetForwardedPort gluetun_no_port] = 0%nat /\
  health_state (snd (sync_port scripted default_config (started vpn_down_script)))
  = mkHealthState true "" true true /\
  _gluetun_ok
    (health_state (snd (sync_port scripted default_config
                          (started vpn_down_script)))) = true /\
  _qbittorrent_ok
    (health_state (snd (sync_port scripted default_config
                          (started vpn_down_script)))) = true.
Proof.
  apply (no_forwarded_port_is_success scripted default_config
           (started vpn_down_script) gluetun_no_port
           (mkScript [] [qbittorrent_ok 12345] []));
    reflexivity.
Defined.

Lemma unchanged_port_is_not_written_witness :
  fst (sync_port scripted default_config (started steady_script))
  = Return true /\
  calls (snd (sync_port scripted default_config (started steady_script)))
  = [GetForwardedPort (gluetun_ok 54321); GetListenPort (qbittorrent_ok 54321)] /\
  count is_write
    [GetForwardedPort (gluetun_ok 54321); GetListenPort (qbittorrent_ok 54321)]
  = 0%nat.
Proof.
  apply (unchanged_port_is_not_written scripted default_config
           (started steady_script)
           (gluetun_ok 54321) (mkScript [] [qbittorrent_ok 54321] [])
           (qbittorrent_ok 54321) (mkScript [] [] [])
           54321);
    reflexivity.
Defined.

(** C4, as stated, fails: a verification read is a query of qBittorrent
    too, and when it is answered with an authentication failure the
    cycle goes on to the next attempt; here it stays healthy, reads once
    more and returns [True]. *)
Lemma auth_failure_during_verification_is_retried :
  calls (snd (sync_port scripted default_config
                (started rejected_verification_script)))
  = [GetForwardedPort (gluetun_ok 54321);
     GetListenPort (qbittorrent_ok 12345);
     SetListenPort 54321 (qbittorrent_ok 54321);
     Sleep 2;
     GetListenPort qbittorrent_auth_failed;
     Sleep 2;
     GetListenPort (qbittorrent_ok 54321)] /\
  QBittorrent.is_auth_error qbittorrent_auth_failed = true /\
  fst (sync_port scripted default_config (started rejected_verification_script))
  = Return true /\
  get_status
    (health_state (snd (sync_port scripted default_config
                          (started rejected_verification_script))))
  = (true, "").
Proof. repeat split; reflexivity. Qed.

Lemma auth_failure_is_fatal_witness :
  (fst (sync_port scripted default_config (started gluetun_rejects_script))
   = Return false /\
   calls (snd (sync_port scripted default_config
                 (started gluetun_rejects_script)))
   = [GetForwardedPort gluetun_auth_failed] /\
   get_status
     (health_state (snd (sync_port scripted default_config
                           (started gluetun_rejects_script))))
   = (false, "Gluetun auth error: Authentication failed"))
  /\
  (fst (sync_port scripted default_config (started qbittorrent_rejects_script))
   = Return false /\
   calls (snd (sync_port scripted default_config
                 (started qbittorrent_rejects_script)))
   = [GetForwardedPort (gluetun_ok 54321);
      GetListenPort qbittorrent_auth_failed] /\
   get_status
     (health_state (snd (sync_port scripted default_config
                           (started qbittorrent_rejects_script))))
   = (false, "qBittorrent auth error: Authentication failed")).
Proof.
  split.
  - destruct (proj1 (auth_failure_is_fatal scripted default_config
                       (started gluetun_rejects_script)
                       gluetun_auth_failed
                       (mkScript [] [qbittorrent_ok 12345] [])
                       eq_refl) eq_refl)
      as (Hout & Hcalls & _).
    split; [exact Hout|]. split; [exact Hcalls|]. reflexivity.
  - destruct (proj2 (auth_failure_is_fatal scripted default_config
                       (started qbittorrent_rejects_script)
                       (gluetun_ok 54321)
                       (mkScript [] [qbittorrent_auth_failed; qbittorrent_ok 12345]
                                 [qbittorrent_ok 54321])
                       eq_refl)
                qbittorrent_auth_failed
                (mkScript [] [qbittorrent_ok 12345] [qbittorrent_ok 54321])
                54321 eq_refl eq_refl eq_refl eq_refl eq_refl)
      as (Hout & Hcalls & _).
    split; [exact Hout|]. split; [exact Hcalls|]. reflexivity.
Defined.

(** C2, as stated, fails: with [verify_max_attempts = 0], and likewise
    with a verification delay that [time.sleep] does not accept (a
    negative one, or one beyond 9223372036 seconds), the cycle that
    finds 12345 where 54321 is forwarded writes once and then makes no
    verification read at all. *)
Lemma write_without_verification_read :
  calls (snd (sync_port scripted no_verify_config (started port_changed_script)))
  = [GetForwardedPort (gluetun_ok 54321);
     GetListenPort (qbittorrent_ok 12345);
     SetListenPort 54321 (qbittorrent_ok 54321)] /\
  fst (sync_port scripted no_verify_config (started port_changed_script))
  = Raise (UnboundLocalError "verify_result") /\
  calls (snd (sync_port scripted negative_delay_config
                (started port_changed_script)))
  = [GetForwardedPort (gluetun_ok 54321);
     GetListenPort (qbittorrent_ok 12345);
     SetListenPort 54321 (qbittorrent_ok 54321)] /\
  fst (sync_port scripted negative_delay_config (started port_changed_script))
  = Raise (ValueError "sleep length must be non-negative") /\
  calls (snd (sync_port scripted huge_delay_config
                (started port_changed_script)))
  = [GetForwardedPort (gluetun_ok 54321);
     GetListenPort (qbittorrent_ok 12345);
     SetListenPort 54321 (qbittorrent_ok 54321)] /\
  fst (sync_port scripted huge_delay_config (started port_changed_script))
  = Raise OverflowError.
Proof. repeat split; reflexivity. Qed.

Lemma changed_port_is_written_once_then_verified_witness :
  exists verification,
    calls (snd (sync_port scripted default_config (started port_changed_script)))
    = ([] ++ [GetForwardedPort (gluetun_ok 54321);
              GetListenPort (qbittorrent_ok 12345);
              SetListenPort 54321 (qbittorrent_ok 54321)]
          ++ verification)%list /\
    forallb is_verification_call verification = true /\
    count is_write
      ([GetForwardedPort (gluetun_ok 54321);
        GetListenPort (qbittorrent_ok 12345);
        SetListenPort 54321 (qbittorrent_ok 54321)]
       ++ verification) = 1%nat /\
    (1 <= count is_qbittorrent_probe verification <= 3)%nat /\
    (fst (sync_port scripted default_config (started port_changed_script))
     = Return true
     <-> existsb (read_shows 54321) verification = true).
Proof.
  apply (changed_port_is_written_once_then_verified scripted default_config
           (started port_changed_script)
           (gluetun_ok 54321)
           (mkScript [] [qbittorrent_ok 12345; qbittorrent_ok 54321]
                     [qbittorrent_ok 54321])
           (qbittorrent_ok 12345)
           (mkScript [] [qbittorrent_ok 54321] [qbittorrent_ok 54321])
           54321
           (qbittorrent_ok 54321)
           (mkScript [] [qbittorrent_ok 54321] []));
    try reflexivity; try (cbn; lia); try discriminate.
  split; [reflexivity|]. intros w. reflexivity.
Defined.

(** C3: with [VERIFY_MAX_ATTEMPTS=0], a cycle that finds 12345 where
    54321 is forwarded does not return: it raises [UnboundLocalError]
    where it formats the last warning. *)
Theorem sync_port_raises_without_attempts :
  fst (sync_port scripted no_verify_config (started port_changed_script))
  = Raise (UnboundLocalError "verify_result").
Proof. reflexivity. Qed.

(** C10: with [VERIFY_MAX_ATTEMPTS=0], a cycle that reaches the
    verification loop (here after a refused write) and runs out of its
    attempts without a match raises instead of returning [False]; the
    health state is still healthy at that point, and the handler in
    [run] then turns it unhealthy with the text of the exception. *)
Theorem exhausted_verification_turns_unhealthy (str_exc : Exception -> string) :
  count is_write
    (calls (snd (sync_port scripted no_verify_config
                   (started refused_write_script)))) = 1%nat /\
  fst (sync_port scripted no_verify_config (started refused_write_script))
  = Raise (UnboundLocalError "verify_result") /\
  get_status
    (health_state (snd (sync_port scripted no_verify_config
                          (started refused_write_script))))
  = (true, "") /\
  get_status
    (health_state (snd (run_iteration scripted str_exc no_verify_config
                          (started refused_write_script))))
  = (false, str_exc (UnboundLocalError "verify_result")).
Proof. repeat split; reflexivity. Qed.

(* ===================================================================== *)
(** ** The startup gate *)

Section Startup.

Context {World : Type}.
Variable clients : Clients World.
Variable config : Config.

Local Arguments str_int : simpl never.
Local Arguments String.append : simpl never.
Local Arguments py_range : simpl never.
Local Arguments Z.ltb : simpl never.
Local Arguments sleep_rejects : simpl never.

(** Take the next branching point of a run apart. *)
Ltac branch Hrun :=
  cbn in Hrun;
  match type of Hrun with
  | context [if negb ?b then _ else _] => destruct b
  | context [get_forwarded_port ?c ?w] =>
    destruct (get_forwarded_port c w) as [[?|?] ?] eqn:?
  | context [get_listen_port ?c ?w] =>
    destruct (get_listen_port c w) as [[?|?] ?] eqn:?
  | context [sleep_rejects ?s] => destruct (sleep_rejects s) eqn:?
  | context [pysleep ?c ?s ?w] =>
    destruct (pysleep c s w) as [[?|] ?] eqn:?
  | context [if ?b then _ else _] => destruct b eqn:?
  end.

(** Use what the branches decided about the answers. *)
Ltac decided :=
  cbn;
  repeat match goal with
         | H : Gluetun.is_auth_error _ = _ |- _ => rewrite H
         | H : Gluetun.success _ = _ |- _ => rewrite H
         | H : QBittorrent.is_auth_error _ = _ |- _ => rewrite H
         | H : QBittorrent.success _ = _ |- _ => rewrite H
         end;
  cbn.

Ltac close_run :=
  unfold count in *; decided;
  repeat split; try lia; try discriminate; auto;
  try (intros; discriminate).

Lemma wait_for_services_loop_runs :
  forall attempts gluetun_ready qbittorrent_ready st out st',
  wait_for_services_loop clients config attempts
    gluetun_ready qbittorrent_ready st = (out, st') ->
  exists new,
    calls st' = (calls st ++ new)%list /\
    (count is_gluetun_probe new <= List.length attempts)%nat /\
    (count is_qbittorrent_probe new <= List.length attempts)%nat /\
    (out = Return (Returned true) ->
     (gluetun_ready = true \/ existsb gluetun_answered new = true) /\
     (qbittorrent_ready = true \/ existsb qbittorrent_answered new = true)) /\
    auth_failure_last new = true /\
    (existsb is_auth_failure new = true -> out = Return (Returned false)).
Proof.
  induction attempts as [|attempt rest IH];
    intros gluetun_ready qbittorrent_ready st out st' Hrun.
  - cbn in Hrun. injection Hrun as <- <-.
    exists []. rewrite app_nil_r. cbn. repeat split; try lia; discriminate.
  - cbn [wait_for_services_loop] in Hrun.
    unfold bind, logger, ret, update_health, time_sleep,
      gluetun_check_ready, qbittorrent_check_ready,
      gluetun_get_forwarded_port, qbittorrent_get_listen_port in Hrun.
    repeat branch Hrun.
    all: cbn in Hrun.
    all: try (injection Hrun as <- <-; cbn [calls];
              eexists; split;
              [ first [ rewrite <- ?app_assoc; reflexivity
                      | symmetry; apply app_nil_r ] | ];
              close_run; fail).
    all: apply IH in Hrun;
      destruct Hrun as (new' & Hc & Hng & Hnq & Hok & Hlast & Hauth);
      cbn [calls] in Hc;
      eexists; (split; [rewrite Hc, <- ?app_assoc; reflexivity|]).
    all: unfold count in *; decided.
    all: split; [lia|]; split; [lia|]; split; [|split; assumption].
    all: intros Hout; destruct (Hok Hout); split; intuition auto.
Qed.

Lemma auth_failure_last_is_last : forall before new c after,
  auth_failure_last new = true ->
  new = (before ++ c :: after)%list ->
  is_auth_failure c = true ->
  after = [].
Proof.
  induction before as [|b before IH]; intros new c after Hlast -> Hc.
  - cbn in Hlast. rewrite Hc in Hlast. now destruct after.
  - cbn [app auth_failure_last] in Hlast.
    destruct (is_auth_failure b).
    + now destruct before.
    + eapply IH; eauto.
Qed.

Lemma existsb_impl {A} (p q : A -> bool) (l : list A) :
  (forall a, p a = true -> q a = true) ->
  existsb p l = true -> existsb q l = true.
Proof.
  intros Hpq. rewrite !existsb_exists. intros [a [Ha Hp]]. eauto.
Qed.

Lemma answered_no_auth_failure c :
  (gluetun_answered c = true -> gluetun_no_auth_failure c = true) /\
  (qbittorrent_answered c = true -> qbittorrent_no_auth_failure c = true).
Proof.
  unfold gluetun_no_auth_failure, qbittorrent_no_auth_failure.
  destruct c as [r|r|p r|s|e|e|p e]; cbn; split; try discriminate;
    now intros [-> _]%andb_prop.
Qed.

(** C7: [wait_for_services] returns [True] only when, within
    [startup_max_attempts] probes of each, Gluetun and qBittorrent have
    each given an answer that is not an authentication failure (indeed
    a successful one); and a probe answered with an authentication
    failure is the last call the gate makes, and makes it return
    [False]. *)
Theorem startup_gate st :
  exists new,
    calls (snd (wait_for_services clients config st)) = (calls st ++ new)%list /\
    (fst (wait_for_services clients config st) = Return true ->
     existsb gluetun_no_auth_failure new = true /\
     existsb qbittorrent_no_auth_failure new = true /\
     existsb gluetun_answered new = true /\
     existsb qbittorrent_answered new = true /\
     (count is_gluetun_probe new
      <= Z.to_nat (startup_max_attempts config))%nat /\
     (count is_qbittorrent_probe new
      <= Z.to_nat (startup_max_attempts config))%nat) /\
    (forall before c after,
     new = (before ++ c :: after)%list ->
     is_auth_failure c = true ->
     after = [] /\
     fst (wait_for_services clients config st) = Return false).
Proof.
  destruct (wait_for_services clients config st) as [out st'] eqn:Hrun.
  unfold wait_for_services in Hrun.
  unfold bind at 1 in Hrun. unfold logger at 1 in Hrun.
  unfold bind at 1 in Hrun.
  match type of Hrun with
  | context [wait_for_services_loop ?c ?cfg ?l ?g ?q ?s] =>
    destruct (wait_for_services_loop c cfg l g q s) as [r s'] eqn:Hloop
  end.
  apply wait_for_services_loop_runs in Hloop.
  destruct Hloop as (new & Hcalls & Hng & Hnq & Hok & Hlast & Hauth).
  cbn [calls] in Hcalls.
  rewrite py_range_length in Hng, Hnq.
  replace (startup_max_attempts config + 1 - 1)
    with (startup_max_attempts config) in Hng, Hnq by lia.
  exists new. cbn [fst snd].
  assert (Hst : calls st' = (calls st ++ new)%list /\
                (out = Return true -> r = Return (Returned true)) /\
                (r = Return (Returned false) -> out = Return false)).
  { destruct r as [[[]|[|]]|e]; cbn in Hrun; injection Hrun as <- <-;
      cbn [calls]; repeat split; auto; discriminate. }
  destruct Hst as (Hst & Htrue & Hfalse).
  split; [exact Hst|]. split.
  - intros Hout. destruct (Hok (Htrue Hout)) as [[?|Hg] [?|Hq]];
      try discriminate.
    repeat split; auto.
    + eapply existsb_impl; [|exact Hg]. apply answered_no_auth_failure.
    + eapply existsb_impl; [|exact Hq]. apply answered_no_auth_failure.
  - intros before c after Hnew Hc. split.
    + eapply auth_failure_last_is_last; eauto.
    + apply Hfalse, Hauth. rewrite Hnew, existsb_app. cbn.
      now rewrite Hc, orb_true_r.
Qed.

End Startup.

(** *** Runs of the gate on scripted answers *)

Example slow_gluetun_run :
  fst (wait_for_services scripted default_config (fresh slow_gluetun_script))
  = Return true /\
  calls (snd (wait_for_services scripted default_config
                (fresh slow_gluetun_script)))
  = [GetForwardedPort gluetun_timeout;
     GetListenPort (qbittorrent_ok 12345);
     Sleep 5;
     GetForwardedPort gluetun_no_port] /\
  health_state (snd (wait_for_services scripted default_config
                       (fresh slow_gluetun_script)))
  = mkHealthState true "" true true.
Proof. repeat split; reflexivity. Qed.

Example late_rejection_run :
  fst (wait_for_services scripted default_config (fresh late_rejection_script))
  = Return false /\
  calls (snd (wait_for_services scripted default_config
                (fresh late_rejection_script)))
  = [GetForwardedPort gluetun_timeout;
     GetListenPort qbittorrent_timeout;
     Sleep 5;
     GetForwardedPort gluetun_auth_failed] /\
  health_state (snd (wait_for_services scripted default_config
                       (fresh late_rejection_script)))
  = HealthState_init.
Proof. repeat split; reflexivity. Qed.

Lemma startup_gate_witness :
  exists new,
    calls (snd (wait_for_services scripted default_config
                  (fresh late_rejection_script))) = ([] ++ new)%list /\
    (fst (wait_for_services scripted default_config
            (fresh late_rejection_script)) = Return true ->
     existsb gluetun_no_auth_failure new = true /\
     existsb qbittorrent_no_auth_failure new = true /\
     existsb gluetun_answered new = true /\
     existsb qbittorrent_answered new = true /\
     (count is_gluetun_probe new <= 60)%nat /\
     (count is_qbittorrent_probe new <= 60)%nat) /\
    (forall before c after,
     new = (before ++ c :: after)%list ->
     is_auth_failure c = true ->
     after = [] /\
     fst (wait_for_services scripted default_config
            (fresh late_rejection_script)) = Return false).
Proof.
  exact (startup_gate scripted default_config (fresh late_rejection_script)).
Defined.

(* ===================================================================== *)
(** ** The orchestrator as a whole *)

Section Orchestrator.

Context {World : Type}.
Variable clients : Clients World.
Variable config : Config.

Local Arguments str_int : simpl never.
Local Arguments String.append : simpl never.
Local Arguments py_range : simpl never.
Local Arguments Z.ltb : simpl never.
Local Arguments set_service_status : simpl never.
Local Arguments set_healthy : simpl never.

Lemma opt_int_eqb_neq a b : opt_int_eqb a b = false -> a <> b.
Proof.
  intros H Heq. apply opt_int_eqb_eq in Heq. congruence.
Qed.

(** Take the next branching point of a run apart. *)
Ltac branch Hrun :=
  cbn in Hrun;
  match type of Hrun with
  | context [get_forwarded_port ?c ?w] =>
    destruct (get_forwarded_port c w) as [[?|?] ?] eqn:?
  | context [get_listen_port ?c ?w] =>
    destruct (get_listen_port c w) as [[?|?] ?] eqn:?
  | context [set_listen_port ?c ?p ?w] =>
    destruct (set_listen_port c p w) as [[?|?] ?] eqn:?
  | context [if negb ?b then _ else _] => destruct b eqn:?
  | context [if ?b then _ else _] => destruct b eqn:?
  | context [match Gluetun.port ?g with _ => _ end] =>
    destruct (Gluetun.port g) eqn:?
  end.

(** Turn the port tests that the branches decided into equations. *)
Ltac ports :=
  repeat match goal with
         | H : opt_int_eqb _ _ = true |- _ => apply opt_int_eqb_eq in H
         | H : opt_int_eqb _ _ = false |- _ => apply opt_int_eqb_neq in H
         end.

(** Every cycle, however it ends: its calls have one of the shapes of
    [cycle_calls], it reads qBittorrent at most once more than there
    are verification attempts, and it leaves the health state as one
    write of [set_healthy(False, ...)] or of [set_service_status] left
    it, or, when a call raised before any write, as it found it. *)
Lemma sync_port_runs st :
  exists new,
    calls (snd (sync_port clients config st)) = (calls st ++ new)%list /\
    cycle_calls new /\
    (count is_qbittorrent_probe new
     <= 1 + Z.to_nat (verify_max_attempts config))%nat /\
    ((exists reason,
        health_state (snd (sync_port clients config st))
        = set_healthy false reason (health_state st)) \/
     (exists g q,
        health_state (snd (sync_port clients config st))
        = set_service_status g q (health_state st)) \/
     (health_state (snd (sync_port clients config st)) = health_state st /\
      exists e, fst (sync_port clients config st) = Raise e)).
Proof.
  destruct (sync_port clients config st) as [out st'] eqn:Hrun.
  cbn [fst snd].
  unfold sync_port, bind, logger, ret, update_health,
    gluetun_get_forwarded_port, qbittorrent_get_listen_port,
    qbittorrent_set_listen_port in Hrun.
  repeat branch Hrun.
  all: cbn in Hrun; ports.
  all: try (injection Hrun as <- <-; cbn [calls health_state];
            eexists; split; [rewrite <- ?app_assoc; reflexivity|];
            split; [econstructor; eauto; fail|];
            split; [unfold count; cbn; lia|]; eauto 7; fail).
  all: match type of Hrun with
       | context [verify_loop ?c ?cfg ?t ?l ?v ?s] =>
         destruct (verify_loop c cfg t l v s) as [vout s'] eqn:Hloop;
         apply verify_loop_runs in Hloop;
         destruct Hloop as (new & Hcalls & Hhealth & Hver & Hreads & _);
         cbn [calls health_state] in Hcalls, Hhealth;
         rewrite py_range_length in Hreads;
         assert (Hst : calls st' = calls s' /\
                       health_state st' = health_state s')
           by (destruct vout as [[[[]|b] [r|]]|e];
               cbn in Hrun; injection Hrun as <- <-; split; reflexivity);
         destruct Hst as [-> ->]; rewrite Hcalls, Hhealth
       end.
  all: eexists; (split; [rewrite <- !app_assoc; reflexivity|]).
  all: split; [apply written; auto|].
  all: split; [unfold count in *; cbn; lia|eauto].
Qed.

Lemma verification_excludes_write v before p u after :
  forallb is_verification_call v = true ->
  v <> (before ++ SetListenPort p u :: after)%list.
Proof.
  intros Hv ->. rewrite forallb_app in Hv. cbn in Hv.
  now rewrite andb_false_r in Hv.
Qed.

Lemma sync_port_call_counts st :
  exists new,
    calls (snd (sync_port clients config st)) = (calls st ++ new)%list /\
    count is_gluetun_probe new = 1%nat /\
    (count is_write new <= 1)%nat /\
    (count is_qbittorrent_probe new
     <= 1 + Z.to_nat (verify_max_attempts config))%nat.
Proof.
  destruct (sync_port_runs st) as (new & Hcalls & Hshape & Hreads & _).
  exists new. split; [exact Hcalls|]. split; [|split; [|exact Hreads]].
  - destruct Hshape as [ | | | | | g t q u v _ _ _ _ _ _ Hv];
      try reflexivity.
    unfold count. cbn. fold (count is_gluetun_probe v).
    now rewrite (proj2 (verification_has_no_write v Hv)).
  - destruct Hshape as [ | | | | | g t q u v _ _ _ _ _ _ Hv];
      try (cbn; lia).
    unfold count. cbn. fold (count is_write v).
    rewrite (proj1 (verification_has_no_write v Hv)). lia.
Qed.

(** Each cycle asks Gluetun exactly once, writes to qBittorrent at most
    once, and reads qBittorrent at most once more than there are
    verification attempts: whatever the answers and the settings, and
    also when the cycle raises. *)
Theorem cycle_call_bounds st :
  exists new,
    calls (snd (sync_port clients config st)) = (calls st ++ new)%list /\
    count is_gluetun_probe new = 1%nat /\
    (count is_write new <= 1)%nat /\
    (count is_qbittorrent_probe new
     <= 1 + Z.to_nat (verify_max_attempts config))%nat.
Proof. exact (sync_port_call_counts st). Qed.

(** A write to qBittorrent is always of the port that Gluetun has just
    reported, comes directly after a successful read that returned
    another port, and is the only write of its cycle. *)
Theorem cycle_writes_only_forwarded_port st before p u after :
  calls (snd (sync_port clients config st))
  = (calls st ++ before ++ SetListenPort p u :: after)%list ->
  exists g q,
    before = [GetForwardedPort g; GetListenPort q] /\
    Gluetun.is_auth_error g = false /\
    Gluetun.success g = true /\
    Gluetun.port g = Some p /\
    QBittorrent.is_auth_error q = false /\
    QBittorrent.success q = true /\
    QBittorrent.port q <> Some p /\
    count is_write after = 0%nat.
Proof.
  intros Hwrite.
  destruct (sync_port_runs st) as (new & Hcalls & Hshape & _).
  rewrite Hcalls in Hwrite. apply app_inv_head in Hwrite. subst new.
  inversion Hshape as [e Heq | g Hg Heq | g t e Hg1 Hg2 Hg3 Heq
                       | g t q Hg1 Hg2 Hg3 Hq Heq
                       | g t q e Hg1 Hg2 Hg3 Hq1 Hq2 Hq3 Heq
                       | g t q u' v Hg1 Hg2 Hg3 Hq1 Hq2 Hq3 Hv Heq].
  - destruct before as [|? [|? ?]]; discriminate.
  - destruct before as [|? [|? ?]]; discriminate.
  - destruct before as [|? [|? [|? ?]]]; discriminate.
  - destruct before as [|? [|? [|? ?]]]; discriminate.
  - destruct before as [|? [|? [|? [|? ?]]]]; discriminate.
  - destruct before as [|c1 [|c2 [|c3 rest]]]; try discriminate.
    + cbn in Heq. injection Heq as <- <- -> <- ->.
      exists g, q. repeat split; auto.
      apply verification_has_no_write, Hv.
    + cbn in Heq. injection Heq as _ _ _ Heq.
      now apply verification_excludes_write in Heq.
Qed.

(** When the first read of qBittorrent fails transiently, the cycle marks
    Gluetun reachable and qBittorrent unreachable, which leaves the
    status (unhealthy, "qBittorrent unreachable"); it writes nothing and
    returns [False]. *)
Theorem qbittorrent_transient_failure st g w1 q w2 target :
  get_forwarded_port clients (world st) = (Return g, w1) ->
  Gluetun.is_auth_error g = false ->
  Gluetun.success g = true ->
  Gluetun.port g = Some target ->
  get_listen_port clients w1 = (Return q, w2) ->
  QBittorrent.is_auth_error q = false ->
  QBittorrent.success q = false ->
  fst (sync_port clients config st) = Return false /\
  calls (snd (sync_port clients config st))
  = (calls st ++ [GetForwardedPort g; GetListenPort q])%list /\
  health_state (snd (sync_port clients config st))
  = mkHealthState false "qBittorrent unreachable" true false.
Proof.
  intros Hg Hg1 Hg2 Hg3 Hq Hq1 Hq2.
  destruct (sync_port clients config st) as [out st'] eqn:Hrun.
  unfold sync_port in Hrun.
  unfold bind at 1 in Hrun. unfold gluetun_get_forwarded_port at 1 in Hrun.
  rewrite Hg in Hrun. cbv beta iota in Hrun.
  rewrite Hg1, Hg2, Hg3 in Hrun. cbn [negb] in Hrun.
  unfold bind at 1 in Hrun. unfold qbittorrent_get_listen_port at 1 in Hrun.
  cbn [world] in Hrun. rewrite Hq in Hrun. cbv beta iota in Hrun.
  rewrite Hq1, Hq2 in Hrun.
  cbn in Hrun. injection Hrun as <- <-. cbn.
  rewrite <- app_assoc. auto.
Qed.

(** One pass through the loop of [run], in terms of its cycle: the
    handler of the [try] writes the health state when the cycle raised,
    and the sleep follows, outside the [try]. *)
Lemma run_iteration_runs str_exc st :
  exists s1,
    calls s1 = calls (snd (sync_port clients config st)) /\
    health_state s1
    = match fst (sync_port clients config st) with
      | Return _ => health_state (snd (sync_port clients config st))
      | Raise e =>
        set_healthy false (str_exc e)
          (health_state (snd (sync_port clients config st)))
      end /\
    run_iteration clients str_exc config st
    = time_sleep clients (poll_interval config) s1.
Proof.
  unfold run_iteration, bind, try_except, logger, ret, update_health.
  destruct (sync_port clients config st) as [[b|e] s]; cbn [fst snd];
    eexists; (split; [|split; [|reflexivity]]); reflexivity.
Qed.

(** After a cycle the health state is healthy only with the empty
    reason and with both services marked reachable, unless the cycle
    raised before it wrote the health state, which is then as the cycle
    found it.  After a pass through the loop of [run] it is so in every
    case, from whatever state the pass started: a pass whose cycle
    raised leaves it unhealthy with the text of the exception. *)
Theorem cycle_leaves_health_consistent str_exc st :
  (health_consistent (health_state (snd (sync_port clients config st))) \/
   (exists e, fst (sync_port clients config st) = Raise e) /\
   health_state (snd (sync_port clients config st)) = health_state st) /\
  health_consistent
    (health_state (snd (run_iteration clients str_exc config st))) /\
  (forall e,
   fst (sync_port clients config st) = Raise e ->
   get_status (health_state (snd (run_iteration clients str_exc config st)))
   = (false, str_exc e)).
Proof.
  assert (Hcycle :
            health_consistent
              (health_state (snd (sync_port clients config st))) \/
            (exists e, fst (sync_port clients config st) = Raise e) /\
            health_state (snd (sync_port clients config st))
            = health_state st).
  { destruct (sync_port_runs st)
      as (_ & _ & _ & _ & [[r ->] | [(g & q & ->) | [Hsame Hraise]]]).
    - left. intros H. discriminate.
    - left. destruct g, q; intros H; try discriminate. cbn. auto.
    - right. auto. }
  destruct (run_iteration_runs str_exc st) as (s1 & _ & Hhealth & ->).
  assert (Hsleep : health_state
                     (snd (time_sleep clients (poll_interval config) s1))
                   = health_state s1).
  { destruct (time_sleep_runs clients (poll_interval config) s1)
      as [(e & _ & _ & H & _) | (_ & _ & H)]; exact H. }
  rewrite Hsleep, Hhealth. split; [exact Hcycle|]. split.
  - destruct (fst (sync_port clients config st)) as [b|e].
    + destruct Hcycle as [H | [[e He] _]]; [exact H|discriminate He].
    + intros H. discriminate.
  - intros e ->. reflexivity.
Qed.

(** When [time.sleep] returns for the poll interval, the loop of [run]
    never lets an exception out, whatever the clients answer or raise
    and whatever the other settings are: every pass ends, and [n]
    passes ask Gluetun exactly [n] times. *)
Theorem run_survives_failing_cycles str_exc :
  sleep_passes clients (poll_interval config) ->
  forall n st,
  fst (run_iterations clients str_exc n config st) = Return tt /\
  exists new,
    calls (snd (run_iterations clients str_exc n config st))
    = (calls st ++ new)%list /\
    count is_gluetun_probe new = n.
Proof.
  intros Hpoll. induction n as [|n IH]; intros st.
  - cbn. split; [reflexivity|]. exists []. now rewrite app_nil_r.
  - cbn [run_iterations]. unfold bind.
    destruct (run_iteration_runs str_exc st) as (s1 & Hcalls & _ & ->).
    destruct (time_sleep_runs clients (poll_interval config) s1)
      as [(e & _ & _ & _ & Hraises) | (Hout & Hslept & _)].
    { now apply sleep_passes_not_raises with (e := e) in Hpoll. }
    destruct (time_sleep clients (poll_interval config) s1) as [o s2].
    cbn [fst snd] in Hout, Hslept. subst o.
    destruct (IH s2) as (Hret & new & Hnew & Hcount).
    split; [exact Hret|].
    destruct (sync_port_call_counts st) as (cycle & Hcycle & Hone & _).
    exists (cycle ++ [Sleep (poll_interval config)] ++ new)%list.
    rewrite Hnew, Hslept, Hcalls, Hcycle, <- !app_assoc.
    split; [reflexivity|].
    unfold count in *. rewrite !filter_app, !length_app, Hone, Hcount.
    reflexivity.
Qed.

(** With a poll interval that [time.sleep] does not accept, the loop of
    [run] ends in its first pass: the cycle runs, and the sleep after
    it, outside the [try], raises [ValueError] for a negative interval
    down to -9223372036 and [OverflowError] beyond 9223372036 on either
    side. *)
Theorem run_stops_on_rejected_poll_interval str_exc n st :
  poll_interval config < 0 \/ 9223372036 < poll_interval config ->
  fst (run_iterations clients str_exc (S n) config st)
  = Raise (if (-9223372036 <=? poll_interval config)
              && (poll_interval config <? 0)
           then ValueError "sleep length must be non-negative"
           else OverflowError) /\
  calls (snd (run_iterations clients str_exc (S n) config st))
  = calls (snd (sync_port clients config st)).
Proof.
  intros Hpoll. cbn [run_iterations]. unfold bind.
  destruct (run_iteration_runs str_exc st) as (s1 & Hcalls & _ & ->).
  unfold time_sleep, sleep_rejects.
  destruct (poll_interval config <? -9223372036) eqn:Hlow;
    destruct (9223372036 <? poll_interval config) eqn:Hhigh;
    destruct (poll_interval config <? 0) eqn:Hneg;
    destruct (-9223372036 <=? poll_interval config) eqn:Hin;
    try lia; cbn; auto.
Qed.

End Orchestrator.

(** *** Runs of the loop on scripted answers *)

Example two_cycles_run :
  calls two_cycles
  = [GetForwardedPort (gluetun_ok 54321); GetListenPort qbittorrent_timeout;
     Sleep 30;
     GetForwardedPort gluetun_timeout;
     Sleep 30] /\
  health_state two_cycles = mkHealthState false "Gluetun unreachable" false true.
Proof. split; reflexivity. Qed.

(** Gluetun answers 200 with a JSON list: the client lets an
    [AttributeError] out, the cycle raises it without a health write,
    and the handler of [run] turns the state unhealthy. *)
Example list_body_run :
  fst (sync_port
         (rest_clients scripted_server plain_lib (local_config None None None)
            steady_clock)
         default_config (started_on list_body_script))
  = Raise AttributeError /\
  calls (snd (sync_port
                (rest_clients scripted_server plain_lib
                   (local_config None None None) steady_clock)
                default_config (started_on list_body_script)))
  = [GetForwardedPortRaised AttributeError] /\
  get_status
    (health_state
       (snd (sync_port
               (rest_clients scripted_server plain_lib
                  (local_config None None None) steady_clock)
               default_config (started_on list_body_script))))
  = (true, "") /\
  get_status
    (health_state
       (snd (run_iteration
               (rest_clients scripted_server plain_lib
                  (local_config None None None) steady_clock)
               (fun _ => "error") default_config
               (started_on list_body_script))))
  = (false, "error").
Proof. repeat split; reflexivity. Qed.

(** The sleep of [time.sleep(9223372036)] is accepted and then fails
    in the system call, on a clock that has run for a second. *)
Example deadline_overflow_run :
  sleep_rejects 9223372036 = None /\
  fst (time_sleep
         (rest_clients scripted_server plain_lib (local_config None None None)
            (linux_clock 1000000000))
         9223372036 (started_on []))
  = Raise (OSError "[Errno 22] Invalid argument").
Proof. split; reflexivity. Qed.

Lemma cycle_writes_only_forwarded_port_witness :
  exists g q,
    [GetForwardedPort (gluetun_ok 54321); GetListenPort (qbittorrent_ok 12345)]
    = [GetForwardedPort g; GetListenPort q] /\
    Gluetun.is_auth_error g = false /\
    Gluetun.success g = true /\
    Gluetun.port g = Some 54321 /\
    QBittorrent.is_auth_error q = false /\
    QBittorrent.success q = true /\
    QBittorrent.port q <> Some 54321 /\
    count is_write [Sleep 2; GetListenPort (qbittorrent_ok 54321)] = 0%nat.
Proof.
  apply (cycle_writes_only_forwarded_port scripted default_config
           (started port_changed_script)
           [GetForwardedPort (gluetun_ok 54321);
            GetListenPort (qbittorrent_ok 12345)]
           54321 (qbittorrent_ok 54321)
           [Sleep 2; GetListenPort (qbittorrent_ok 54321)]).
  reflexivity.
Defined.

Lemma qbittorrent_transient_failure_witness :
  fst (sync_port scripted default_config (started both_time_out_script))
  = Return false /\
  calls (snd (sync_port scripted default_config (started both_time_out_script)))
  = [GetForwardedPort (gluetun_ok 54321); GetListenPort qbittorrent_timeout] /\
  health_state
    (snd (sync_port scripted default_config (started both_time_out_script)))
  = mkHealthState false "qBittorrent unreachable" true false.
Proof.
  apply (qbittorrent_transient_failure scripted default_config
           (started both_time_out_script)
           (gluetun_ok 54321)
           (mkScript [gluetun_timeout] [qbittorrent_timeout] [])
           qbittorrent_timeout
           (mkScript [gluetun_timeout] [] [])
           54321);
    reflexivity.
Defined.

Lemma cycle_leaves_health_consistent_witness :
  get_status
    (health_state
       (snd (run_iteration
               (rest_clients scripted_server plain_lib
                  (local_config None None None) steady_clock)
               (fun _ => "error") default_config
               (started_on list_body_script))))
  = (false, "error").
Proof.
  apply (proj2 (proj2 (cycle_leaves_health_consistent
                         (rest_clients scripted_server plain_lib
                            (local_config None None None) steady_clock)
                         default_config
                         (fun _ => "error") (started_on list_body_script)))
           AttributeError).
  reflexivity.
Defined.

Lemma run_survives_failing_cycles_witness :
  fst (run_iterations
         (rest_clients scripted_server plain_lib (local_config None None None)
            steady_clock)
         (fun _ => "error") 2 default_config
         (started_on list_body_script)) = Return tt /\
  exists new,
    calls (snd (run_iterations
                  (rest_clients scripted_server plain_lib
                     (local_config None None None) steady_clock)
                  (fun _ => "error") 2 default_config
                  (started_on list_body_script)))
    = ([] ++ new)%list /\
    count is_gluetun_probe new = 2%nat.
Proof.
  apply (run_survives_failing_cycles
           (rest_clients scripted_server plain_lib (local_config None None None)
              steady_clock)
           default_config (fun _ => "error")).
  split; [reflexivity|]. intros w. reflexivity.
Defined.

Lemma run_stops_on_rejected_poll_interval_witness :
  fst (run_iterations scripted (fun _ => "error") 3 negative_poll_config
         (started steady_script))
  = Raise (ValueError "sleep length must be non-negative") /\
  calls (snd (run_iterations scripted (fun _ => "error") 3 negative_poll_config
                (started steady_script)))
  = calls (snd (sync_port scripted negative_poll_config (started steady_script))).
Proof.
  apply (run_stops_on_rejected_poll_interval scripted negative_poll_config
           (fun _ => "error") 2 (started steady_script)).
  left. cbn. lia.
Defined.

(* ===================================================================== *)
(** ** More on the startup gate *)

Section StartupFrame.

Context {World : Type}.
Variable clients : Clients World.
Variable config : Config.

Local Arguments str_int : simpl never.
Local Arguments String.append : simpl never.
Local Arguments py_range : simpl never.
Local Arguments Z.ltb : simpl never.
Local Arguments set_service_status : simpl never.
Local Arguments sleep_rejects : simpl never.

Ltac branch Hrun :=
  cbn in Hrun;
  match type of Hrun with
  | context [if negb ?b then _ else _] => destruct b
  | context [get_forwarded_port ?c ?w] =>
    destruct (get_forwarded_port c w) as [[?|?] ?] eqn:?
  | context [get_listen_port ?c ?w] =>
    destruct (get_listen_port c w) as [[?|?] ?] eqn:?
  | context [sleep_rejects ?s] => destruct (sleep_rejects s) eqn:?
  | context [pysleep ?c ?s ?w] =>
    destruct (pysleep c s w) as [[?|] ?] eqn:?
  | context [if ?b then _ else _] => destruct b eqn:?
  end.

Ltac decided :=
  cbn;
  repeat match goal with
         | H : Gluetun.is_auth_error _ = _ |- _ => rewrite H
         | H : Gluetun.success _ = _ |- _ => rewrite H
         | H : QBittorrent.is_auth_error _ = _ |- _ => rewrite H
         | H : QBittorrent.success _ = _ |- _ => rewrite H
         end;
  cbn.

(** One attempt of the gate, down to where it returns, raises or goes on
    to the next attempt. *)
Ltac attempt_cases Hrun :=
  cbn [wait_for_services_loop] in Hrun;
  unfold bind, logger, ret, update_health, time_sleep,
    gluetun_check_ready, qbittorrent_check_ready,
    gluetun_get_forwarded_port, qbittorrent_get_listen_port in Hrun;
  repeat branch Hrun;
  cbn in Hrun.

(** The gate writes nothing to qBittorrent, and touches the health state
    only when it succeeds. *)
Lemma wait_for_services_loop_frame :
  forall attempts gluetun_ready qbittorrent_ready st out st',
  wait_for_services_loop clients config attempts
    gluetun_ready qbittorrent_ready st = (out, st') ->
  exists new,
    calls st' = (calls st ++ new)%list /\
    count is_write new = 0%nat /\
    health_state st'
    = (if returned_true out
       then set_service_status true true (health_state st)
       else health_state st).
Proof.
  induction attempts as [|attempt rest IH];
    intros gluetun_ready qbittorrent_ready st out st' Hrun.
  - cbn in Hrun. injection Hrun as <- <-.
    exists []. rewrite app_nil_r. cbn. auto.
  - attempt_cases Hrun.
    all: try (injection Hrun as <- <-; cbn [calls health_state];
              eexists; split;
              [ first [ rewrite <- ?app_assoc; reflexivity
                      | symmetry; apply app_nil_r ] | ];
              unfold count; cbn; auto; fail).
    all: apply IH in Hrun; destruct Hrun as (new' & Hc & Hw & Hh);
      cbn [calls health_state] in Hc, Hh;
      eexists; (split; [rewrite Hc, <- ?app_assoc; reflexivity|]);
      unfold count in *; cbn; auto.
Qed.

(** A service that has answered is not probed again. *)
Lemma wait_for_services_loop_probes :
  forall attempts gluetun_ready qbittorrent_ready st out st',
  wait_for_services_loop clients config attempts
    gluetun_ready qbittorrent_ready st = (out, st') ->
  exists new,
    calls st' = (calls st ++ new)%list /\
    (gluetun_ready = true -> existsb is_gluetun_probe new = false) /\
    (qbittorrent_ready = true -> existsb is_qbittorrent_probe new = false) /\
    answered_is_last_probe is_gluetun_probe gluetun_answered new = true /\
    answered_is_last_probe is_qbittorrent_probe qbittorrent_answered new
    = true.
Proof.
  induction attempts as [|attempt rest IH];
    intros gluetun_ready qbittorrent_ready st out st' Hrun.
  - cbn in Hrun. injection Hrun as <- <-.
    exists []. rewrite app_nil_r. cbn. auto.
  - attempt_cases Hrun.
    all: try (injection Hrun as <- <-; cbn [calls];
              eexists; split;
              [ first [ rewrite <- ?app_assoc; reflexivity
                      | symmetry; apply app_nil_r ] | ];
              decided; repeat split; auto; discriminate).
    all: apply IH in Hrun; destruct Hrun as (new' & Hc & Hg & Hq & Hga & Hqa);
      cbn [calls] in Hc;
      eexists; (split; [rewrite Hc, <- ?app_assoc; reflexivity|]);
      try specialize (Hg eq_refl); try specialize (Hq eq_refl);
      decided; rewrite ?Hg, ?Hq, ?Hga, ?Hqa; cbn;
      repeat split; auto; discriminate.
Qed.

(** How the loop of the gate can end without success: [return False]
    takes an authentication failure; running out of attempts means that
    a service was probed at every attempt and never answered. *)
Lemma wait_for_services_loop_ends :
  forall attempts gluetun_ready qbittorrent_ready st out st',
  wait_for_services_loop clients config attempts
    gluetun_ready qbittorrent_ready st = (out, st') ->
  exists new,
    calls st' = (calls st ++ new)%list /\
    (out = Return (Returned false) -> existsb is_auth_failure new = true) /\
    (gluetun_ready && qbittorrent_ready = false ->
     out = Return (Next tt) ->
     (gluetun_ready = false /\
      count is_gluetun_probe new = List.length attempts /\
      existsb gluetun_answered new = false) \/
     (qbittorrent_ready = false /\
      count is_qbittorrent_probe new = List.length attempts /\
      existsb qbittorrent_answered new = false)).
Proof.
  induction attempts as [|attempt rest IH];
    intros gluetun_ready qbittorrent_ready st out st' Hrun.
  - cbn in Hrun. injection Hrun as <- <-.
    exists []. rewrite app_nil_r. cbn.
    split; [reflexivity|].
    split; [intros H; discriminate H|].
    intros Hready _.
    destruct gluetun_ready, qbittorrent_ready; auto; discriminate.
  - attempt_cases Hrun.
    all: try (injection Hrun as <- <-; cbn [calls];
              eexists; split;
              [ first [ rewrite <- ?app_assoc; reflexivity
                      | symmetry; apply app_nil_r ] | ];
              decided; repeat split; eauto; try discriminate; intros; lia).
    all: apply IH in Hrun; destruct Hrun as (new' & Hc & Hauth & Hex);
      cbn [calls] in Hc;
      eexists; (split; [rewrite Hc, <- ?app_assoc; reflexivity|]);
      specialize (Hex eq_refl);
      unfold count in *; decided.
    all: split; [exact Hauth|].
    all: intros _ Hout;
      destruct (Hex Hout) as [(Hr & Hn & Ha) | (Hr & Hn & Ha)];
      try discriminate Hr;
      first [ solve [left; repeat split; auto; rewrite Hn; reflexivity]
            | solve [right; repeat split; auto; rewrite Hn; reflexivity] ].
Qed.

(** The call that raised is the last one. *)
Ltac last_call :=
  first [ eexists [], _; split; [reflexivity|reflexivity]
        | eexists [_], _; split; [reflexivity|reflexivity]
        | eexists [_; _], _; split; [reflexivity|reflexivity] ].

(** The loop of the gate raises only what a probe or the sleep between
    two attempts raises. *)
Lemma wait_for_services_loop_raises :
  forall attempts gluetun_ready qbittorrent_ready st out st',
  wait_for_services_loop clients config attempts
    gluetun_ready qbittorrent_ready st = (out, st') ->
  exists new,
    calls st' = (calls st ++ new)%list /\
    forall e, out = Raise e ->
      (exists before c,
         new = (before ++ [c])%list /\ call_raised c = Some e) \/
      sleep_raises clients (startup_check_interval config) e.
Proof.
  induction attempts as [|attempt rest IH];
    intros gluetun_ready qbittorrent_ready st out st' Hrun.
  - cbn in Hrun. injection Hrun as <- <-.
    exists []. rewrite app_nil_r. split; [reflexivity|].
    intros e H. discriminate H.
  - attempt_cases Hrun.
    all: try (injection Hrun as <- <-; cbn [calls];
              eexists; split;
              [ first [ rewrite <- ?app_assoc; reflexivity
                      | symmetry; apply app_nil_r ] | ];
              intros raised He; first [discriminate He | injection He as <-];
              first [ left; last_call
                    | right; left; assumption
                    | right; right; eexists;
                      match goal with H : pysleep _ _ _ = _ |- _ => rewrite H end;
                      reflexivity ]; fail).
    all: apply IH in Hrun; destruct Hrun as (new' & Hc & Hraise);
      cbn [calls] in Hc;
      eexists; (split; [rewrite Hc, <- ?app_assoc; reflexivity|]);
      intros raised He;
      destruct (Hraise raised He) as [(before & c & -> & Hraised) | Hsleep];
      [left; cbn [app]; rewrite ?app_comm_cons;
       eexists _, c; split; [reflexivity|exact Hraised]
      |right; exact Hsleep].
Qed.

(** [wait_for_services] in terms of its loop. *)
Lemma wait_for_services_loop_of st :
  exists s0 r s',
    calls s0 = calls st /\
    health_state s0 = health_state st /\
    wait_for_services_loop clients config
      (py_range 1 (startup_max_attempts config + 1)) false false s0 = (r, s') /\
    calls (snd (wait_for_services clients config st)) = calls s' /\
    health_state (snd (wait_for_services clients config st)) = health_state s' /\
    fst (wait_for_services clients config st)
    = match r with
      | Return (Returned b) => Return b
      | Return (Next _) => Return false
      | Raise e => Raise e
      end.
Proof.
  destruct (wait_for_services clients config st) as [out st'] eqn:Hrun.
  unfold wait_for_services in Hrun.
  unfold bind at 1 in Hrun. unfold logger at 1 in Hrun.
  unfold bind at 1 in Hrun.
  match type of Hrun with
  | context [wait_for_services_loop ?c ?cfg ?l ?g ?q ?s] =>
    exists s; destruct (wait_for_services_loop c cfg l g q s) as [r s'] eqn:Hloop
  end.
  exists r, s'.
  destruct r as [[[]|b]|e]; cbn in Hrun; injection Hrun as <- <-;
    cbn; repeat split; reflexivity.
Qed.

(** The gate never writes to qBittorrent; when it returns [True] it has
    marked both services reachable, and in every other case it leaves
    the health state as it found it. *)
Theorem startup_gate_marks_health_only_on_success st :
  exists new,
    calls (snd (wait_for_services clients config st)) = (calls st ++ new)%list /\
    count is_write new = 0%nat /\
    (fst (wait_for_services clients config st) = Return true ->
     health_state (snd (wait_for_services clients config st))
     = mkHealthState true "" true true) /\
    (fst (wait_for_services clients config st) <> Return true ->
     health_state (snd (wait_for_services clients config st))
     = health_state st).
Proof.
  destruct (wait_for_services_loop_of st)
    as (s0 & r & s' & Hc0 & Hh0 & Hloop & -> & -> & ->).
  apply wait_for_services_loop_frame in Hloop.
  destruct Hloop as (new & Hcalls & Hwrite & Hhealth).
  rewrite Hc0 in Hcalls. rewrite Hh0 in Hhealth.
  exists new. split; [exact Hcalls|]. split; [exact Hwrite|].
  rewrite Hhealth.
  destruct r as [[[]|[|]]|e]; cbn; split; intros H;
    try reflexivity; congruence.
Qed.

Lemma answered_is_last_probe_split probe answered :
  forall before c after,
  answered_is_last_probe probe answered (before ++ c :: after) = true ->
  answered c = true ->
  existsb probe after = false.
Proof.
  induction before as [|b before IH]; intros c after Hlast Hc.
  - cbn in Hlast. rewrite Hc in Hlast.
    apply andb_prop in Hlast as [Hlast _].
    now apply negb_true_iff in Hlast.
  - cbn [app answered_is_last_probe] in Hlast.
    apply andb_prop in Hlast as [_ Hlast]. eauto.
Qed.

(** Once a service has answered a probe successfully, the gate does not
    probe it again. *)
Theorem startup_gate_never_reprobes st before c after :
  calls (snd (wait_for_services clients config st))
  = (calls st ++ before ++ c :: after)%list ->
  (gluetun_answered c = true -> existsb is_gluetun_probe after = false) /\
  (qbittorrent_answered c = true ->
   existsb is_qbittorrent_probe after = false).
Proof.
  intros Hsplit.
  destruct (wait_for_services_loop_of st)
    as (s0 & r & s' & Hc0 & _ & Hloop & Hcalls & _).
  apply wait_for_services_loop_probes in Hloop.
  destruct Hloop as (new & Hnew & _ & _ & Hg & Hq).
  rewrite Hcalls, Hnew, Hc0 in Hsplit.
  apply app_inv_head in Hsplit. subst new.
  split; intros Hc; eapply answered_is_last_probe_split; eauto.
Qed.

(** The gate returns a boolean unless a probe or the sleep between two
    attempts raises, and it then raises the same, the probe that raised
    being its last call; and it returns [False] only after an
    authentication failure or after a service was probed
    [startup_max_attempts] times without ever answering successfully. *)
Theorem startup_gate_gives_up_late st :
  exists new,
    calls (snd (wait_for_services clients config st)) = (calls st ++ new)%list /\
    (fst (wait_for_services clients config st) = Return false ->
     existsb is_auth_failure new = true \/
     (count is_gluetun_probe new = Z.to_nat (startup_max_attempts config) /\
      existsb gluetun_answered new = false) \/
     (count is_qbittorrent_probe new = Z.to_nat (startup_max_attempts config) /\
      existsb qbittorrent_answered new = false)) /\
    (forall e,
     fst (wait_for_services clients config st) = Raise e ->
     (exists before c,
        new = (before ++ [c])%list /\ call_raised c = Some e) \/
     sleep_raises clients (startup_check_interval config) e).
Proof.
  destruct (wait_for_services_loop_of st)
    as (s0 & r & s' & Hc0 & _ & Hloop & -> & _ & ->).
  destruct (wait_for_services_loop_ends _ _ _ _ _ _ Hloop)
    as (new & Hnew & Hauth & Hex).
  destruct (wait_for_services_loop_raises _ _ _ _ _ _ Hloop)
    as (new' & Hnew' & Hraise).
  rewrite Hnew in Hnew'. apply app_inv_head in Hnew'. subst new'.
  rewrite Hc0 in Hnew. specialize (Hex eq_refl).
  rewrite py_range_length in Hex.
  replace (startup_max_attempts config + 1 - 1)
    with (startup_max_attempts config) in Hex by lia.
  exists new. split; [exact Hnew|]. split.
  - destruct r as [[[]|b]|e]; intros Hout.
    + right.
      destruct (Hex eq_refl) as [(_ & Hn & Ha) | (_ & Hn & Ha)]; auto.
    + injection Hout as ->. left. auto.
    + discriminate Hout.
  - intros e Hout. apply Hraise.
    destruct r as [[[]|b]|e']; try discriminate Hout.
    injection Hout as ->. reflexivity.
Qed.

(** With no startup attempt configured the gate fails at once: it
    returns [False] without a probe or a sleep, and the health state
    stays as it was. *)
Theorem startup_gate_without_attempts st :
  startup_max_attempts config <= 0 ->
  fst (wait_for_services clients config st) = Return false /\
  calls (snd (wait_for_services clients config st)) = calls st /\
  health_state (snd (wait_for_services clients config st)) = health_state st.
Proof.
  intros Hnone. unfold wait_for_services, py_range.
  replace (Z.to_nat (startup_max_attempts config + 1 - 1)) with 0%nat by lia.
  cbn. auto.
Qed.

End StartupFrame.

Lemma startup_gate_marks_health_only_on_success_witness :
  health_state
    (snd (wait_for_services scripted default_config (fresh slow_gluetun_script)))
  = mkHealthState true "" true true /\
  health_state
    (snd (wait_for_services scripted default_config
            (fresh late_rejection_script)))
  = HealthState_init.
Proof.
  split.
  - destruct (startup_gate_marks_health_only_on_success scripted default_config
                (fresh slow_gluetun_script)) as (new & _ & _ & Hyes & _).
    apply Hyes. reflexivity.
  - destruct (startup_gate_marks_health_only_on_success scripted default_config
                (fresh late_rejection_script)) as (new & _ & _ & _ & Hno).
    apply Hno. discriminate.
Defined.

Lemma startup_gate_never_reprobes_witness :
  (gluetun_answered (GetListenPort (qbittorrent_ok 12345)) = true ->
   existsb is_gluetun_probe [Sleep 5; GetForwardedPort gluetun_no_port] = false)
  /\
  (qbittorrent_answered (GetListenPort (qbittorrent_ok 12345)) = true ->
   existsb is_qbittorrent_probe [Sleep 5; GetForwardedPort gluetun_no_port]
   = false).
Proof.
  apply (startup_gate_never_reprobes scripted default_config
           (fresh slow_gluetun_script)
           [GetForwardedPort gluetun_timeout]
           (GetListenPort (qbittorrent_ok 12345))
           [Sleep 5; GetForwardedPort gluetun_no_port]).
  reflexivity.
Defined.

Example gluetun_down_run :
  fst (wait_for_services scripted two_attempts_config (fresh gluetun_down_script))
  = Return false /\
  calls (snd (wait_for_services scripted two_attempts_config
                (fresh gluetun_down_script)))
  = [GetForwardedPort gluetun_timeout; GetListenPort (qbittorrent_ok 12345);
     Sleep 5;
     GetForwardedPort gluetun_timeout].
Proof. split; reflexivity. Qed.

Lemma startup_gate_gives_up_late_witness :
  exists new,
    calls (snd (wait_for_services scripted two_attempts_config
                  (fresh gluetun_down_script))) = ([] ++ new)%list /\
    (fst (wait_for_services scripted two_attempts_config
            (fresh gluetun_down_script)) = Return false ->
     existsb is_auth_failure new = true \/
     (count is_gluetun_probe new = 2%nat /\
      existsb gluetun_answered new = false) \/
     (count is_qbittorrent_probe new = 2%nat /\
      existsb qbittorrent_answered new = false)) /\
    (forall e,
     fst (wait_for_services scripted two_attempts_config
            (fresh gluetun_down_script)) = Raise e ->
     (exists before c,
        new = (before ++ [c])%list /\ call_raised c = Some e) \/
     sleep_raises scripted 5 e).
Proof.
  exact (startup_gate_gives_up_late scripted two_attempts_config
           (fresh gluetun_down_script)).
Defined.

Lemma startup_gate_without_attempts_witness :
  fst (wait_for_services scripted no_startup_config (fresh steady_script))
  = Return false /\
  calls (snd (wait_for_services scripted no_startup_config (fresh steady_script)))
  = [] /\
  health_state
    (snd (wait_for_services scripted no_startup_config (fresh steady_script)))
  = HealthState_init.
Proof.
  apply (startup_gate_without_attempts scripted no_startup_config
           (fresh steady_script)).
  cbn. lia.
Defined.

(* ===================================================================== *)
(** ** The health probe *)

(** The handler serves the exact path "/health" only: there it answers
    200 with the body [{"status": "healthy"}] when the state is healthy
    and 503 with the reason in the body when it is not; on every other
    path it answers 404 and writes no body. *)
Theorem do_GET_answers (path : string) (state : HealthState) :
  (path = "/health" ->
   _healthy state = true ->
   status_code_sent (do_GET path state) = Some 200 /\
   body_written (do_GET path state) = Some [("status", "healthy")]) /\
  (path = "/health" ->
   _healthy state = false ->
   status_code_sent (do_GET path state) = Some 503 /\
   body_written (do_GET path state)
   = Some [("status", "unhealthy"); ("reason", _reason state)]) /\
  (path <> "/health" ->
   status_code_sent (do_GET path state) = Some 404 /\
   body_written (do_GET path state) = None).
Proof.
  unfold do_GET, get_status.
  split; [|split].
  - intros -> Hh. rewrite Hh. split; reflexivity.
  - intros -> Hh. rewrite Hh. split; reflexivity.
  - intros Hpath. apply String.eqb_neq in Hpath. rewrite Hpath.
    split; reflexivity.
Qed.

Lemma do_GET_answers_witness :
  status_code_sent (do_GET "/health" (set_service_status false true HealthState_init))
  = Some 503 /\
  body_written (do_GET "/health" (set_service_status false true HealthState_init))
  = Some [("status", "unhealthy"); ("reason", "Gluetun unreachable")] /\
  status_code_sent (do_GET "/health/" HealthState_init) = Some 404.
Proof.
  destruct (do_GET_answers "/health"
              (set_service_status false true HealthState_init))
    as (_ & Hdown & _).
  destruct (do_GET_answers "/health/" HealthState_init) as (_ & _ & Hother).
  destruct (Hdown eq_refl eq_refl) as [H503 Hbody].
  destruct Hother as [H404 _]; [discriminate|].
  split; [exact H503|]. split; [exact Hbody|exact H404].
Defined.

Section Probe.

Context {World : Type}.
Variable clients : Clients World.
Variable config : Config.

Local Arguments str_int : simpl never.
Local Arguments String.append : simpl never.
Local Arguments py_range : simpl never.

Ltac branch Hrun :=
  cbn in Hrun;
  match type of Hrun with
  | context [get_forwarded_port ?c ?w] =>
    destruct (get_forwarded_port c w) as [[?|?] ?] eqn:?
  | context [get_listen_port ?c ?w] =>
    destruct (get_listen_port c w) as [[?|?] ?] eqn:?
  | context [set_listen_port ?c ?p ?w] =>
    destruct (set_listen_port c p w) as [[?|?] ?] eqn:?
  | context [if negb ?b then _ else _] => destruct b eqn:?
  | context [if ?b then _ else _] => destruct b eqn:?
  | context [match Gluetun.port ?g with _ => _ end] =>
    destruct (Gluetun.port g) eqn:?
  end.

Ltac decided :=
  repeat match goal with
         | H : Gluetun.is_auth_error _ = _ |- _ => rewrite H
         | H : Gluetun.success _ = _ |- _ => rewrite H
         | H : Gluetun.port _ = _ |- _ => rewrite H
         | H : QBittorrent.is_auth_error _ = _ |- _ => rewrite H
         | H : QBittorrent.success _ = _ |- _ => rewrite H
         end.

(** What the probe reports after a cycle is decided by the outcome of
    the call on Gluetun and of the first call on qBittorrent: when one
    of the two raises, it is what it was before the cycle, and else it
    is a function of the two answers alone.  Nothing that comes after
    the first read has a part in it: not the outcome of the write, not
    a verification read, not an exception. *)
Theorem status_after_cycle st :
  exists new,
    calls (snd (sync_port clients config st)) = (calls st ++ new)%list /\
    status_after (get_status (health_state st)) new
    = Some (get_status (health_state (snd (sync_port clients config st)))).
Proof.
  destruct (sync_port clients config st) as [out st'] eqn:Hrun.
  cbn [snd].
  unfold sync_port, bind, logger, ret, update_health,
    gluetun_get_forwarded_port, qbittorrent_get_listen_port,
    qbittorrent_set_listen_port in Hrun.
  repeat branch Hrun.
  all: cbn in Hrun.
  all: try (injection Hrun as <- <-; cbn [calls health_state];
            eexists; split; [rewrite <- ?app_assoc; reflexivity|];
            cbn; decided; reflexivity).
  all: match type of Hrun with
       | context [verify_loop ?c ?cfg ?t ?l ?v ?s] =>
         destruct (verify_loop c cfg t l v s) as [vout s'] eqn:Hloop;
         apply verify_loop_runs in Hloop;
         destruct Hloop as (new & Hcalls & Hhealth & _);
         cbn [calls health_state] in Hcalls, Hhealth;
         assert (Hst : calls st' = calls s' /\
                       health_state st' = health_state s')
           by (destruct vout as [[[[]|b] [r|]]|e];
               cbn in Hrun; injection Hrun as <- <-; split; reflexivity);
         destruct Hst as [-> ->]; rewrite Hcalls, Hhealth
       end.
  all: eexists; (split; [rewrite <- !app_assoc; reflexivity|]).
  all: cbn; decided; reflexivity.
Qed.

End Probe.

(* ===================================================================== *)
(** ** The health state under sequences of writes *)

Lemma get_status_of_last_write h h' c :
  get_status (apply_call h c) = get_status (apply_call h' c).
Proof. destruct c as [b r | g q]; reflexivity. Qed.

Lemma flags_follow_service_status cs : forall h,
  (_gluetun_ok (apply_calls cs h), _qbittorrent_ok (apply_calls cs h))
  = last_service_status cs (_gluetun_ok h, _qbittorrent_ok h).
Proof.
  unfold apply_calls, last_service_status.
  induction cs as [|c cs IH]; intros h; [reflexivity|].
  cbn [fold_left]. rewrite IH.
  destruct c as [b r | g q]; [reflexivity|].
  cbn [apply_call]. now destruct (set_service_status_flags g q h) as [-> ->].
Qed.

(** After any sequence of writes, what [get_status] returns is decided
    by the last write alone, whatever came before it; the two
    reachability flags are the arguments of the last
    [set_service_status], whatever [set_healthy] calls came after it. *)
Theorem status_is_last_write (cs : list HealthCall) (c : HealthCall)
  (h h' : HealthState) :
  get_status (apply_calls (cs ++ [c]) h) = get_status (apply_call h' c) /\
  (_gluetun_ok (apply_calls cs h), _qbittorrent_ok (apply_calls cs h))
  = last_service_status cs (_gluetun_ok h, _qbittorrent_ok h).
Proof.
  split; [|apply flags_follow_service_status].
  unfold apply_calls. rewrite fold_left_app. cbn [fold_left].
  apply get_status_of_last_write.
Qed.

(* ===================================================================== *)
(** ** The configuration *)

Section Validation.

Variable urlparse : string -> option (string * string).

(** [validate] finds no error exactly when both URLs are non-empty and
    valid and the log level is one of DEBUG, INFO, WARN, WARNING and
    ERROR; and it reads nothing but the two URLs and the log level: the
    credentials, the seven timing settings and the health settings can
    take any value without changing its result. *)
Theorem validate_reads_urls_and_level (self other : AppConfig) :
  (validate urlparse self = []
   <-> (str_truthy (gluetun_url self) = true /\
        _is_valid_url urlparse (gluetun_url self) = true /\
        str_truthy (qbittorrent_url self) = true /\
        _is_valid_url urlparse (qbittorrent_url self) = true /\
        str_in (log_level self) ["DEBUG"; "INFO"; "WARN"; "WARNING"; "ERROR"]
        = true)) /\
  validate urlparse (with_settings self other) = validate urlparse self.
Proof.
  split; [|reflexivity].
  unfold validate.
  destruct (str_truthy (gluetun_url self));
    [destruct (_is_valid_url urlparse (gluetun_url self))|];
    (destruct (str_truthy (qbittorrent_url self));
     [destruct (_is_valid_url urlparse (qbittorrent_url self))|]);
    destruct (str_in (log_level self) _); cbn;
    split; try discriminate; try tauto; intuition discriminate.
Qed.

End Validation.

(** [log_config] logs no password and no API key: with other passwords,
    and another API key in place of one that is set, it logs the same
    records. *)
Theorem log_config_hides_secrets (self : AppConfig)
  (api_key gluetun_pw qbittorrent_pw : option string) :
  opt_truthy api_key = opt_truthy (gluetun_api_key self) ->
  log_config (with_secrets self api_key gluetun_pw qbittorrent_pw)
  = log_config self.
Proof.
  intros Hkey. unfold log_config, with_secrets. cbn. now rewrite Hkey.
Qed.

Lemma log_config_hides_secrets_witness :
  log_config
    (with_secrets (local_config (Some "key-1") (Some "admin") (Some "pw-1"))
       (Some "key-2") (Some "pw-2") None)
  = log_config (local_config (Some "key-1") (Some "admin") (Some "pw-1")).
Proof.
  apply (log_config_hides_secrets
           (local_config (Some "key-1") (Some "admin") (Some "pw-1"))
           (Some "key-2") (Some "pw-2") None).
  reflexivity.
Defined.

Example local_config_log :
  log_config (local_config None (Some "admin") (Some "pw-1"))
  = [(INFO, "Gluetun URL: http://localhost:8000");
     (INFO, "qBittorrent URL: http://localhost:8080");
     (INFO, "Gluetun auth: Basic auth (user: admin)");
     (INFO, "qBittorrent auth: Enabled (user: admin)");
     (INFO, "Poll interval: 30s");
     (INFO, "Startup check delay: 5s");
     (INFO, "Startup check interval: 5s");
     (INFO, "Startup max attempts: 60");
     (INFO, "Request timeout: 10s");
     (INFO, "Health endpoint: enabled");
     (INFO, "Health port: 8081")].
Proof. reflexivity. Qed.

(* ===================================================================== *)
(** ** The Gluetun client *)

Section GluetunClient.

Context {Server : Type}.
Variable http : Request -> Server -> HttpOutcome * Server.
Variable lib : PyLib.
Variable config : AppConfig.

Local Arguments str_int : simpl never.
Local Arguments String.append : simpl never.
Local Arguments Z.eqb : simpl never.
Local Arguments Z.geb : simpl never.

(** Turn the tests on status codes into equations and inequalities. *)
Ltac codes :=
  repeat match goal with
         | H : (_ =? _) = true |- _ => apply Z.eqb_eq in H
         | H : (_ =? _) = false |- _ => apply Z.eqb_neq in H
         | H : (_ >=? _) = true |- _ => apply Z.geb_le in H
         | H : (_ >=? _) = false |- _ =>
           rewrite Z.geb_leb in H; apply Z.leb_gt in H
         end.

(** Use up what is assumed about the response. *)
Ltac answered :=
  repeat match goal with
         | H : answered_with _ _ |- _ =>
           let Heq := fresh "Heq" in
           destruct H as (? & Heq & ?);
           try discriminate Heq; try (injection Heq as <-)
         | H : _ \/ _ |- _ => destruct H
         end.

(** Say which status code the response has. *)
Ltac status :=
  solve [ eexists; split; [reflexivity|lia]
        | left; eexists; split; [reflexivity|lia]
        | right; eexists; split; [reflexivity|lia] ].

(** Take the next branching point of a client run apart. *)
Ltac branch Hrun :=
  cbn in Hrun;
  match type of Hrun with
  | context [match ?o with Responded _ => _ | _ => _ end] =>
    is_var o; destruct o
  | context [if ?b then _ else _] => destruct b eqn:?
  | context [match json ?r with _ => _ end] => destruct (json r) eqn:?
  | context [match py_get ?d ?k with _ => _ end] =>
    destruct (py_get d k) eqn:?
  | context [match py_int ?l ?v with _ => _ end] =>
    destruct (py_int l v) eqn:?
  end.

Ltac run_gluetun Hhttp Hrun :=
  unfold GluetunClient_get_forwarded_port, then_, debug, send, unit_, escape
    in Hrun;
  unfold forwarded_port_request in Hhttp;
  cbn [server] in Hrun; rewrite Hhttp in Hrun;
  repeat branch Hrun; cbn in Hrun.

(** The result follows the status code of the response: it is an
    authentication failure exactly for 401 and 403, a success only for
    404 and 200, and carries a port only for 200; 404 is a success
    without a port; and a failure never carries a port and always
    carries an explanation. *)
Theorem gluetun_result_follows_status s o w r :
  http (forwarded_port_request config) (server s) = (o, w) ->
  fst (GluetunClient_get_forwarded_port http lib config s) = inl r ->
  (Gluetun.is_auth_error r = true
   <-> answered_with 401 o \/ answered_with 403 o) /\
  (Gluetun.is_auth_error r = true -> Gluetun.success r = false) /\
  (Gluetun.success r = false ->
   Gluetun.port r = None /\ Gluetun.error r <> None) /\
  (Gluetun.success r = true -> answered_with 404 o \/ answered_with 200 o) /\
  (forall p, Gluetun.port r = Some p -> answered_with 200 o) /\
  (answered_with 404 o ->
   Gluetun.success r = true /\ Gluetun.port r = None).
Proof.
  intros Hhttp Hrun.
  destruct (GluetunClient_get_forwarded_port http lib config s)
    as [out s'] eqn:Hcall.
  cbn [fst] in Hrun. subst out.
  run_gluetun Hhttp Hcall.
  all: try discriminate Hcall.
  all: inversion Hcall; subst; clear Hcall; codes.
  all: repeat split; cbn; intros; answered;
    try discriminate; try lia; try status.
Qed.


(** Each call makes exactly one request, whatever comes back: a GET of
    [/v1/portforward] under the configured URL.  It carries the API key
    when there is one, and then no credentials; without an API key it
    carries the user name and the password when both are set, and no
    credentials otherwise. *)
Theorem gluetun_sends_one_request s :
  sent (snd (GluetunClient_get_forwarded_port http lib config s))
  = (sent s ++ [forwarded_port_request config])%list /\
  method (forwarded_port_request config) = "GET" /\
  url (forwarded_port_request config) = gluetun_url config ++ "/v1/portforward" /\
  (opt_truthy (gluetun_api_key config) = true ->
   headers (forwarded_port_request config)
   = [("X-API-Key", str_opt_str (gluetun_api_key config))] /\
   auth (forwarded_port_request config) = None) /\
  (opt_truthy (gluetun_api_key config) = false ->
   headers (forwarded_port_request config) = [] /\
   (auth (forwarded_port_request config) <> None
    <-> opt_truthy (gluetun_username config) = true /\
        opt_truthy (gluetun_password config) = true)).
Proof.
  split; [|split; [reflexivity|split; [reflexivity|]]].
  - destruct (GluetunClient_get_forwarded_port http lib config s)
      as [out s'] eqn:Hcall.
    destruct (http (forwarded_port_request config) (server s))
      as [o w] eqn:Hhttp.
    run_gluetun Hhttp Hcall.
    all: injection Hcall as <- <-; reflexivity.
  - unfold forwarded_port_request, _setup_auth. cbn [headers auth].
    split; intros Hkey; rewrite Hkey; cbn; [auto|].
    destruct (opt_truthy (gluetun_username config)),
      (opt_truthy (gluetun_password config)); cbn;
      (split; [reflexivity|]);
      split; try discriminate; try tauto; intuition discriminate.
Qed.

(** The port is tested for zero before it is made an [int], and for
    nothing after: a non-zero integer is reported as it is, whatever its
    sign and size, and a non-zero fraction below one is reported as
    port 0. *)
Theorem gluetun_port_is_not_range_checked s response items w :
  http (forwarded_port_request config) (server s) = (Responded response, w) ->
  status_code response = 200 ->
  json response = inr (PyDict items) ->
  (forall i,
   dict_get items "port" = PyInt i -> i <> 0 ->
   fst (GluetunClient_get_forwarded_port http lib config s)
   = inl (Gluetun.mkResult true (Some i) None false)) /\
  (forall sign m e,
   dict_get items "port" = PyFloat (S754_finite sign m e) ->
   Z.shiftl (Z.pos m) e = 0 ->
   fst (GluetunClient_get_forwarded_port http lib config s)
   = inl (Gluetun.mkResult true (Some 0) None false)).
Proof.
  intros Hhttp Hcode Hjson.
  unfold GluetunClient_get_forwarded_port, then_, debug, send, unit_, escape.
  unfold forwarded_port_request in Hhttp.
  cbn [server]. rewrite Hhttp. cbn. rewrite Hcode, Hjson. cbn.
  split.
  - intros i -> Hi. cbn. apply Z.eqb_neq in Hi. now rewrite Hi.
  - intros sign m e -> Hzero. cbn. rewrite Hzero. now destruct sign.
Qed.

End GluetunClient.

(** [log_config] announces basic authentication as soon as a user name
    is set, while [_setup_auth] configures it only with a password as
    well: with a user name and no password (and no API key) the log
    says "Basic auth" and the request carries no credentials. *)
Theorem gluetun_basic_auth_needs_password (config : AppConfig) :
  opt_truthy (gluetun_api_key config) = false ->
  opt_truthy (gluetun_username config) = true ->
  opt_truthy (gluetun_password config) = false ->
  In (INFO, "Gluetun auth: Basic auth (user: "
            ++ str_opt_str (gluetun_username config) ++ ")")
     (log_config config) /\
  auth (forwarded_port_request config) = None /\
  headers (forwarded_port_request config) = [].
Proof.
  intros Hkey Huser Hpw.
  unfold log_config, forwarded_port_request, _setup_auth.
  rewrite Hkey, Huser, Hpw. cbn. auto.
Qed.

(** *** Runs of the Gluetun client on scripted responses *)

Example gluetun_port_run :
  GluetunClient_get_forwarded_port scripted_server plain_lib
    (local_config (Some "key-1") None None)
    (new_session [json_response 200 (PyDict [("port", PyInt 54321)])])
  = (inl (gluetun_ok 54321),
     {| server := [];
        sent := [{| method := "GET";
                    url := "http://localhost:8000/v1/portforward";
                    headers := [("X-API-Key", "key-1")];
                    auth := None;
                    data := [];
                    timeout := 10;
                    verify := None |}];
        client_log := [(DEBUG, "GET http://localhost:8000/v1/portforward");
                       (DEBUG, "Response: 200 ")];
        _authenticated := false |}).
Proof. reflexivity. Qed.

Lemma gluetun_result_follows_status_witness :
  Gluetun.is_auth_error gluetun_auth_failed = true
  <-> answered_with 401 (text_response 401 "Unauthorized") \/
      answered_with 403 (text_response 401 "Unauthorized").
Proof.
  apply (gluetun_result_follows_status scripted_server plain_lib
           (local_config None None None)
           (new_session [text_response 401 "Unauthorized"])
           (text_response 401 "Unauthorized") [] gluetun_auth_failed);
    reflexivity.
Defined.


Lemma gluetun_port_is_not_range_checked_witness :
  fst (GluetunClient_get_forwarded_port scripted_server plain_lib
         (local_config None None None)
         (new_session [json_response 200 (PyDict [("port", PyInt (-1))])]))
  = inl (Gluetun.mkResult true (Some (-1)) None false) /\
  fst (GluetunClient_get_forwarded_port scripted_server plain_lib
         (local_config None None None)
         (new_session
            [json_response 200
               (PyDict [("port", PyFloat (S754_finite false 1 (-1)))])]))
  = inl (Gluetun.mkResult true (Some 0) None false).
Proof.
  split.
  - apply (proj1 (gluetun_port_is_not_range_checked scripted_server plain_lib
                    (local_config None None None)
                    (new_session
                       [json_response 200 (PyDict [("port", PyInt (-1))])])
                    _ _ [] eq_refl eq_refl eq_refl));
      [reflexivity|discriminate].
  - apply (proj2 (gluetun_port_is_not_range_checked scripted_server plain_lib
                    (local_config None None None)
                    (new_session
                       [json_response 200
                          (PyDict [("port",
                                    PyFloat (S754_finite false 1 (-1)))])])
                    _ _ [] eq_refl eq_refl eq_refl) false 1%positive (-1));
      reflexivity.
Defined.

Lemma gluetun_basic_auth_needs_password_witness :
  In (INFO, "Gluetun auth: Basic auth (user: admin)")
     (log_config (local_config None (Some "admin") None)) /\
  auth (forwarded_port_request (local_config None (Some "admin") None)) = None /\
  headers (forwarded_port_request (local_config None (Some "admin") None)) = [].
Proof.
  apply (gluetun_basic_auth_needs_password
           (local_config None (Some "admin") None));
    reflexivity.
Defined.

Lemma gluetun_sends_one_request_witness :
  headers (forwarded_port_request (local_config (Some "key-1") (Some "admin")
                                     (Some "pw-1")))
  = [("X-API-Key", "key-1")] /\
  auth (forwarded_port_request (local_config (Some "key-1") (Some "admin")
                                  (Some "pw-1")))
  = None.
Proof.
  apply (gluetun_sends_one_request scripted_server plain_lib
           (local_config (Some "key-1") (Some "admin") (Some "pw-1"))
           (new_session [])).
  reflexivity.
Defined.

(* ===================================================================== *)
(** ** The qBittorrent client *)

Section QBittorrentClient.

Context {Server : Type}.
Variable http : Request -> Server -> HttpOutcome * Server.
Variable lib : PyLib.
Variable config : AppConfig.

Local Arguments str_int : simpl never.
Local Arguments String.append : simpl never.
Local Arguments String.eqb : simpl never.
Local Arguments Z.eqb : simpl never.

Ltac branch Hrun :=
  cbn in Hrun;
  match type of Hrun with
  | context [http ?r ?w] => destruct (http r w) as [? ?] eqn:?
  | context [match ?o with Responded _ => _ | _ => _ end] =>
    is_var o; destruct o
  | context [if negb ?b then _ else _] => destruct b eqn:?
  | context [if ?b then _ else _] => destruct b eqn:?
  | context [match json ?r with _ => _ end] => destruct (json r) eqn:?
  | context [match py_get ?d ?k with _ => _ end] =>
    destruct (py_get d k) eqn:?
  | context [match py_int ?l ?v with _ => _ end] =>
    destruct (py_int l v) eqn:?
  end.

(** Split the conjunctions of the goal, and nothing else. *)
Ltac conjs := repeat match goal with |- _ /\ _ => split end.

(** [_login] raises only what its request raises.  It succeeds without
    a request when no user name is configured or the session is marked
    authenticated, and else sends the login request once; a success
    leaves the session marked authenticated. *)
Lemma login_runs s :
  exists out s' l,
    _login http lib config s = (out, s') /\
    sent s' = (sent s ++ l)%list /\
    at_most_once (login_request config) l /\
    (opt_truthy (qbittorrent_username config) = false -> l = []) /\
    (_authenticated s = true -> l = []) /\
    match out with
    | inl r =>
      (r = qbittorrent_done /\ _authenticated s' = true) \/
      (is_failure r /\ l = [login_request config])
    | inr e => request_raises http (login_request config) e
    end.
Proof.
  destruct (_login http lib config s) as [out s'] eqn:Hrun.
  unfold _login, then_, debug, send, unit_, escape, set_authenticated,
    get_authenticated in Hrun.
  unfold at_most_once, is_failure, login_request, request_raises.
  repeat branch Hrun; cbn in Hrun.
  all: injection Hrun as <- <-; cbn.
  all: do 2 eexists.
  all: first
         [ exists []; rewrite app_nil_r;
           repeat split; auto; discriminate
         | eexists; (split; [reflexivity|]);
           repeat split; auto; try discriminate;
           first [ right; repeat split; auto; discriminate
                 | eexists;
                   match goal with
                   | H : http _ _ = _ |- _ => rewrite H
                   end; reflexivity ] ].
Qed.

(** [_request] without a retry raises only what a request raises.  It
    sends the API request at most once, after at most one login; a
    response comes with the session marked authenticated, and an error
    result is a failure. *)
Lemma request_once_runs method endpoint data s :
  exists out s' l a,
    _request_body http lib config None method endpoint data s = (out, s') /\
    sent s' = (sent s ++ l ++ a)%list /\
    at_most_once (login_request config) l /\
    at_most_once (api_request config method endpoint data) a /\
    (opt_truthy (qbittorrent_username config) = false -> l = []) /\
    (_authenticated s = true -> l = []) /\
    match out with
    | inl (inl response) =>
      _authenticated s' = true /\
      a = [api_request config method endpoint data]
    | inl (inr error) =>
      is_failure error /\
      (QBittorrent.is_auth_error error = true ->
       l = [login_request config] /\ a = [])
    | inr e =>
      request_raises http (login_request config) e \/
      request_raises http (api_request config method endpoint data) e
    end.
Proof.
  unfold _request_body. unfold then_ at 1.
  destruct (login_runs s)
    as (r & s1 & l & -> & Hsent & Hl & Huser & Hauth & Hr).
  destruct r as [r|e].
  2:{ exists (inr e), s1, l, []. rewrite app_nil_r.
      repeat split; auto. now left. }
  destruct Hr as [[-> Hauth1] | [Hfail ->]].
  - cbn [QBittorrent.success qbittorrent_done negb].
    unfold then_, debug, send, unit_, escape. cbn [server sent].
    destruct (http _ (server s1)) as [o w] eqn:Hhttp.
    fold (api_request config method endpoint data) in *.
    destruct o as [response| |e|e|e]; cbn.
    all: do 2 eexists; exists l, [api_request config method endpoint data].
    all: rewrite Hsent, <- app_assoc.
    all: repeat split; auto; try (right; reflexivity); try discriminate.
    right. exists (server s1). now rewrite Hhttp.
  - destruct Hfail as (Hs & Hp & He). rewrite Hs. cbn.
    do 2 eexists. exists [login_request config], [].
    rewrite Hsent. repeat split; auto; left; reflexivity.
Qed.

(** [_request] raises only what a request raises.  It sends the API
    request at most twice, each time after at most one login; a
    response comes with the session marked authenticated, and an error
    result is a failure, which is an authentication failure only when
    the last request was a login. *)
Lemma request_runs method endpoint data s :
  exists out s' l1 a1 l2 a2,
    _request http lib config method endpoint true data s = (out, s') /\
    sent s' = (sent s ++ l1 ++ a1 ++ l2 ++ a2)%list /\
    at_most_once (login_request config) l1 /\
    at_most_once (api_request config method endpoint data) a1 /\
    at_most_once (login_request config) l2 /\
    at_most_once (api_request config method endpoint data) a2 /\
    (opt_truthy (qbittorrent_username config) = false ->
     l1 = [] /\ l2 = []) /\
    (_authenticated s = true -> l1 = []) /\
    match out with
    | inl (inl response) => _authenticated s' = true
    | inl (inr error) =>
      is_failure error /\
      (QBittorrent.is_auth_error error = true ->
       a2 = [] /\
       (l2 = [login_request config] \/ l1 = [login_request config] /\ a1 = []))
    | inr e =>
      request_raises http (login_request config) e \/
      request_raises http (api_request config method endpoint data) e
    end.
Proof.
  unfold _request.
  set (retry := _request_body http lib config None method endpoint data).
  unfold _request_body. unfold then_ at 1.
  destruct (login_runs s)
    as (r & s1 & l & -> & Hsent & Hl & Huser & Hauth & Hr).
  destruct r as [r|e].
  2:{ exists (inr e), s1, l, [], [], []. rewrite !app_nil_r.
      repeat split; auto; try (left; reflexivity); try (now left). }
  destruct Hr as [[-> Hauth1] | [Hfail ->]].
  - cbn [QBittorrent.success qbittorrent_done negb].
    unfold then_, debug, send, unit_, escape, set_authenticated.
    cbn [server sent].
    destruct (http _ (server s1)) as [o w] eqn:Hhttp.
    fold (api_request config method endpoint data) in *.
    destruct o as [response| |e|e|e]; cbn;
      [destruct (status_code response =? 403) eqn:H403; cbn|..].
    + (* 403: the session is marked unauthenticated and the call retried *)
      match goal with
      | |- context [retry ?s2] =>
        destruct (request_once_runs method endpoint data s2)
          as (x & s' & l2 & a2 & Hrun & Hsent2 & Hl2 & Ha2 & Huser2 & _ & Hx)
      end.
      fold retry in Hrun. rewrite Hrun. cbn [sent] in Hsent2.
      exists x, s', l, [api_request config method endpoint data], l2, a2.
      rewrite Hsent2, Hsent, <- !app_assoc.
      repeat split; auto; try (right; reflexivity).
      destruct x as [[response'|error]|e]; [tauto| |exact Hx].
      destruct Hx as [Hfail Hx]. split; [exact Hfail|].
      intros Herr. destruct (Hx Herr) as [-> ->]. auto.
    + do 2 eexists.
      exists l, [api_request config method endpoint data], [], [].
      rewrite Hsent, <- !app_assoc.
      repeat split; auto; try (right; reflexivity); try (left; reflexivity).
    + do 2 eexists.
      exists l, [api_request config method endpoint data], [], [].
      rewrite Hsent, <- !app_assoc.
      repeat split; auto; try (right; reflexivity); try (left; reflexivity);
        discriminate.
    + do 2 eexists.
      exists l, [api_request config method endpoint data], [], [].
      rewrite Hsent, <- !app_assoc.
      repeat split; auto; try (right; reflexivity); try (left; reflexivity);
        discriminate.
    + do 2 eexists.
      exists l, [api_request config method endpoint data], [], [].
      rewrite Hsent, <- !app_assoc.
      repeat split; auto; try (right; reflexivity); try (left; reflexivity);
        discriminate.
    + do 2 eexists.
      exists l, [api_request config method endpoint data], [], [].
      rewrite Hsent, <- !app_assoc.
      repeat split; auto; try (right; reflexivity); try (left; reflexivity).
      right. exists (server s1). now rewrite Hhttp.
  - destruct Hfail as (Hs & Hp & He). rewrite Hs. cbn.
    do 2 eexists. exists [login_request config], [], [], [].
    rewrite Hsent. cbn. repeat split; auto; try (left; reflexivity).
Qed.

(** [get_listen_port], in full. *)
Lemma get_listen_port_runs s :
  exists out s' l1 a1 l2 a2,
    QBittorrentClient_get_listen_port http lib config s = (out, s') /\
    sent s' = (sent s ++ l1 ++ a1 ++ l2 ++ a2)%list /\
    at_most_once (login_request config) l1 /\
    at_most_once (preferences_request config) a1 /\
    at_most_once (login_request config) l2 /\
    at_most_once (preferences_request config) a2 /\
    (opt_truthy (qbittorrent_username config) = false ->
     l1 = [] /\ l2 = []) /\
    (_authenticated s = true -> l1 = []) /\
    match out with
    | inl r =>
      (QBittorrent.success r = true ->
       (exists i, r = QBittorrent.mkResult true (Some i) None false) /\
       _authenticated s' = true) /\
      (QBittorrent.success r = false -> is_failure r) /\
      (QBittorrent.is_auth_error r = true ->
       a2 = [] /\
       (l2 = [login_request config] \/ l1 = [login_request config] /\ a1 = []))
    | inr e => True
    end.
Proof.
  unfold QBittorrentClient_get_listen_port, preferences_request.
  unfold then_ at 1.
  destruct (request_runs "GET" "/api/v2/app/preferences" [] s)
    as (x & s1 & l1 & a1 & l2 & a2 & -> & Hsent & H1 & H2 & H3 & H4
        & Huser & Hauth & Hx).
  destruct x as [[response|error]|e].
  - destruct (status_code response =? 200) eqn:H200; cbn [negb].
    + destruct (json response) as [message|data]; cbn.
      * exists (inl (qbittorrent_failure ("Invalid response format: " ++ message))),
          s1, l1, a1, l2, a2.
        unfold is_failure. cbn. conjs; auto; easy.
      * destruct (py_get data "listen_port") as [port|e]; cbn.
        -- destruct (py_is_none port); cbn.
           ++ exists (inl (qbittorrent_failure "listen_port not in response")),
                s1, l1, a1, l2, a2.
              unfold is_failure. cbn. conjs; auto; easy.
           ++ unfold then_, debug. cbn.
              destruct (py_int lib port) as [i|message|e]; cbn;
                do 2 eexists; exists l1, a1, l2, a2;
                (split; [reflexivity|]); unfold is_failure; cbn;
                conjs; eauto; easy.
        -- exists (inr e), s1, l1, a1, l2, a2. cbn. conjs; auto.
    + exists (inl (qbittorrent_failure
                     ("Failed to get preferences: "
                      ++ str_int (status_code response)))),
        s1, l1, a1, l2, a2.
      unfold is_failure. cbn. conjs; auto; easy.
  - exists (inl error), s1, l1, a1, l2, a2. cbn.
    destruct Hx as [Hfail Herr].
    conjs; auto; try (intros Hs; destruct Hfail as [Hf _]; congruence).
  - exists (inr e), s1, l1, a1, l2, a2. cbn. conjs; auto.
Qed.

(** [set_listen_port], in full. *)
Lemma set_listen_port_runs port s :
  exists out s' l1 a1 l2 a2,
    QBittorrentClient_set_listen_port http lib config port s = (out, s') /\
    sent s' = (sent s ++ l1 ++ a1 ++ l2 ++ a2)%list /\
    at_most_once (login_request config) l1 /\
    at_most_once (set_preferences_request lib config port) a1 /\
    at_most_once (login_request config) l2 /\
    at_most_once (set_preferences_request lib config port) a2 /\
    (opt_truthy (qbittorrent_username config) = false ->
     l1 = [] /\ l2 = []) /\
    (_authenticated s = true -> l1 = []) /\
    match out with
    | inl r =>
      (QBittorrent.success r = true ->
       r = QBittorrent.mkResult true (Some port) None false /\
       _authenticated s' = true) /\
      (QBittorrent.success r = false -> is_failure r) /\
      (QBittorrent.is_auth_error r = true ->
       a2 = [] /\
       (l2 = [login_request config] \/ l1 = [login_request config] /\ a1 = []))
    | inr e =>
      request_raises http (login_request config) e \/
      request_raises http (set_preferences_request lib config port) e
    end.
Proof.
  unfold QBittorrentClient_set_listen_port, set_preferences_request.
  unfold then_ at 1. unfold debug at 1. unfold then_ at 1.
  match goal with
  | |- context [_request http lib config ?m ?e true ?d ?s0] =>
    destruct (request_runs m e d s0)
      as (x & s1 & l1 & a1 & l2 & a2 & -> & Hsent & H1 & H2 & H3 & H4
          & Huser & Hauth & Hx)
  end.
  cbn [sent _authenticated] in Hsent, Hauth.
  destruct x as [[response|error]|e].
  - destruct (status_code response =? 200) eqn:H200; cbn [negb];
      do 2 eexists; exists l1, a1, l2, a2;
      (split; [reflexivity|]); unfold is_failure; cbn;
      conjs; auto; easy.
  - exists (inl error), s1, l1, a1, l2, a2. cbn.
    destruct Hx as [Hfail Herr].
    conjs; auto; try (intros Hs; destruct Hfail as [Hf _]; congruence).
  - exists (inr e), s1, l1, a1, l2, a2. cbn. conjs; auto.
Qed.

(** A call of [get_listen_port] or of [set_listen_port] sends at most
    four requests: its own request at most twice, each time after at
    most one login.  It sends no login when no user name is configured,
    and starts with none when the session is marked authenticated. *)
Theorem qbittorrent_requests_are_bounded port s :
  (exists l1 a1 l2 a2,
     sent (snd (QBittorrentClient_get_listen_port http lib config s))
     = (sent s ++ l1 ++ a1 ++ l2 ++ a2)%list /\
     at_most_once (login_request config) l1 /\
     at_most_once (preferences_request config) a1 /\
     at_most_once (login_request config) l2 /\
     at_most_once (preferences_request config) a2 /\
     (opt_truthy (qbittorrent_username config) = false ->
      l1 = [] /\ l2 = []) /\
     (_authenticated s = true -> l1 = [])) /\
  (exists l1 a1 l2 a2,
     sent (snd (QBittorrentClient_set_listen_port http lib config port s))
     = (sent s ++ l1 ++ a1 ++ l2 ++ a2)%list /\
     at_most_once (login_request config) l1 /\
     at_most_once (set_preferences_request lib config port) a1 /\
     at_most_once (login_request config) l2 /\
     at_most_once (set_preferences_request lib config port) a2 /\
     (opt_truthy (qbittorrent_username config) = false ->
      l1 = [] /\ l2 = []) /\
     (_authenticated s = true -> l1 = [])).
Proof.
  split.
  - destruct (get_listen_port_runs s)
      as (out & s' & l1 & a1 & l2 & a2 & -> & H).
    exists l1, a1, l2, a2. cbn [snd]. tauto.
  - destruct (set_listen_port_runs port s)
      as (out & s' & l1 & a1 & l2 & a2 & -> & H).
    exists l1, a1, l2, a2. cbn [snd]. tauto.
Qed.

(** Neither call returns anything but a well-formed result: a success
    carries a port (for [set_listen_port], the port it was given) and
    no error, and leaves the session marked authenticated; a failure
    carries no port and an explanation.  And [set_listen_port] raises
    nothing of its own: an exception that leaves it is one that the
    session raised for the login request or for the write. *)
Theorem qbittorrent_results_are_well_formed port s :
  (forall r,
   fst (QBittorrentClient_get_listen_port http lib config s) = inl r ->
   (QBittorrent.success r = true ->
    (exists i, r = QBittorrent.mkResult true (Some i) None false) /\
    _authenticated
      (snd (QBittorrentClient_get_listen_port http lib config s)) = true) /\
   (QBittorrent.success r = false -> is_failure r)) /\
  (forall r,
   fst (QBittorrentClient_set_listen_port http lib config port s) = inl r ->
   (QBittorrent.success r = true ->
    r = QBittorrent.mkResult true (Some port) None false /\
    _authenticated
      (snd (QBittorrentClient_set_listen_port http lib config port s))
    = true) /\
   (QBittorrent.success r = false -> is_failure r)) /\
  (forall e,
   fst (QBittorrentClient_set_listen_port http lib config port s) = inr e ->
   request_raises http (login_request config) e \/
   request_raises http (set_preferences_request lib config port) e).
Proof.
  split; [|split].
  - intros r Hr.
    destruct (get_listen_port_runs s)
      as (out & s' & l1 & a1 & l2 & a2 & Hrun & _ & _ & _ & _ & _ & _ & _ & H).
    rewrite Hrun in *. cbn [fst snd] in *. subst out. tauto.
  - intros r Hr.
    destruct (set_listen_port_runs port s)
      as (out & s' & l1 & a1 & l2 & a2 & Hrun & _ & _ & _ & _ & _ & _ & _ & H).
    rewrite Hrun in *. cbn [fst snd] in *. subst out. tauto.
  - intros e He.
    destruct (set_listen_port_runs port s)
      as (out & s' & l1 & a1 & l2 & a2 & Hrun & _ & _ & _ & _ & _ & _ & _ & H).
    rewrite Hrun in *. cbn [fst snd] in *. subst out. exact H.
Qed.

(** An authentication failure is only ever the answer to a login: when
    either call returns one, a user name is configured and the last
    request it sent was the login request. *)
Theorem qbittorrent_auth_failure_comes_from_login port s :
  (forall r,
   fst (QBittorrentClient_get_listen_port http lib config s) = inl r ->
   QBittorrent.is_auth_error r = true ->
   opt_truthy (qbittorrent_username config) = true /\
   exists before,
     sent (snd (QBittorrentClient_get_listen_port http lib config s))
     = (sent s ++ before ++ [login_request config])%list) /\
  (forall r,
   fst (QBittorrentClient_set_listen_port http lib config port s) = inl r ->
   QBittorrent.is_auth_error r = true ->
   opt_truthy (qbittorrent_username config) = true /\
   exists before,
     sent (snd (QBittorrentClient_set_listen_port http lib config port s))
     = (sent s ++ before ++ [login_request config])%list).
Proof.
  assert (Hlast : forall (l1 a1 l2 a2 : list Request),
            (opt_truthy (qbittorrent_username config) = false ->
             l1 = [] /\ l2 = []) ->
            a2 = [] /\
            (l2 = [login_request config] \/
             l1 = [login_request config] /\ a1 = []) ->
            at_most_once (login_request config) l2 ->
            opt_truthy (qbittorrent_username config) = true /\
            exists before,
              (l1 ++ a1 ++ l2 ++ a2 = before ++ [login_request config])%list).
  { intros l1 a1 l2 a2 Huser [-> [-> | [-> ->]]] Hl2.
    - split.
      + destruct (opt_truthy (qbittorrent_username config)); [reflexivity|].
        destruct (Huser eq_refl) as [_ H]. discriminate H.
      + exists (l1 ++ a1)%list. now rewrite app_nil_r, app_assoc.
    - split.
      + destruct (opt_truthy (qbittorrent_username config)); [reflexivity|].
        destruct (Huser eq_refl) as [H _]. discriminate H.
      + destruct Hl2 as [-> | ->].
        * now exists [].
        * now exists [login_request config]. }
  split; intros r Hr Hauth.
  - destruct (get_listen_port_runs s)
      as (out & s' & l1 & a1 & l2 & a2 & Hrun & Hsent & _ & _ & Hl2 & _
          & Huser & _ & H).
    rewrite Hrun in *. cbn [fst snd] in *. subst out.
    destruct H as (_ & _ & H).
    destruct (Hlast l1 a1 l2 a2 Huser (H Hauth) Hl2) as [Hu [before Hb]].
    split; [exact Hu|]. exists before. now rewrite Hsent, Hb.
  - destruct (set_listen_port_runs port s)
      as (out & s' & l1 & a1 & l2 & a2 & Hrun & Hsent & _ & _ & Hl2 & _
          & Huser & _ & H).
    rewrite Hrun in *. cbn [fst snd] in *. subst out.
    destruct H as (_ & _ & H).
    destruct (Hlast l1 a1 l2 a2 Huser (H Hauth) Hl2) as [Hu [before Hb]].
    split; [exact Hu|]. exists before. now rewrite Hsent, Hb.
Qed.

Ltac unfold_client :=
  unfold QBittorrentClient_get_listen_port, QBittorrentClient_set_listen_port,
    _request, _request_body, _login, then_, debug, send, unit_, escape,
    set_authenticated, get_authenticated.

Ltac unfold_requests H :=
  unfold preferences_request, set_preferences_request, api_request,
    login_request in H.

(** A session that has expired is renewed within the call: when the
    session is marked authenticated and the request is answered 403, the
    client logs in again and repeats the request once; with the login
    accepted and the second answer in order, the call succeeds and the
    caller sees nothing of it. *)
Theorem qbittorrent_reauthenticates_once s r1 w1 r2 w2 r3 w3 items i :
  opt_truthy (qbittorrent_username config) = true ->
  _authenticated s = true ->
  http (preferences_request config) (server s) = (Responded r1, w1) ->
  status_code r1 = 403 ->
  http (login_request config) w1 = (Responded r2, w2) ->
  status_code r2 = 200 ->
  str_lower lib (str_strip lib (text r2)) = "ok." ->
  http (preferences_request config) w2 = (Responded r3, w3) ->
  status_code r3 = 200 ->
  json r3 = inr (PyDict items) ->
  dict_get items "listen_port" = PyInt i ->
  fst (QBittorrentClient_get_listen_port http lib config s)
  = inl (QBittorrent.mkResult true (Some i) None false) /\
  sent (snd (QBittorrentClient_get_listen_port http lib config s))
  = (sent s ++ [preferences_request config; login_request config;
                preferences_request config])%list /\
  _authenticated (snd (QBittorrentClient_get_listen_port http lib config s))
  = true.
Proof.
  intros Huser Hauth H1 Hc1 H2 Hc2 Hok H3 Hc3 Hjson Hport.
  unfold_requests H1. unfold_requests H2. unfold_requests H3.
  unfold preferences_request, api_request, login_request.
  unfold_client.
  assert (E1 : (status_code r1 =? 403) = true) by now rewrite Hc1.
  assert (E2 : (status_code r2 =? 403) = false) by now rewrite Hc2.
  assert (E2' : (status_code r2 =? 200) = true) by now rewrite Hc2.
  assert (E3 : (status_code r3 =? 200) = true) by now rewrite Hc3.
  assert (Eok : String.eqb (str_lower lib (str_strip lib (text r2))) "ok."
                = true) by now rewrite Hok.
  rewrite Huser. cbn. rewrite Hauth. cbn.
  rewrite H1. cbn. rewrite E1. cbn.
  rewrite H2. cbn. rewrite E2, E2'. cbn. rewrite Eok. cbn.
  rewrite H3. cbn. rewrite E3. cbn.
  rewrite Hjson. cbn. rewrite Hport. cbn.
  rewrite <- !app_assoc. auto.
Qed.

(** A request that stays forbidden is not reported as an authentication
    failure: without a user name configured, a 403 on the request and
    another 403 on its one repetition give the transient failure
    "Failed to get preferences: 403". *)
Theorem qbittorrent_forbidden_twice_is_transient s r1 w1 r2 w2 :
  opt_truthy (qbittorrent_username config) = false ->
  http (preferences_request config) (server s) = (Responded r1, w1) ->
  status_code r1 = 403 ->
  http (preferences_request config) w1 = (Responded r2, w2) ->
  status_code r2 = 403 ->
  fst (QBittorrentClient_get_listen_port http lib config s)
  = inl (QBittorrent.mkResult false None
           (Some "Failed to get preferences: 403") false) /\
  sent (snd (QBittorrentClient_get_listen_port http lib config s))
  = (sent s ++ [preferences_request config; preferences_request config])%list.
Proof.
  intros Huser H1 Hc1 H2 Hc2.
  unfold_requests H1. unfold_requests H2.
  unfold preferences_request, api_request.
  unfold_client.
  assert (E1 : (status_code r1 =? 403) = true) by now rewrite Hc1.
  assert (E2 : (status_code r2 =? 200) = false) by now rewrite Hc2.
  rewrite Huser. cbn.
  rewrite H1. cbn. rewrite E1. cbn.
  rewrite H2. cbn. rewrite E2. cbn. rewrite Hc2.
  rewrite <- !app_assoc. auto.
Qed.

(** With no login to make, an exception escapes [get_listen_port] on a
    response with status 200 and a body that parses exactly when the
    parsed body is no object ([AttributeError]), or its "listen_port" is
    a list or an object ([TypeError]) or an infinite number
    ([OverflowError]). *)
Theorem qbittorrent_escapes s response w data e :
  opt_truthy (qbittorrent_username config) = false \/
  _authenticated s = true ->
  http (preferences_request config) (server s) = (Responded response, w) ->
  status_code response = 200 ->
  json response = inr data ->
  fst (QBittorrentClient_get_listen_port http lib config s) = inr e
  <-> value_escapes "listen_port" data = Some e.
Proof.
  intros Hlogin Hhttp Hcode Hjson.
  unfold_requests Hhttp.
  assert (Hrun :
            fst (QBittorrentClient_get_listen_port http lib config s)
            = match py_get data "listen_port" with
              | inl port =>
                if py_is_none port
                then inl (qbittorrent_failure "listen_port not in response")
                else match py_int lib port with
                     | Converted i =>
                       inl (QBittorrent.mkResult true (Some i) None false)
                     | NotAnInt m =>
                       inl (qbittorrent_failure
                              ("Invalid response format: " ++ m))
                     | Escapes x => inr x
                     end
              | inr x => inr x
              end).
  { assert (E403 : (status_code response =? 403) = false)
      by now rewrite Hcode.
    assert (E200 : (status_code response =? 200) = true)
      by now rewrite Hcode.
    unfold_client.
    destruct (opt_truthy (qbittorrent_username config)) eqn:Huser;
      cbn [negb];
      [destruct Hlogin as [Hlogin|Hlogin]; [discriminate|]; rewrite Hlogin|];
      cbn; rewrite Hhttp; cbn; rewrite E403, E200; cbn; rewrite Hjson; cbn;
      (destruct (py_get data "listen_port") as [port|x]; cbn;
       [destruct (py_is_none port); cbn;
        [reflexivity|destruct (py_int lib port); reflexivity]
       |reflexivity]). }
  rewrite Hrun. clear.
  destruct data as [ | b | i | f | str | l | items]; cbn;
    try (split; congruence).
  destruct (dict_get items "listen_port") as [ | b | i | f | str | l | d]; cbn;
    try (split; congruence).
  - destruct f; cbn; split; congruence.
  - destruct (int_of_str lib str); cbn; split; congruence.
Qed.

End QBittorrentClient.

(** *** Runs of the qBittorrent client on scripted responses *)

Example expired_session_run :
  QBittorrentClient_get_listen_port scripted_server plain_lib admin_config
    (authenticated_session expired_session_script)
  = (inl (qbittorrent_ok 12345),
     {| server := [];
        sent := [preferences_request admin_config;
                 login_request admin_config;
                 preferences_request admin_config];
        client_log :=
          [(DEBUG, "GET http://localhost:8080/api/v2/app/preferences");
           (DEBUG, "Response: 403");
           (DEBUG, "Got 403, retrying with fresh login");
           (DEBUG, "POST http://localhost:8080/api/v2/auth/login (login)");
           (DEBUG, "Response: 200 Ok.");
           (DEBUG, "qBittorrent login successful");
           (DEBUG, "GET http://localhost:8080/api/v2/app/preferences");
           (DEBUG, "Response: 200");
           (DEBUG, "Current listen port: ")];
        _authenticated := true |}).
Proof. reflexivity. Qed.

Example changed_password_run :
  QBittorrentClient_get_listen_port scripted_server plain_lib admin_config
    (authenticated_session changed_password_script)
  = (inl (QBittorrent.mkResult false None
            (Some "Authentication failed (invalid credentials)") true),
     {| server := [];
        sent := [preferences_request admin_config; login_request admin_config];
        client_log :=
          [(DEBUG, "GET http://localhost:8080/api/v2/app/preferences");
           (DEBUG, "Response: 403");
           (DEBUG, "Got 403, retrying with fresh login");
           (DEBUG, "POST http://localhost:8080/api/v2/auth/login (login)");
           (DEBUG, "Response: 200 Fails.")];
        _authenticated := false |}).
Proof. reflexivity. Qed.

Lemma qbittorrent_results_are_well_formed_witness :
  ((exists i,
      qbittorrent_ok 12345 = QBittorrent.mkResult true (Some i) None false) /\
   _authenticated
     (snd (QBittorrentClient_get_listen_port scripted_server plain_lib
             admin_config (authenticated_session expired_session_script)))
   = true) /\
  exists message,
    request_raises scripted_server (login_request admin_config)
      (ValueError message) \/
    request_raises scripted_server
      (set_preferences_request plain_lib admin_config 54321)
      (ValueError message).
Proof.
  split.
  - apply (proj1 (qbittorrent_results_are_well_formed scripted_server plain_lib
                    admin_config 54321
                    (authenticated_session expired_session_script))
             (qbittorrent_ok 12345));
      reflexivity.
  - eexists.
    apply (proj2 (proj2 (qbittorrent_results_are_well_formed scripted_server
                           plain_lib admin_config 54321
                           (new_session [rejected_timeout])))).
    reflexivity.
Defined.

Lemma qbittorrent_auth_failure_comes_from_login_witness :
  opt_truthy (qbittorrent_username admin_config) = true /\
  exists before,
    sent (snd (QBittorrentClient_get_listen_port scripted_server plain_lib
                 admin_config (authenticated_session changed_password_script)))
    = ([] ++ before ++ [login_request admin_config])%list.
Proof.
  apply (proj1 (qbittorrent_auth_failure_comes_from_login scripted_server
                  plain_lib admin_config 54321
                  (authenticated_session changed_password_script))
           (QBittorrent.mkResult false None
              (Some "Authentication failed (invalid credentials)") true));
    reflexivity.
Defined.

Lemma qbittorrent_reauthenticates_once_witness :
  fst (QBittorrentClient_get_listen_port scripted_server plain_lib admin_config
         (authenticated_session expired_session_script))
  = inl (QBittorrent.mkResult true (Some 12345) None false) /\
  sent (snd (QBittorrentClient_get_listen_port scripted_server plain_lib
               admin_config (authenticated_session expired_session_script)))
  = [preferences_request admin_config; login_request admin_config;
     preferences_request admin_config] /\
  _authenticated
    (snd (QBittorrentClient_get_listen_port scripted_server plain_lib
            admin_config (authenticated_session expired_session_script)))
  = true.
Proof.
  apply (qbittorrent_reauthenticates_once scripted_server plain_lib admin_config
           (authenticated_session expired_session_script)
           (mkResponse 403 "Forbidden"
              (inl "Expecting value: line 1 column 1 (char 0)"))
           [text_response 200 "Ok.";
            json_response 200 (PyDict [("listen_port", PyInt 12345)])]
           (mkResponse 200 "Ok."
              (inl "Expecting value: line 1 column 1 (char 0)"))
           [json_response 200 (PyDict [("listen_port", PyInt 12345)])]
           (mkResponse 200 "" (inr (PyDict [("listen_port", PyInt 12345)])))
           []
           [("listen_port", PyInt 12345)] 12345);
    reflexivity.
Defined.

Lemma qbittorrent_forbidden_twice_is_transient_witness :
  fst (QBittorrentClient_get_listen_port scripted_server plain_lib
         (local_config None None None)
         (new_session [text_response 403 "Forbidden";
                       text_response 403 "Forbidden"]))
  = inl (QBittorrent.mkResult false None
           (Some "Failed to get preferences: 403") false) /\
  sent (snd (QBittorrentClient_get_listen_port scripted_server plain_lib
               (local_config None None None)
               (new_session [text_response 403 "Forbidden";
                             text_response 403 "Forbidden"])))
  = [preferences_request (local_config None None None);
     preferences_request (local_config None None None)].
Proof.
  apply (qbittorrent_forbidden_twice_is_transient scripted_server plain_lib
           (local_config None None None)
           (new_session [text_response 403 "Forbidden";
                         text_response 403 "Forbidden"])
           (mkResponse 403 "Forbidden"
              (inl "Expecting value: line 1 column 1 (char 0)"))
           [text_response 403 "Forbidden"]
           (mkResponse 403 "Forbidden"
              (inl "Expecting value: line 1 column 1 (char 0)"))
           []);
    reflexivity.
Defined.

Lemma qbittorrent_escapes_witness :
  fst (QBittorrentClient_get_listen_port scripted_server plain_lib
         (local_config None None None)
         (new_session
            [json_response 200 (PyDict [("listen_port", PyList [])])]))
  = inr TypeError.
Proof.
  apply (qbittorrent_escapes scripted_server plain_lib
           (local_config None None None)
           (new_session
              [json_response 200 (PyDict [("listen_port", PyList [])])])
           (mkResponse 200 "" (inr (PyDict [("listen_port", PyList [])])))
           [] (PyDict [("listen_port", PyList [])]) TypeError);
    try reflexivity.
  left. reflexivity.
Defined.

(* ===================================================================== *)
(** ** The orchestrator on the two clients *)

Section RaisingGluetun.

Context {World : Type}.
Variable clients : Clients World.
Variable config : Config.

Local Arguments str_int : simpl never.
Local Arguments String.append : simpl never.

(** A query of Gluetun that raises ends the cycle at once. *)
Lemma gluetun_raised_cycle st e w :
  get_forwarded_port clients (world st) = (Raise e, w) ->
  fst (sync_port clients config st) = Raise e /\
  calls (snd (sync_port clients config st))
  = (calls st ++ [GetForwardedPortRaised e])%list /\
  health_state (snd (sync_port clients config st)) = health_state st.
Proof.
  intros Hg. unfold sync_port, bind, gluetun_get_forwarded_port.
  rewrite Hg. cbn. auto.
Qed.

(** A first probe of Gluetun that raises ends the startup gate at once. *)
Lemma gluetun_raised_gate st e w :
  1 <= startup_max_attempts config ->
  get_forwarded_port clients (world st) = (Raise e, w) ->
  fst (wait_for_services clients config st) = Raise e /\
  calls (snd (wait_for_services clients config st))
  = (calls st ++ [GetForwardedPortRaised e])%list /\
  health_state (snd (wait_for_services clients config st)) = health_state st.
Proof.
  intros Hattempts Hg.
  unfold wait_for_services, py_range.
  replace (Z.to_nat (startup_max_attempts config + 1 - 1))
    with (S (Z.to_nat (startup_max_attempts config - 1))) by lia.
  cbn [seq map wait_for_services_loop].
  unfold bind, logger, gluetun_check_ready, gluetun_get_forwarded_port.
  cbn. rewrite Hg. cbn. auto.
Qed.

End RaisingGluetun.

Section Wiring.

Context {Server : Type}.
Variable http : Request -> Server -> HttpOutcome * Server.
Variable lib : PyLib.
Variable config : AppConfig.
Variable clock : Z -> Session Server -> option Exception * Session Server.

Local Arguments str_int : simpl never.
Local Arguments String.append : simpl never.

(** An exception that the session raises for the request to Gluetun,
    and that is not one of [requests], goes through the client and
    through the orchestrator: the cycle raises it after that one call
    and leaves the health state as it was, and so does the startup gate
    when it has an attempt to make; a pass through the loop of [run]
    catches it and turns the state unhealthy with its text. *)
Theorem request_exception_goes_through str_exc st e w :
  http (forwarded_port_request config) (server (world st))
  = (RequestRaised e, w) ->
  (fst (sync_port (rest_clients http lib config clock) (timing config) st)
   = Raise e /\
   calls (snd (sync_port (rest_clients http lib config clock)
                 (timing config) st))
   = (calls st ++ [GetForwardedPortRaised e])%list /\
   health_state (snd (sync_port (rest_clients http lib config clock)
                        (timing config) st))
   = health_state st) /\
  (1 <= startup_max_attempts (timing config) ->
   fst (wait_for_services (rest_clients http lib config clock)
          (timing config) st)
   = Raise e /\
   health_state (snd (wait_for_services (rest_clients http lib config clock)
                        (timing config) st))
   = health_state st) /\
  get_status
    (health_state (snd (run_iteration (rest_clients http lib config clock)
                          str_exc (timing config) st)))
  = (false, str_exc e).
Proof.
  intros Hhttp.
  assert (Hcall : exists s1,
             get_forwarded_port (rest_clients http lib config clock) (world st)
             = (Raise e, s1)).
  { cbn [get_forwarded_port rest_clients].
    unfold GluetunClient_get_forwarded_port, then_, debug, send, unit_, escape.
    unfold forwarded_port_request in Hhttp.
    cbn [server]. rewrite Hhttp. cbn. eauto. }
  destruct Hcall as [s1 Hcall].
  destruct (gluetun_raised_cycle (rest_clients http lib config clock)
              (timing config) st e s1 Hcall) as (Hout & Hcalls & Hhealth).
  split; [auto|]. split.
  - intros Hattempts.
    destruct (gluetun_raised_gate (rest_clients http lib config clock)
                (timing config) st e s1 Hattempts Hcall) as (Hg & _ & Hh).
    auto.
  - destruct (run_iteration_runs (rest_clients http lib config clock)
                (timing config) str_exc st) as (s2 & _ & Hh2 & ->).
    rewrite Hout in Hh2.
    destruct (time_sleep_runs (rest_clients http lib config clock)
                (poll_interval (timing config)) s2)
      as [(x & _ & _ & H & _) | (_ & _ & H)]; rewrite H, Hh2; reflexivity.
Qed.

End Wiring.

(** With [REQUEST_TIMEOUT=0] the startup gate raises at its first probe. *)
Lemma request_exception_goes_through_witness :
  exists message,
    fst (wait_for_services
           (rest_clients scripted_server plain_lib zero_timeout_config
              steady_clock)
           (timing zero_timeout_config) (fresh_on [rejected_timeout]))
    = Raise (ValueError message) /\
    health_state
      (snd (wait_for_services
              (rest_clients scripted_server plain_lib zero_timeout_config
                 steady_clock)
              (timing zero_timeout_config) (fresh_on [rejected_timeout])))
    = HealthState_init.
Proof.
  eexists.
  apply (proj1 (proj2 (request_exception_goes_through scripted_server plain_lib
                         zero_timeout_config steady_clock (fun _ => "error")
                         (fresh_on [rejected_timeout]) _ []
                         eq_refl))).
  cbn. lia.
Defined.
